(** * Incident aggregation, prioritisation and hunting: a shallow embedding

    The Python sources modelled here are
    [lib/security_integrations/ai_agent.py] (class [IncidentResponseAgent])
    and [lib/security_integrations/threat_hunting.py] (class
    [ThreatHuntingEngine]).

    Python values are embedded as a small JSON-like universe, Python
    exceptions as an error monad, and the language-model client as an
    oracle from the data interpolated into a prompt to either a completion
    text or a raised exception. *)

From Stdlib Require Import String Ascii.
From Stdlib Require Import List ZArith NArith Bool Lia.
From Stdlib Require Import Permutation.
Import ListNotations.

Set Implicit Arguments.
Set Warnings "-register-all".
Local Open Scope Z_scope.

(** ** Python strings *)

(** A Python [str] is a sequence of Unicode code points. *)
Definition char := N.
Definition pystr := list char.

(** Literal of the source text, character by character. *)
Definition str (s : string) : pystr :=
  map N_of_ascii (list_ascii_of_string s).

(** The line feed, written ['\n'] in the source. *)
Definition LF : char := 10%N.

Module Str.

Fixpoint eqb (s t : pystr) : bool :=
  match s, t with
  | [], [] => true
  | c :: s', d :: t' => (c =? d)%N && eqb s' t'
  | _, _ => false
  end.

(** [s.startswith(sub)] *)
Fixpoint startswith (s sub : pystr) : bool :=
  match sub, s with
  | [], _ => true
  | c :: sub', d :: s' => (c =? d)%N && startswith s' sub'
  | _ :: _, [] => false
  end.

(** [s.find(sub)]: lowest index at which [sub] occurs, [-1] if none. *)
Fixpoint find_from (s sub : pystr) (i : Z) : Z :=
  if startswith s sub then i
  else match s with
       | [] => -1
       | _ :: s' => find_from s' sub (i + 1)
       end.

Definition find (s sub : pystr) : Z := find_from s sub 0.

(** [s.rfind(sub)]: highest index at which [sub] occurs, [-1] if none. *)
Fixpoint rfind_from (s sub : pystr) (i : Z) : Z :=
  match s with
  | [] => if startswith [] sub then i else -1
  | _ :: s' =>
      let r := rfind_from s' sub (i + 1) in
      if 0 <=? r then r
      else if startswith s sub then i else -1
  end.

Definition rfind (s sub : pystr) : Z := rfind_from s sub 0.

(** [sub in s] *)
Definition contains (s sub : pystr) : bool := 0 <=? find s sub.

(** A slice bound as Python normalises it: a negative bound counts from
    the end, and every bound is clamped to [0 .. len]. *)
Definition bound (len i : Z) : Z :=
  if i <? 0 then Z.max 0 (i + len) else Z.min i len.

(** [s[start:stop]] *)
Definition slice {A} (s : list A) (start stop : Z) : list A :=
  let len := Z.of_nat (length s) in
  let a := bound len start in
  let b := bound len stop in
  firstn (Z.to_nat (b - a)) (skipn (Z.to_nat a) s).

(** [s[start:]] *)
Definition slice_from {A} (s : list A) (start : Z) : list A :=
  skipn (Z.to_nat (bound (Z.of_nat (length s)) start)) s.

(** [s[:stop]] *)
Definition slice_to {A} (s : list A) (stop : Z) : list A :=
  firstn (Z.to_nat (bound (Z.of_nat (length s)) stop)) s.

(** The characters [str.strip()] removes: the code points for which
    [str.isspace()] holds. *)
Definition is_space (c : char) : bool :=
  ((9 <=? c) && (c <=? 13) || (28 <=? c) && (c <=? 32)
   || (c =? 133) || (c =? 160) || (c =? 5760)
   || (8192 <=? c) && (c <=? 8202)
   || (c =? 8232) || (c =? 8233) || (c =? 8239) || (c =? 8287)
   || (c =? 12288))%N.

Fixpoint lstrip_by (p : char -> bool) (s : pystr) : pystr :=
  match s with
  | [] => []
  | c :: s' => if p c then lstrip_by p s' else s
  end.

Definition rstrip_by (p : char -> bool) (s : pystr) : pystr :=
  rev (lstrip_by p (rev s)).

(** [s.strip()] *)
Definition strip (s : pystr) : pystr :=
  rstrip_by is_space (lstrip_by is_space s).

(** [s.lstrip(chars)] *)
Definition lstrip (chars s : pystr) : pystr :=
  lstrip_by (fun c => existsb (N.eqb c) chars) s.

(** [s.split(sep)] for a one-character separator. *)
Fixpoint split (sep : char) (s : pystr) : list pystr :=
  match s with
  | [] => [[]]
  | c :: s' =>
      if (c =? sep)%N then [] :: split sep s'
      else match split sep s' with
           | l :: ls => (c :: l) :: ls
           | [] => [[c]]
           end
  end.

End Str.

(** ** Python values *)

(** The values that flow through the modelled code are those of decoded
    JSON: vendor records and what [json.loads] returns.  [json.dumps]
    accepts every such value, so building a prompt out of them does not
    raise.  A float is kept as the numeral it was read from: no modelled
    operation inspects one. *)
Inductive pyval : Type :=
| VNone
| VBool (b : bool)
| VInt (z : Z)
| VFloat (numeral : pystr)
| VStr (s : pystr)
| VList (l : list pyval)
| VDict (d : list (pystr * pyval)).

(** A [dict] with string keys, in insertion order. *)
Definition dict := list (pystr * pyval).

Fixpoint dict_lookup (k : pystr) (d : dict) : option pyval :=
  match d with
  | [] => None
  | (k', v) :: d' => if Str.eqb k k' then Some v else dict_lookup k d'
  end.

(** [d.get(k, default)] *)
Definition dict_get (d : dict) (k : pystr) (default : pyval) : pyval :=
  match dict_lookup k d with
  | Some v => v
  | None => default
  end.

(** [d[k] = v]: an existing key keeps its position. *)
Fixpoint dict_set (d : dict) (k : pystr) (v : pyval) : dict :=
  match d with
  | [] => [(k, v)]
  | (k', v') :: d' =>
      if Str.eqb k k' then (k', v) :: d' else (k', v') :: dict_set d' k v
  end.

(** ** Exceptions

    [LoadsError] stands for whatever [json.loads] raises when it refuses
    a text: a [JSONDecodeError], the [ValueError] of an integer too long
    to convert, or a [RecursionError].  Which of these it is can depend on
    how close to the recursion limit the refusal happens; the modelled
    code catches them alike, with [except Exception]. *)

Inductive exn : Type :=
| AttributeError
| TypeError
| IndexError
| KeyError
| LoadsError
| APIError.

Inductive res (A : Type) : Type :=
| Ok (a : A)
| Raise (e : exn).

Arguments Ok {A} a.
Arguments Raise {A} e.

Definition bind {A B} (m : res A) (k : A -> res B) : res B :=
  match m with
  | Ok a => k a
  | Raise e => Raise e
  end.

Notation "x <- m ;; k" := (bind m (fun x => k))
  (at level 61, m at next level, right associativity).

(** [try: body  except Exception: handler] *)
Definition try_except {A} (body : res A) (handler : exn -> res A) : res A :=
  match body with
  | Ok a => Ok a
  | Raise e => handler e
  end.

(** The body of a [for] loop that appends one item per element. *)
Fixpoint for_each {A B} (f : A -> res B) (xs : list A) : res (list B) :=
  match xs with
  | [] => Ok []
  | x :: xs' => y <- f x ;; ys <- for_each f xs' ;; Ok (y :: ys)
  end.

(** The body of a [for] loop that appends at most one item per element. *)
Fixpoint for_each_opt {A B} (f : A -> res (option B)) (xs : list A)
  : res (list B) :=
  match xs with
  | [] => Ok []
  | x :: xs' =>
      y <- f x ;;
      ys <- for_each_opt f xs' ;;
      Ok (match y with Some b => b :: ys | None => ys end)
  end.

(** [o.get(k, default)]: only a [dict] has the method. *)
Definition py_get (o : pyval) (k : pystr) (default : pyval) : res pyval :=
  match o with
  | VDict d => Ok (dict_get d k default)
  | _ => Raise AttributeError
  end.

(** [for x in o]: the items the loop visits. *)
Definition py_iter (o : pyval) : res (list pyval) :=
  match o with
  | VList l => Ok l
  | VStr s => Ok (map (fun c => VStr [c]) s)
  | VDict d => Ok (map (fun kv => VStr (fst kv)) d)
  | _ => Raise TypeError
  end.

(** [o[0]] *)
Definition py_item0 (o : pyval) : res pyval :=
  match o with
  | VList (x :: _) => Ok x
  | VList [] => Raise IndexError
  | VStr (c :: _) => Ok (VStr [c])
  | VStr [] => Raise IndexError
  | VDict _ => Raise KeyError
  | _ => Raise TypeError
  end.

(** ** The interpreter

    What the modelled code leaves to the interpreter it runs on (the
    package asks for Python 3.10 or later) and to the state of the run. *)
Record interpreter : Type := {
  (** [sys.get_int_max_str_digits()]: the longest integer text that
      [int] converts, 4300 by default; 0 when there is no limit, as on an
      interpreter that predates it. *)
  int_max_str_digits : nat;
  (** How many arrays and objects, one inside the other, the recursion
      limit lets the JSON decoder enter at the point of the call. *)
  json_depth : nat;
  (** Whether a [slice] can be hashed, as it can from Python 3.12. *)
  hashable_slices : bool
}.

(** [o[:n]].  A [dict] takes the slice as a key: it cannot hash it, or,
    where slices are hashable, does not find it, its keys being strings. *)
Definition py_slice_to (py : interpreter) (o : pyval) (n : Z) : res pyval :=
  match o with
  | VList l => Ok (VList (Str.slice_to l n))
  | VStr s => Ok (VStr (Str.slice_to s n))
  | VDict _ => Raise (if hashable_slices py then KeyError else TypeError)
  | _ => Raise TypeError
  end.

(** [o in [s1, ..., sn]] for string literals: [==] against a [str] holds
    for the equal [str] only. *)
Definition py_in_strs (o : pyval) (l : list pystr) : bool :=
  match o with
  | VStr s => existsb (Str.eqb s) l
  | _ => false
  end.

(** ** [json.loads]

    The decoder of the standard library, as the modelled code uses it
    (default arguments, [str] input): one JSON value surrounded by optional
    white space.  The decoder refuses a malformed text, an integer with
    more digits than the interpreter converts, and an array or object
    nested deeper than the recursion limit allows; it then raises
    [LoadsError]. *)
Module Json.

Definition is_ws (c : char) : bool :=
  ((c =? 32) || (c =? 9) || (c =? 10) || (c =? 13))%N.

Fixpoint skip_ws (s : pystr) : pystr :=
  match s with
  | c :: s' => if is_ws c then skip_ws s' else s
  | [] => []
  end.

Definition is_digit (c : char) : bool := ((48 <=? c) && (c <=? 57))%N.

Definition hex_digit (c : char) : option N :=
  if is_digit c then Some (c - 48)%N
  else if ((97 <=? c) && (c <=? 102))%N then Some (c - 87)%N
  else if ((65 <=? c) && (c <=? 70))%N then Some (c - 55)%N
  else None.

(** The four hexadecimal digits of a [\uXXXX] escape. *)
Definition hex4 (s : pystr) : option (N * pystr) :=
  match s with
  | a :: b :: c :: d :: s' =>
      match hex_digit a, hex_digit b, hex_digit c, hex_digit d with
      | Some x, Some y, Some z, Some w =>
          Some (((x * 16 + y) * 16 + z) * 16 + w, s')%N
      | _, _, _, _ => None
      end
  | _ => None
  end.

Definition simple_escape (c : char) : option char :=
  if (c =? 34)%N then Some 34%N            (* quote *)
  else if (c =? 92)%N then Some 92%N       (* backslash *)
  else if (c =? 47)%N then Some 47%N       (* slash *)
  else if (c =? 98)%N then Some 8%N        (* backspace *)
  else if (c =? 102)%N then Some 12%N      (* form feed *)
  else if (c =? 110)%N then Some 10%N      (* line feed *)
  else if (c =? 114)%N then Some 13%N      (* carriage return *)
  else if (c =? 116)%N then Some 9%N       (* tab *)
  else None.

(** [s] with the literal [lit] removed from its front. *)
Definition after (lit s : pystr) : option pystr :=
  if Str.startswith s lit then Some (skipn (List.length lit) s) else None.

(** A [\uXXXX] escape, joined with a following low surrogate when it is
    a high surrogate. *)
Definition unicode_escape (s : pystr) : option (char * pystr) :=
  match hex4 s with
  | None => None
  | Some (u, s1) =>
      if ((55296 <=? u) && (u <=? 56319))%N then
        match after (str "\u") s1 with
        | Some s2 =>
            match hex4 s2 with
            | None => None
            | Some (u2, s3) =>
                if ((56320 <=? u2) && (u2 <=? 57343))%N
                then Some (65536 + ((u - 55296) * 1024 + (u2 - 56320)), s3)%N
                else Some (u, s1)
            end
        | None => Some (u, s1)
        end
      else Some (u, s1)
  end.

(** The characters of a string literal after its opening quote, and the
    text after its closing quote. *)
Fixpoint scanstring (fuel : nat) (s : pystr) : option (pystr * pystr) :=
  match fuel with
  | O => None
  | S fuel' =>
      match s with
      | [] => None
      | c :: s' =>
          if (c =? 34)%N then Some ([], s')
          else if (c =? 92)%N then
            match s' with
            | [] => None
            | e :: s'' =>
                match (if (e =? 117)%N then unicode_escape s''
                       else match simple_escape e with
                            | Some x => Some (x, s'')
                            | None => None
                            end) with
                | None => None
                | Some (x, r) =>
                    match scanstring fuel' r with
                    | Some (cs, r') => Some (x :: cs, r')
                    | None => None
                    end
                end
            end
          else if (c <? 32)%N then None
          else match scanstring fuel' s' with
               | Some (cs, r') => Some (c :: cs, r')
               | None => None
               end
      end
  end.

Fixpoint span_digits (s : pystr) : pystr * pystr :=
  match s with
  | c :: s' =>
      if is_digit c
      then let (ds, r) := span_digits s' in (c :: ds, r)
      else ([], s)
  | [] => ([], [])
  end.

Definition digits_value (ds : pystr) : Z :=
  fold_left (fun acc c => acc * 10 + Z.of_N (c - 48)) ds 0.

(** The integer part of a numeral: [0], or a non-zero digit and more
    digits. *)
Definition integer_part (s : pystr) : option (pystr * pystr) :=
  match s with
  | c :: s' =>
      if (c =? 48)%N then Some ([c], s')
      else if is_digit c
           then let (ds, r) := span_digits s' in Some (c :: ds, r)
           else None
  | [] => None
  end.

(** A point followed by at least one digit. *)
Definition fraction_part (s : pystr) : pystr * pystr :=
  match after (str ".") s with
  | Some s' =>
      match span_digits s' with
      | ([], _) => ([], s)
      | (ds, r) => (str "." ++ ds, r)
      end
  | None => ([], s)
  end.

(** [e] or [E], an optional sign and at least one digit. *)
Definition exponent_part (s : pystr) : pystr * pystr :=
  match s with
  | e :: s' =>
      if ((e =? 101) || (e =? 69))%N then
        let (sign, s1) :=
          match s' with
          | g :: s'' =>
              if ((g =? 43) || (g =? 45))%N then ([g], s'') else ([], s')
          | [] => ([], s')
          end in
        match span_digits s1 with
        | ([], _) => ([], s)
        | (ds, r) => (e :: sign ++ ds, r)
        end
      else ([], s)
  | [] => ([], s)
  end.

Section Decoder.

Variable py : interpreter.

(** Whether [int] converts an integer text of these digits. *)
Definition int_convertible (ip : pystr) : bool :=
  (int_max_str_digits py =? 0)%nat
  || (List.length ip <=? int_max_str_digits py)%nat.

(** A numeral: an [int] when it has neither fraction nor exponent, and
    then one that [int] converts. *)
Definition number (s : pystr) : option (pyval * pystr) :=
  let (sign, s0) :=
    match after (str "-") s with
    | Some s' => (str "-", s')
    | None => ([], s)
    end in
  match integer_part s0 with
  | None => None
  | Some (ip, s1) =>
      let (fp, s2) := fraction_part s1 in
      let (ep, s3) := exponent_part s2 in
      match fp, ep with
      | [], [] =>
          if int_convertible ip then
            Some (VInt (match sign with
                        | [] => digits_value ip
                        | _ :: _ => - digits_value ip
                        end), s3)
          else None
      | _, _ => Some (VFloat (sign ++ ip ++ fp ++ ep), s3)
      end
  end.

Definition constant (s : pystr) : option (pyval * pystr) :=
  match after (str "null") s with
  | Some r => Some (VNone, r)
  | None =>
  match after (str "true") s with
  | Some r => Some (VBool true, r)
  | None =>
  match after (str "false") s with
  | Some r => Some (VBool false, r)
  | None =>
  match number s with
  | Some vr => Some vr
  | None =>
  match after (str "NaN") s with
  | Some r => Some (VFloat (str "NaN"), r)
  | None =>
  match after (str "Infinity") s with
  | Some r => Some (VFloat (str "Infinity"), r)
  | None =>
  match after (str "-Infinity") s with
  | Some r => Some (VFloat (str "-Infinity"), r)
  | None => None
  end end end end end end end.

(** The double quote. *)
Definition QUOTE : pystr := [34%N].

(** One JSON value at the front of [s] and the text after it; then the
    items of an array after its opening bracket, and the members of an
    object after its opening brace (a repeated key keeps its first
    position and takes the last value).  [depth] is the number of arrays
    and objects, one inside the other, that can still be entered. *)
Fixpoint value (fuel depth : nat) (s : pystr) : option (pyval * pystr) :=
  match fuel with
  | O => None
  | S fuel' =>
      match s with
      | [] => None
      | c :: s' =>
          if (c =? 34)%N then
            match scanstring (S (List.length s')) s' with
            | Some (cs, r) => Some (VStr cs, r)
            | None => None
            end
          else if (c =? 123)%N then
            match depth with
            | O => None
            | S depth' =>
                match after (str "}") (skip_ws s') with
                | Some r => Some (VDict [], r)
                | None =>
                    match members fuel' depth' [] (skip_ws s') with
                    | Some (d, r) => Some (VDict d, r)
                    | None => None
                    end
                end
            end
          else if (c =? 91)%N then
            match depth with
            | O => None
            | S depth' =>
                match after (str "]") (skip_ws s') with
                | Some r => Some (VList [], r)
                | None =>
                    match items fuel' depth' (skip_ws s') with
                    | Some (l, r) => Some (VList l, r)
                    | None => None
                    end
                end
            end
          else constant s
      end
  end

with items (fuel depth : nat) (s : pystr) : option (list pyval * pystr) :=
  match fuel with
  | O => None
  | S fuel' =>
      match value fuel' depth s with
      | None => None
      | Some (v, r) =>
          match after (str "]") (skip_ws r) with
          | Some r' => Some ([v], r')
          | None =>
              match after (str ",") (skip_ws r) with
              | Some r' =>
                  match items fuel' depth (skip_ws r') with
                  | Some (vs, r'') => Some (v :: vs, r'')
                  | None => None
                  end
              | None => None
              end
          end
      end
  end

with members (fuel depth : nat) (acc : dict) (s : pystr)
  : option (dict * pystr) :=
  match fuel with
  | O => None
  | S fuel' =>
      match after QUOTE s with
      | None => None
      | Some s' =>
          match scanstring (S (List.length s')) s' with
          | None => None
          | Some (k, r) =>
              match after (str ":") (skip_ws r) with
              | None => None
              | Some r1 =>
                  match value fuel' depth (skip_ws r1) with
                  | None => None
                  | Some (v, r2) =>
                      let acc' := dict_set acc k v in
                      match after (str "}") (skip_ws r2) with
                      | Some r3 => Some (acc', r3)
                      | None =>
                          match after (str ",") (skip_ws r2) with
                          | Some r3 => members fuel' depth acc' (skip_ws r3)
                          | None => None
                          end
                      end
                  end
              end
          end
      end
  end.

(** The byte order mark, which the decoder refuses at the start. *)
Definition BOM : pystr := [65279%N].

(** [json.loads(s)] *)
Definition loads (s : pystr) : res pyval :=
  if Str.startswith s BOM then Raise LoadsError
  else
    match value (2 * List.length s + 2) (json_depth py) (skip_ws s) with
    | Some (v, r) =>
        match skip_ws r with
        | [] => Ok v
        | _ :: _ => Raise LoadsError    (* extra data *)
        end
    | None => Raise LoadsError
    end.

End Decoder.

End Json.

(** ** Truth values, subscripts and lengths *)

(** The exponent of a numeral: what follows [e] or [E], if anything. *)
Definition exponent_value (s : pystr) : Z :=
  match s with
  | c :: r =>
      if ((c =? 101) || (c =? 69))%N then
        match r with
        | g :: r' =>
            if (g =? 45)%N then - Json.digits_value (fst (Json.span_digits r'))
            else if (g =? 43)%N then Json.digits_value (fst (Json.span_digits r'))
            else Json.digits_value (fst (Json.span_digits r))
        | [] => 0
        end
      else 0
  | [] => 0
  end.

(** Whether the float read from a numeral is zero: its digits are all
    zero, or its value [m * 10 ^ e] is at most [2 ^ -1075], half of the
    smallest positive float, and rounds to zero.  ([NaN] and the
    infinities have no digits and are not zero.) *)
Definition float_is_zero (numeral : pystr) : bool :=
  let s := match Json.after (str "-") numeral with
           | Some r => r
           | None => numeral
           end in
  let (ip, s1) := Json.span_digits s in
  let (fp, s2) := match Json.after (str ".") s1 with
                  | Some r => Json.span_digits r
                  | None => ([], s1)
                  end in
  match ip ++ fp with
  | [] => false
  | digits =>
      let m := Json.digits_value digits in
      let e := exponent_value s2 - Z.of_nat (List.length fp) in
      if m =? 0 then true
      else if Z.of_nat (List.length digits) + e <? -330 then true
      else if e <? 0 then m * 2 ^ 1075 <=? 10 ^ (- e)
      else false
  end.

(** [bool(o)], the test an [if] makes. *)
Definition py_truthy (o : pyval) : bool :=
  match o with
  | VNone => false
  | VBool b => b
  | VInt z => negb (z =? 0)
  | VFloat numeral => negb (float_is_zero numeral)
  | VStr s => match s with [] => false | _ :: _ => true end
  | VList l => match l with [] => false | _ :: _ => true end
  | VDict d => match d with [] => false | _ :: _ => true end
  end.

(** Whether the float read from a numeral equals the integer [n].  The
    numeral stands for [m * 10 ^ e]; it reads as the float [n] when it lies
    within half a unit in the last place of [n], the ends of this range
    included when the significand of [n] is even.  All quantities are
    scaled by [2 ^ 54] to stay in the integers. *)
Definition float_eq_int (numeral : pystr) (n : Z) : bool :=
  if n =? 0 then float_is_zero numeral
  else
    let negative := match Json.after (str "-") numeral with
                    | Some _ => true
                    | None => false
                    end in
    let s := match Json.after (str "-") numeral with
             | Some r => r
             | None => numeral
             end in
    let (ip, s1) := Json.span_digits s in
    let (fp, s2) := match Json.after (str ".") s1 with
                    | Some r => Json.span_digits r
                    | None => ([], s1)
                    end in
    match ip ++ fp with
    | [] => false
    | digits =>
        let m := Json.digits_value digits in
        let e := exponent_value s2 - Z.of_nat (List.length fp) in
        let a := Z.abs n in
        let k := Z.log2 a in
        if negb (Bool.eqb negative (n <? 0)) then false
        else if m =? 0 then false
        else if 1024 <=? k then false
        else if 400 <? e then false
        else if Z.of_nat (List.length digits) + e <? -400 then false
        else if (52 <? k) && negb (a mod 2 ^ (k - 52) =? 0) then false
        else
          let below := if a =? 2 ^ k then 2 ^ k else 2 ^ (k + 1) in
          let low := a * 2 ^ 54 - below in
          let high := a * 2 ^ 54 + 2 ^ (k + 1) in
          let even := Z.even (a * 2 ^ 52 / 2 ^ k) in
          let x := if e <? 0 then m * 2 ^ 54 else m * 10 ^ e * 2 ^ 54 in
          let scale := if e <? 0 then 10 ^ (- e) else 1 in
          if even then (low * scale <=? x) && (x <=? high * scale)
          else (low * scale <? x) && (x <? high * scale)
    end.

(** [o == n] for an integer [n]. *)
Definition py_eq_int (o : pyval) (n : Z) : bool :=
  match o with
  | VBool b => (if b then 1 else 0) =? n
  | VInt z => z =? n
  | VFloat numeral => float_eq_int numeral n
  | _ => false
  end.

(** [o[k]] for a string [k]. *)
Definition py_getitem (o : pyval) (k : pystr) : res pyval :=
  match o with
  | VDict d =>
      match dict_lookup k d with
      | Some v => Ok v
      | None => Raise KeyError
      end
  | _ => Raise TypeError
  end.

(** [len(o)] *)
Definition py_len (o : pyval) : res Z :=
  match o with
  | VStr s => Ok (Z.of_nat (List.length s))
  | VList l => Ok (Z.of_nat (List.length l))
  | VDict d => Ok (Z.of_nat (List.length d))
  | _ => Raise TypeError
  end.

(** ** The vendor clients

    The methods of the three clients that the hunting engine calls, with
    the parameters of their signatures.  Each returns a [Dict]. *)
Record CrowdStrikeClient : Type := {
  get_detections :
    forall (start_time severity : option pystr) (limit : Z), res dict
}.

Record MicrosoftSecurityClient : Type := {
  get_sign_in_logs :
    forall (user_principal_name start_time : option pystr) (limit : Z),
      res dict;
  get_defender_alerts :
    forall (start_time severity status : option pystr) (limit : Z), res dict;
  get_risky_users : forall (limit : Z), res dict
}.

Record ProofpointClient : Type := {
  get_siem_events :
    forall (interval : pystr) (threat_type threat_status : option pystr),
      res dict;
  get_top_clickers : forall (window : Z), res dict;
  get_vap_report : forall (window : Z), res dict
}.

(** [microsoft_client.py]: the methods of [MicrosoftSecurityClient] that
    the engine calls. *)
Module Microsoft.

Definition get_sign_in_logs (user_principal_name start_time : option pystr)
    (limit : Z) : res dict :=
  Ok [(str "sign_ins", VList []); (str "count", VInt 0)].

Definition get_defender_alerts (start_time severity status : option pystr)
    (limit : Z) : res dict :=
  Ok [(str "alerts", VList []); (str "count", VInt 0)].

Definition get_risky_users (limit : Z) : res dict :=
  Ok [(str "risky_users", VList []); (str "count", VInt 0)].

Definition client : MicrosoftSecurityClient :=
  Build_MicrosoftSecurityClient get_sign_in_logs get_defender_alerts
    get_risky_users.

End Microsoft.

(** [proofpoint_client.py]: the methods of [ProofpointClient] that the
    engine calls. *)
Module Proofpoint.

Definition get_siem_events (interval : pystr)
    (threat_type threat_status : option pystr) : res dict :=
  Ok [(str "clicks_permitted", VList []);
      (str "clicks_blocked", VList []);
      (str "messages_delivered", VList []);
      (str "messages_blocked", VList []);
      (str "total_events", VInt 0)].

Definition get_top_clickers (window : Z) : res dict :=
  Ok [(str "top_clickers", VList []); (str "count", VInt 0)].

Definition get_vap_report (window : Z) : res dict :=
  Ok [(str "very_attacked_people", VList []); (str "count", VInt 0)].

Definition client : ProofpointClient :=
  Build_ProofpointClient get_siem_events get_top_clickers get_vap_report.

End Proofpoint.

(** The two service classes of the FalconPy SDK that the CrowdStrike
    client calls here, with the keyword arguments it passes.  What they
    return is up to the SDK. *)
Module Falcon.

Record Detects : Type := {
  query_detects :
    forall (filter : option pystr) (limit : Z) (sort : pystr), res pyval;
  get_detect_summaries : forall (ids : pyval), res pyval
}.

Record Incidents : Type := {
  query_incidents :
    forall (filter : option pystr) (limit : Z) (sort : pystr), res pyval;
  get_incidents : forall (ids : pyval), res pyval
}.

End Falcon.

(** [sep.join(l)] *)
Fixpoint join (sep : pystr) (l : list pystr) : pystr :=
  match l with
  | [] => []
  | [x] => x
  | x :: l' => x ++ sep ++ join sep l'
  end.

(** The truth value of an [Optional[str]]. *)
Definition opt_truthy (o : option pystr) : bool :=
  match o with
  | Some (_ :: _) => true
  | _ => false
  end.

(** An [Optional[str]] in an f-string. *)
Definition opt_format (o : option pystr) : pystr :=
  match o with
  | Some s => s
  | None => str "None"
  end.

(** [crowdstrike_client.py]: class [CrowdStrikeClient] *)
Module CrowdStrike.

Section Client.

Variable detects : Falcon.Detects.
Variable incidents : Falcon.Incidents.

(** [str(e)] of a caught exception. *)
Variable str_of_exn : exn -> pystr.

Definition get_detections (start_time severity : option pystr) (limit : Z)
  : res dict :=
  try_except
    (let filters := [] in
     let filters :=
       if opt_truthy start_time
       then filters
              ++ [str "first_behavior:>='" ++ opt_format start_time
                    ++ str "'"]
       else filters in
     let filters :=
       if opt_truthy severity
       then filters
              ++ [str "max_severity_displayname:'" ++ opt_format severity
                    ++ str "'"]
       else filters in
     let filter_str :=
       match filters with
       | [] => None
       | _ :: _ => Some (join (str "+") filters)
       end in
     response <-
       Falcon.query_detects detects filter_str limit
         (str "first_behavior.desc") ;;
     status_code <- py_getitem response (str "status_code") ;;
     if negb (py_eq_int status_code 200) then
       body <- py_getitem response (str "body") ;;
       errors <- py_get body (str "errors") (VStr (str "Unknown error")) ;;
       Ok [(str "error", errors); (str "count", VInt 0)]
     else
       body <- py_getitem response (str "body") ;;
       detection_ids <- py_getitem body (str "resources") ;;
       if negb (py_truthy detection_ids) then
         Ok [(str "detections", VList []); (str "count", VInt 0)]
       else
         details <- Falcon.get_detect_summaries detects detection_ids ;;
         body <- py_getitem details (str "body") ;;
         resources <- py_getitem body (str "resources") ;;
         body' <- py_getitem details (str "body") ;;
         resources' <- py_getitem body' (str "resources") ;;
         count <- py_len resources' ;;
         Ok [(str "detections", resources); (str "count", VInt count)])
    (fun e => Ok [(str "error", VStr (str_of_exn e)); (str "count", VInt 0)]).

Definition get_incidents (start_time status : option pystr) (limit : Z)
  : res dict :=
  try_except
    (let filters := [] in
     let filters :=
       if opt_truthy start_time
       then filters ++ [str "start:>='" ++ opt_format start_time ++ str "'"]
       else filters in
     let filters :=
       if opt_truthy status
       then filters ++ [str "status:'" ++ opt_format status ++ str "'"]
       else filters in
     let filter_str :=
       match filters with
       | [] => None
       | _ :: _ => Some (join (str "+") filters)
       end in
     response <-
       Falcon.query_incidents incidents filter_str limit (str "start.desc") ;;
     status_code <- py_getitem response (str "status_code") ;;
     if negb (py_eq_int status_code 200) then
       body <- py_getitem response (str "body") ;;
       errors <- py_get body (str "errors") (VStr (str "Unknown error")) ;;
       Ok [(str "error", errors); (str "count", VInt 0)]
     else
       body <- py_getitem response (str "body") ;;
       incident_ids <- py_getitem body (str "resources") ;;
       if negb (py_truthy incident_ids) then
         Ok [(str "incidents", VList []); (str "count", VInt 0)]
       else
         details <- Falcon.get_incidents incidents incident_ids ;;
         body <- py_getitem details (str "body") ;;
         resources <- py_getitem body (str "resources") ;;
         body' <- py_getitem details (str "body") ;;
         resources' <- py_getitem body' (str "resources") ;;
         count <- py_len resources' ;;
         Ok [(str "incidents", resources); (str "count", VInt count)])
    (fun e => Ok [(str "error", VStr (str_of_exn e)); (str "count", VInt 0)]).

(** The client as the hunting engine sees it. *)
Definition client : CrowdStrikeClient :=
  Build_CrowdStrikeClient get_detections.

End Client.

End CrowdStrike.

(** ** The language-model client

    [self.anthropic.messages.create(...)] followed by
    [response.content[0].text]: given a prompt, either the completion text
    or a raised exception.  A prompt is an f-string whose fixed wording
    plays no role here; it is represented by the data interpolated into
    it. *)
Inductive prompt : Type :=
| AnalysisPrompt (incident_summary : list dict)
| InvestigationPrompt (investigation : dict)
| HypothesesPrompt (findings : dict)
| HuntPrompt (title description : pyval).

Definition model := prompt -> res pystr.

Section Formatting.

(** [str(v)] for a value that is not a [str]; the rendering of nested
    values is left open. *)
Variable str_of : pyval -> pystr.

(** The text an f-string puts for [{v}]. *)
Definition py_format (v : pyval) : pystr :=
  match v with
  | VStr s => s
  | _ => str_of v
  end.

End Formatting.

(** ** [ai_agent.py]: class [IncidentResponseAgent] *)
Module Agent.

Section Agent.

Variable py : interpreter.
Variable str_of : pyval -> pystr.
Variable anthropic : model.

(** Body of the loop over [cs_detections.get('detections', [])]. *)
Definition detection_incident (detection : pyval) : res dict :=
  id <- py_get detection (str "detection_id") VNone ;;
  behaviors <- py_get detection (str "behaviors") (VList [VDict []]) ;;
  behavior <- py_item0 behaviors ;;
  title <- py_get behavior (str "scenario") (VStr (str "Unknown")) ;;
  behaviors' <- py_get detection (str "behaviors") (VList [VDict []]) ;;
  behavior' <- py_item0 behaviors' ;;
  description <- py_get behavior' (str "description") (VStr []) ;;
  severity <- py_get detection (str "max_severity_displayname")
                (VStr (str "Unknown")) ;;
  timestamp <- py_get detection (str "first_behavior") VNone ;;
  Ok [(str "id", id);
      (str "title", title);
      (str "description", description);
      (str "severity", severity);
      (str "source", VStr (str "CrowdStrike"));
      (str "timestamp", timestamp);
      (str "raw_data", detection)].

(** Body of the loop over [cs_incidents.get('incidents', [])]. *)
Definition incident_incident (incident : pyval) : res dict :=
  id <- py_get incident (str "incident_id") VNone ;;
  title <- py_get incident (str "name") (VStr (str "Unnamed Incident")) ;;
  description <- py_get incident (str "description") (VStr []) ;;
  severity <- py_get incident (str "state") (VStr (str "Unknown")) ;;
  timestamp <- py_get incident (str "start") VNone ;;
  Ok [(str "id", id);
      (str "title", title);
      (str "description", description);
      (str "severity", severity);
      (str "source", VStr (str "CrowdStrike"));
      (str "timestamp", timestamp);
      (str "raw_data", incident)].

(** Body of the loop over [ms_alerts.get('alerts', [])]. *)
Definition alert_incident (alert : pyval) : res dict :=
  id <- py_get alert (str "id") VNone ;;
  title <- py_get alert (str "title") (VStr (str "Unknown Alert")) ;;
  description <- py_get alert (str "description") (VStr []) ;;
  severity <- py_get alert (str "severity") (VStr (str "Unknown")) ;;
  timestamp <- py_get alert (str "created_datetime") VNone ;;
  Ok [(str "id", id);
      (str "title", title);
      (str "description", description);
      (str "severity", severity);
      (str "source", VStr (str "Microsoft Defender"));
      (str "timestamp", timestamp);
      (str "raw_data", alert)].

(** Body of the loop over [pp_events.get('messages_blocked', [])]: the
    item appended for [msg], if any. *)
Definition message_incident (msg : pyval) : res (option dict) :=
  threat <- py_get msg (str "threatType") VNone ;;
  if py_in_strs threat [str "url"; str "attachment"] then
    id <- py_get msg (str "GUID") VNone ;;
    threat' <- py_get msg (str "threatType") VNone ;;
    description <- py_get msg (str "subject") (VStr []) ;;
    timestamp <- py_get msg (str "messageTime") VNone ;;
    Ok (Some
          [(str "id", id);
           (str "title",
             VStr (str "Malicious Email Blocked: "
                     ++ py_format str_of threat'));
           (str "description", description);
           (str "severity", VStr (str "High"));
           (str "source", VStr (str "Proofpoint"));
           (str "timestamp", timestamp);
           (str "raw_data", msg)])
  else Ok None.

Definition aggregate_incidents
    (cs_detections cs_incidents ms_alerts pp_events : dict)
  : res (list dict) :=
  detections <- py_iter (dict_get cs_detections (str "detections")
                           (VList [])) ;;
  from_detections <- for_each detection_incident detections ;;
  incidents <- py_iter (dict_get cs_incidents (str "incidents")
                          (VList [])) ;;
  from_incidents <- for_each incident_incident incidents ;;
  alerts <- py_iter (dict_get ms_alerts (str "alerts") (VList [])) ;;
  from_alerts <- for_each alert_incident alerts ;;
  messages <- py_iter (dict_get pp_events (str "messages_blocked")
                         (VList [])) ;;
  from_messages <- for_each_opt message_incident messages ;;
  Ok (from_detections ++ from_incidents ++ from_alerts ++ from_messages).

Definition _prepare_incident_summary (incidents : list dict)
  : res (list dict) :=
  for_each
    (fun inc =>
       description <- py_slice_to py (dict_get inc (str "description")
                                        (VStr [])) 200 ;;
       Ok [(str "id", dict_get inc (str "id") VNone);
           (str "title", dict_get inc (str "title") VNone);
           (str "description", description);
           (str "severity", dict_get inc (str "severity") VNone);
           (str "source", dict_get inc (str "source") VNone);
           (str "timestamp", dict_get inc (str "timestamp") VNone)])
    (Str.slice_to incidents 50).

Definition high_severity : list pystr :=
  [str "Critical"; str "High"; str "critical"; str "high"].

Definition medium_severity : list pystr :=
  [str "Medium"; str "medium"].

Definition severity_in (l : list pystr) (inc : dict) : bool :=
  py_in_strs (dict_get inc (str "severity") VNone) l.

Definition _basic_prioritization (incidents : list dict) : dict :=
  [(str "high_priority",
     VList (map VDict (filter (severity_in high_severity) incidents)));
   (str "medium_priority",
     VList (map VDict (filter (severity_in medium_severity) incidents)));
   (str "low_priority",
     VList (map VDict
              (filter (fun inc =>
                         negb (severity_in
                                 (high_severity ++ medium_severity) inc))
                      incidents)));
   (str "campaigns", VList [])].

Definition analyze_incidents (incidents : list dict) : res pyval :=
  incident_summary <- _prepare_incident_summary incidents ;;
  try_except
    (analysis_text <- anthropic (AnalysisPrompt incident_summary) ;;
     let json_start := Str.find analysis_text (str "{") in
     let json_end := Str.rfind analysis_text (str "}") + 1 in
     Json.loads py (Str.slice analysis_text json_start json_end))
    (fun _ => Ok (VDict (_basic_prioritization incidents))).

Definition _build_timeline (incident : dict) : res (list pyval) :=
  Ok [VDict
        [(str "timestamp", dict_get incident (str "timestamp") VNone);
         (str "description",
           VStr (str "Incident detected: "
                   ++ py_format str_of
                        (dict_get incident (str "title") VNone)));
         (str "source", dict_get incident (str "source") VNone);
         (str "indicators", VList [])]].

Definition _find_related_events (incident : dict) : res (list pyval) :=
  Ok [].

Definition _get_threat_intelligence (incident : dict) : res dict :=
  Ok [(str "actor", VStr (str "Unknown"));
      (str "ttps", VList []);
      (str "malware_family", VStr (str "Unknown"))].

Definition _extract_affected_assets (incident : dict) : dict :=
  [(str "hosts", VList []); (str "users", VList [])].

Definition summary_unavailable : pystr :=
  str "Investigation summary unavailable.".

Definition _generate_investigation_summary (investigation : dict)
  : res pystr :=
  try_except
    (anthropic (InvestigationPrompt investigation))
    (fun _ => Ok summary_unavailable).

Definition investigate_incident (incident : dict)
    (include_timeline include_related_events include_threat_intel : bool)
  : res dict :=
  let investigation :=
    [(str "incident_id", dict_get incident (str "id") VNone);
     (str "timeline", VList []);
     (str "related_events", VList []);
     (str "threat_intel", VDict []);
     (str "affected_assets", VDict []);
     (str "ai_summary", VStr [])] in
  investigation <-
    (if include_timeline then
       timeline <- _build_timeline incident ;;
       Ok (dict_set investigation (str "timeline") (VList timeline))
     else Ok investigation) ;;
  investigation <-
    (if include_related_events then
       related <- _find_related_events incident ;;
       Ok (dict_set investigation (str "related_events") (VList related))
     else Ok investigation) ;;
  investigation <-
    (if include_threat_intel then
       threat_intel <- _get_threat_intelligence incident ;;
       Ok (dict_set investigation (str "threat_intel") (VDict threat_intel))
     else Ok investigation) ;;
  let investigation :=
    dict_set investigation (str "affected_assets")
      (VDict (_extract_affected_assets incident)) in
  ai_summary <- _generate_investigation_summary investigation ;;
  Ok (dict_set investigation (str "ai_summary") (VStr ai_summary)).

Definition generate_response_plan (incident investigation playbook : dict)
  : dict :=
  [(str "containment",
     VList [VDict
              [(str "description", VStr (str "Isolate affected hosts"));
               (str "impact",
                 VStr (str "High - will disconnect hosts from network"));
               (str "risk_level", VStr (str "Medium"));
               (str "can_automate", VBool false)]]);
   (str "eradication", VList []);
   (str "recovery", VList [])].

Definition execute_response_actions (actions : list dict)
    (auto_approve_safe_actions : bool) : res (list dict) :=
  for_each
    (fun action =>
       if py_truthy (dict_get action (str "can_automate") VNone)
          || auto_approve_safe_actions
       then
         description <- py_getitem (VDict action) (str "description") ;;
         Ok [(str "action", description);
             (str "success", VBool true);
             (str "message",
               VStr (str "Action completed successfully (simulated)"))]
       else
         description <- py_getitem (VDict action) (str "description") ;;
         Ok [(str "action", description);
             (str "success", VBool false);
             (str "message", VStr (str "Action requires manual approval"))])
    actions.

(** The marks [U+2713] and [U+2717] of the report. *)
Definition MARK_DONE : pystr := [10003%N].
Definition MARK_FAILED : pystr := [10007%N].

(** The line the report loop appends for one response action. *)
Definition report_action_line (action : dict) : pystr :=
  let status :=
    if py_truthy (dict_get action (str "success") VNone)
    then MARK_DONE else MARK_FAILED in
  str "- " ++ status ++ str " "
    ++ py_format str_of (dict_get action (str "action") VNone)
    ++ str ": "
    ++ py_format str_of (dict_get action (str "message") VNone)
    ++ [LF].

Definition generate_incident_report (incident investigation : dict)
    (response_actions : list dict)
    (include_executive_summary include_technical_details
       include_recommendations : bool) : dict :=
  let report_content :=
    str "# Incident Response Report" ++ [LF; LF]
      ++ str "## Incident Information" ++ [LF]
      ++ str "- **ID**: "
      ++ py_format str_of (dict_get incident (str "id") VNone) ++ [LF]
      ++ str "- **Title**: "
      ++ py_format str_of (dict_get incident (str "title") VNone) ++ [LF]
      ++ str "- **Severity**: "
      ++ py_format str_of (dict_get incident (str "severity") VNone) ++ [LF]
      ++ str "- **Source**: "
      ++ py_format str_of (dict_get incident (str "source") VNone) ++ [LF]
      ++ str "- **Timestamp**: "
      ++ py_format str_of (dict_get incident (str "timestamp") VNone)
      ++ [LF; LF]
      ++ str "## Investigation Summary" ++ [LF]
      ++ py_format str_of
           (dict_get investigation (str "ai_summary")
              (VStr (str "No summary available")))
      ++ [LF; LF]
      ++ str "## Response Actions Taken" ++ [LF] in
  let report_content :=
    fold_left (fun content action => content ++ report_action_line action)
      response_actions report_content in
  let report_content :=
    report_content ++ [LF] ++ str "## Recommendations" ++ [LF] in
  let report_content :=
    report_content ++ str "- Review and update security policies" ++ [LF] in
  let report_content :=
    report_content ++ str "- Conduct security awareness training" ++ [LF] in
  let report_content :=
    report_content ++ str "- Monitor for similar indicators" ++ [LF] in
  [(str "incident_id", dict_get incident (str "id") VNone);
   (str "content", VStr report_content)].


End Agent.

End Agent.

(** ** [threat_hunting.py]: class [ThreatHuntingEngine] *)
Module Hunting.

Section Hunting.

Variable py : interpreter.
Variable anthropic : model.

Definition _default_hypotheses : list pyval :=
  [VDict
     [(str "title", VStr (str "Suspicious User Behavior Pattern"));
      (str "priority", VStr (str "High"));
      (str "mitre_tactics",
        VList [VStr (str "Initial Access");
               VStr (str "Credential Access")]);
      (str "description",
        VStr (str "Hunt for users with anomalous login patterns"));
      (str "hunting_steps",
        VList [VStr (str "Review users with failed login attempts");
               VStr (str "Check for logins from unusual locations");
               VStr (str "Correlate with threat intelligence")]);
      (str "expected_indicators",
        VList [VStr (str "Multiple failed logins followed by success");
               VStr (str "Logins from geographically distant locations");
               VStr (str "Logins at unusual hours")])]].

Definition generate_hunting_hypotheses (findings : dict) : res pyval :=
  try_except
    (response_text <- anthropic (HypothesesPrompt findings) ;;
     let json_start := Str.find response_text (str "[") in
     let json_end := Str.rfind response_text (str "]") + 1 in
     if (0 <=? json_start) && (json_start <? json_end) then
       Json.loads py (Str.slice response_text json_start json_end)
     else Ok (VList _default_hypotheses))
    (fun _ => Ok (VList _default_hypotheses)).

(** The statements under [# Parse summary and actions]. *)
Definition parse_summary_and_actions (results : dict)
    (response_text : pystr) : dict :=
  if Str.contains response_text (str "SUMMARY:") then
    let summary_start := Str.find response_text (str "SUMMARY:") + 8 in
    let actions_start := Str.find response_text (str "ACTIONS:") in
    let results :=
      dict_set results (str "ai_summary")
        (VStr (Str.strip
                 (Str.slice response_text summary_start actions_start))) in
    if 0 <? actions_start then
      let actions_text := Str.slice_from response_text (actions_start + 8) in
      dict_set results (str "recommended_actions")
        (VList
           (map (fun line =>
                   VStr (Str.strip (Str.lstrip (str "-") (Str.strip line))))
                (filter (fun line =>
                           Str.startswith (Str.strip line) (str "-"))
                        (Str.split LF actions_text))))
    else results
  else results.

Definition manual_review : pystr :=
  str "Hunt execution completed. Manual review recommended.".

Definition execute_hunt (hypothesis data_sources : dict) : res dict :=
  let results :=
    [(str "status", VStr (str "completed"));
     (str "evidence", VList []);
     (str "ai_summary", VStr []);
     (str "recommended_actions", VList [])] in
  try_except
    (response_text <-
       anthropic (HuntPrompt (dict_get hypothesis (str "title") VNone)
                    (dict_get hypothesis (str "description") VNone)) ;;
     Ok (parse_summary_and_actions results response_text))
    (fun _ => Ok (dict_set results (str "ai_summary") (VStr manual_review))).

Variable str_of : pyval -> pystr.
Variable crowdstrike : CrowdStrikeClient.
Variable microsoft : MicrosoftSecurityClient.
Variable proofpoint : ProofpointClient.

Definition collect_crowdstrike_data (start_time : pystr)
    (include_detections include_host_activity include_network_activity : bool)
  : res dict :=
  let data :=
    [(str "detections", VList []);
     (str "hosts", VList []);
     (str "network_events", VList [])] in
  if include_detections then
    detections <- get_detections crowdstrike (Some start_time) None 100 ;;
    Ok (dict_set data (str "detections")
          (dict_get detections (str "detections") (VList [])))
  else Ok data.

Definition collect_microsoft_data (start_time : pystr)
    (include_sign_ins include_alerts include_risky_users : bool)
  : res dict :=
  let data :=
    [(str "sign_ins", VList []);
     (str "alerts", VList []);
     (str "risky_users", VList [])] in
  data <-
    (if include_sign_ins then
       sign_ins <- get_sign_in_logs microsoft None (Some start_time) 100 ;;
       Ok (dict_set data (str "sign_ins")
             (dict_get sign_ins (str "sign_ins") (VList [])))
     else Ok data) ;;
  data <-
    (if include_alerts then
       alerts <- get_defender_alerts microsoft (Some start_time) None None
                   100 ;;
       Ok (dict_set data (str "alerts")
             (dict_get alerts (str "alerts") (VList [])))
     else Ok data) ;;
  if include_risky_users then
    risky <- get_risky_users microsoft 50 ;;
    Ok (dict_set data (str "risky_users")
          (dict_get risky (str "risky_users") (VList [])))
  else Ok data.

Definition collect_proofpoint_data (interval : pystr) : res dict :=
  let data :=
    [(str "total_events", VInt 0);
     (str "top_clickers", VList []);
     (str "vap_users", VList [])] in
  events <- get_siem_events proofpoint interval None None ;;
  let data :=
    dict_set data (str "total_events")
      (dict_get events (str "total_events") (VInt 0)) in
  top_clickers <- get_top_clickers proofpoint 30 ;;
  let data :=
    dict_set data (str "top_clickers")
      (dict_get top_clickers (str "top_clickers") (VList [])) in
  vap <- get_vap_report proofpoint 30 ;;
  Ok (dict_set data (str "vap_users")
        (dict_get vap (str "very_attacked_people") (VList []))).

(** Body of a loop of [aggregate_data]: the event made of one record. *)
Definition event_of (timestamp_key source event_type : string)
    (record : pyval) : res dict :=
  timestamp <- py_get record (str timestamp_key) VNone ;;
  Ok [(str "timestamp", timestamp);
      (str "source", VStr (str source));
      (str "event_type", VStr (str event_type));
      (str "data", record)].

Definition aggregate_data (cs_data ms_data pp_data : dict)
  : res (list dict) :=
  detections <- py_iter (dict_get cs_data (str "detections") (VList [])) ;;
  from_detections <-
    for_each (event_of "first_behavior" "CrowdStrike" "detection")
      detections ;;
  sign_ins <- py_iter (dict_get ms_data (str "sign_ins") (VList [])) ;;
  from_sign_ins <-
    for_each (event_of "created_datetime" "Microsoft" "sign_in") sign_ins ;;
  alerts <- py_iter (dict_get ms_data (str "alerts") (VList [])) ;;
  from_alerts <-
    for_each (event_of "created_datetime" "Microsoft" "alert") alerts ;;
  Ok (from_detections ++ from_sign_ins ++ from_alerts).

Definition map_to_mitre_attack (findings : dict) : dict :=
  [(str "Initial Access", VList []);
   (str "Execution", VList []);
   (str "Persistence", VList []);
   (str "Privilege Escalation", VList []);
   (str "Defense Evasion", VList []);
   (str "Credential Access", VList []);
   (str "Discovery", VList []);
   (str "Lateral Movement", VList []);
   (str "Collection", VList []);
   (str "Exfiltration", VList []);
   (str "Command and Control", VList [])].

(** What the report loop appends for one entry of [mitre_mapping]. *)
Definition tactic_section (tactic : pystr) (techniques : pyval)
  : res pystr :=
  if py_truthy techniques then
    items <- py_iter techniques ;;
    lines <-
      for_each
        (fun technique =>
           name <- py_get technique (str "name") (VStr (str "Unknown")) ;;
           Ok (str "- " ++ py_format str_of name ++ [LF]))
        items ;;
    Ok ([LF] ++ str "### " ++ tactic ++ [LF] ++ concat lines)
  else Ok [].

(** [anomalies] is a [DataFrame]; it enters through [len(anomalies)], its
    number of rows, only. *)
Definition generate_hunting_report (hunt_period : pystr) (anomalies : nat)
    (network_analysis : dict) (hypotheses : list dict)
    (hunt_results mitre_mapping : dict) : res dict :=
  beaconing <-
    py_len (dict_get network_analysis (str "beaconing") (VList [])) ;;
  lateral <-
    py_len (dict_get network_analysis (str "lateral_movement") (VList [])) ;;
  let report :=
    str "# Threat Hunting Report" ++ [LF; LF]
      ++ str "## Hunting Period" ++ [LF]
      ++ hunt_period ++ [LF; LF]
      ++ str "## Executive Summary" ++ [LF]
      ++ str "This report summarizes proactive threat hunting activities and findings."
      ++ [LF; LF]
      ++ str "### Key Findings" ++ [LF]
      ++ str "- Anomalous users detected: "
      ++ py_format str_of (VInt (Z.of_nat anomalies)) ++ [LF]
      ++ str "- Beaconing patterns detected: "
      ++ py_format str_of (VInt beaconing) ++ [LF]
      ++ str "- Lateral movement detected: "
      ++ py_format str_of (VInt lateral) ++ [LF]
      ++ str "- Hypotheses investigated: "
      ++ py_format str_of (VInt (Z.of_nat (List.length hypotheses)))
      ++ [LF; LF]
      ++ str "## Detailed Analysis" ++ [LF]
      ++ py_format str_of
           (dict_get hunt_results (str "ai_summary")
              (VStr (str "See individual sections for details")))
      ++ [LF; LF]
      ++ str "## MITRE ATT&CK Coverage" ++ [LF]
      ++ str "The following tactics were observed during this hunting period:"
      ++ [LF] in
  sections <-
    for_each (fun entry => tactic_section (fst entry) (snd entry))
      mitre_mapping ;;
  let report := report ++ concat sections in
  let report := report ++ [LF] ++ str "## Recommendations" ++ [LF] in
  actions <-
    py_iter (dict_get hunt_results (str "recommended_actions") (VList [])) ;;
  let report :=
    fold_left
      (fun content action =>
         content ++ str "- " ++ py_format str_of action ++ [LF])
      actions report in
  Ok [(str "content", VStr report)].


End Hunting.

End Hunting.

(** * Vocabulary of the specifications *)

(** ** Strings *)

(** [sub] occurs in [s] after [pre], and nowhere earlier. *)
Definition occurs_first (sub s pre post : pystr) : Prop :=
  s = pre ++ sub ++ post /\
  forall pre' post', s = pre' ++ sub ++ post' ->
                     (List.length pre <= List.length pre')%nat.

(** [sub] occurs in [s] after [pre], and nowhere later. *)
Definition occurs_last (sub s pre post : pystr) : Prop :=
  s = pre ++ sub ++ post /\
  forall pre' post', s = pre' ++ sub ++ post' ->
                     (List.length pre' <= List.length pre)%nat.

(** [sub] does not occur in [s]. *)
Definition absent (sub s : pystr) : Prop :=
  forall pre post, s <> pre ++ sub ++ post.

(** Nothing but white space. *)
Definition blank (ws : pystr) : Prop := forallb Str.is_space ws = true.

(** No white space at either end. *)
Definition trimmed (t : pystr) : Prop :=
  (forall c r, t = c :: r -> Str.is_space c = false) /\
  (forall c r, t = r ++ [c] -> Str.is_space c = false).

(** ** Records *)

Definition has_field (d : dict) (k : string) (v : pyval) : Prop :=
  dict_lookup (str k) d = Some v.

Definition lacks_field (d : dict) (k : string) : Prop :=
  dict_lookup (str k) d = None.

Definition is_dict (r : pyval) : Prop := exists d, r = VDict d.

(** ** Vendor payloads and the incidents made of them *)

(** The records a loop of [aggregate_incidents] visits:
    [payload.get(key, [])]. *)
Definition records (payload : dict) (key : string) : res (list pyval) :=
  py_iter (dict_get payload (str key) (VList [])).

(** A detection record whose [behaviors] are absent, or a list that starts
    with a record. *)
Definition detection_ok (r : pyval) : Prop :=
  exists d, r = VDict d /\
    (lacks_field d "behaviors" \/
     exists b bs, has_field d "behaviors" (VList (VDict b :: bs))).

(** [msg] is a record whose [threatType] is the string [t]. *)
Definition threat_type_is (msg : pyval) (t : string) : Prop :=
  exists d, msg = VDict d /\ has_field d "threatType" (VStr (str t)).

(** The blocked messages that count: a URL or an attachment threat. *)
Definition high_value (msg : pyval) : bool :=
  match msg with
  | VDict d =>
      py_in_strs (dict_get d (str "threatType") VNone)
        [str "url"; str "attachment"]
  | _ => false
  end.

(** [inc] was made from [record] by the loop of the given source. *)
Definition made_from (source : string) (record : pyval) (inc : dict) : Prop :=
  has_field inc "raw_data" record /\
  has_field inc "source" (VStr (str source)).

(** The incidents of a blocked-message payload: one per high-value message,
    in order, each of severity [High]. *)
Definition email_incidents (messages : list pyval) (incs : list dict) : Prop :=
  Forall2 (fun msg inc =>
             made_from "Proofpoint" msg inc /\
             has_field inc "severity" (VStr (str "High")))
    (filter high_value messages) incs.

(** ** Prioritised incidents *)

(** A value that [v[:200]] accepts. *)
Definition sliceable (v : pyval) : Prop :=
  match v with
  | VStr _ | VList _ => True
  | _ => False
  end.

(** What [v[:n]] raises for a value it does not accept. *)
Definition slice_error (py : interpreter) (v : pyval) : exn :=
  match v with
  | VDict _ => if hashable_slices py then KeyError else TypeError
  | _ => TypeError
  end.

(** An incident whose description is absent, a string or a list. *)
Definition summarizable (inc : dict) : Prop :=
  sliceable (dict_get inc (str "description") (VStr [])).

Definition has_severity (inc : dict) (s : string) : Prop :=
  has_field inc "severity" (VStr (str s)).

Definition severity_high (inc : dict) : Prop :=
  has_severity inc "Critical" \/ has_severity inc "High" \/
  has_severity inc "critical" \/ has_severity inc "high".

Definition severity_medium (inc : dict) : Prop :=
  has_severity inc "Medium" \/ has_severity inc "medium".

(** The result of the rule-based prioritisation: the three buckets
    [high], [medium] and [low], and no campaign. *)
Definition prioritized (high medium low : list dict) : pyval :=
  VDict [(str "high_priority", VList (map VDict high));
         (str "medium_priority", VList (map VDict medium));
         (str "low_priority", VList (map VDict low));
         (str "campaigns", VList [])].

(** [high], [medium] and [low] split [incidents] by severity, nothing
    lost and nothing repeated. *)
Definition buckets_of (incidents high medium low : list dict) : Prop :=
  (forall inc, In inc high <-> In inc incidents /\ severity_high inc) /\
  (forall inc, In inc medium <-> In inc incidents /\ severity_medium inc) /\
  (forall inc,
      In inc low <->
      In inc incidents /\ ~ severity_high inc /\ ~ severity_medium inc) /\
  Permutation (high ++ medium ++ low) incidents.

(** ** Completions of the model *)

(** A model that is unreachable. *)
Definition unreachable : model := fun _ => Raise APIError.

(** A model that answers every prompt with the same text. *)
Definition answering (text : pystr) : model := fun _ => Ok text.

(** [text] has no opening brace with a closing brace anywhere after it. *)
Definition no_brace_pair (text : pystr) : Prop :=
  forall a b c, text <> a ++ str "{" ++ b ++ str "}" ++ c.

(** [text] has no opening bracket with a closing bracket anywhere after
    it. *)
Definition no_bracket_pair (text : pystr) : Prop :=
  forall a b c, text <> a ++ str "[" ++ b ++ str "]" ++ c.

(** The part of a completion [analyze_incidents] decodes: from the first
    opening brace to the last closing brace. *)
Definition json_object_span (text : pystr) : pystr :=
  Str.slice text (Str.find text (str "{")) (Str.rfind text (str "}") + 1).

(** The part of a completion [generate_hunting_hypotheses] decodes: from
    the first opening bracket to the last closing bracket. *)
Definition json_array_span (text : pystr) : pystr :=
  Str.slice text (Str.find text (str "[")) (Str.rfind text (str "]") + 1).

(** The prompt [execute_hunt] sends for a hypothesis. *)
Definition hunt_prompt (hypothesis : dict) : prompt :=
  HuntPrompt (dict_get hypothesis (str "title") VNone)
    (dict_get hypothesis (str "description") VNone).

(** The result of [execute_hunt] with a summary and actions. *)
Definition hunt_results (ai_summary : pystr) (actions : list pystr) : dict :=
  [(str "status", VStr (str "completed"));
   (str "evidence", VList []);
   (str "ai_summary", VStr ai_summary);
   (str "recommended_actions", VList (map VStr actions))].

(** ** Bullet lines of a completion *)

Definition dash : char := 45%N.

(** A line whose first character after leading white space is a dash. *)
Definition dash_line (line : pystr) : Prop :=
  exists ws r, blank ws /\ line = ws ++ dash :: r.

(** [action] is what is left of [line] once its leading white space, its
    leading dashes, and the white space around the rest are removed. *)
Definition dash_item (line action : pystr) : Prop :=
  exists ws ds body,
    blank ws /\ ds <> [] /\ Forall (eq dash) ds /\
    (forall r, body <> dash :: r) /\
    line = ws ++ ds ++ body /\
    action = Str.strip body.

(** One action per dash line, in order; the other lines give none. *)
Inductive actions_of : list pystr -> list pystr -> Prop :=
| actions_nil : actions_of [] []
| actions_item line lines action actions :
    dash_item line action ->
    actions_of lines actions ->
    actions_of (line :: lines) (action :: actions)
| actions_skip line lines actions :
    ~ dash_line line ->
    actions_of lines actions ->
    actions_of (line :: lines) actions.

(** ** Example data *)

(** CPython 3.11 with its defaults, at a call that leaves the decoder
    room to enter 900 arrays and objects, one inside the other. *)
Definition cpython_3_11 : interpreter :=
  {| int_max_str_digits := 4300;
     json_depth := 900;
     hashable_slices := false |}.

(** A rendering of the values that are not strings. *)
Definition plain_rendering : pyval -> pystr := fun _ => str "?".

(** One endpoint detection of severity [High], an error marker in place of
    the endpoint incidents, one identity alert of severity [medium], and
    two blocked messages, of which the second carries an attachment
    threat. *)
Definition scenario_detections : dict :=
  [(str "detections",
     VList [VDict [(str "detection_id", VStr (str "ldt:7"));
                   (str "max_severity_displayname", VStr (str "High"))]]);
   (str "count", VInt 1)].

Definition scenario_no_incidents : dict :=
  [(str "error", VStr (str "timeout")); (str "count", VInt 0)].

(** One endpoint incident, in state [closed]. *)
Definition scenario_endpoint_incidents : dict :=
  [(str "incidents",
     VList [VDict [(str "incident_id", VStr (str "inc:3"));
                   (str "name", VStr (str "Lateral movement"));
                   (str "state", VStr (str "closed"))]]);
   (str "count", VInt 1)].

Definition scenario_alerts : dict :=
  [(str "alerts",
     VList [VDict [(str "id", VStr (str "da-42"));
                   (str "severity", VStr (str "medium"))]]);
   (str "count", VInt 1)].

Definition scenario_messages : dict :=
  [(str "messages_blocked",
     VList [VDict [(str "GUID", VStr (str "m-1"));
                   (str "threatType", VStr (str "messageText"));
                   (str "severity", VStr (str "low"))];
            VDict [(str "GUID", VStr (str "m-2"));
                   (str "threatType", VStr (str "attachment"));
                   (str "severity", VStr (str "low"))]])].

(** Three incidents: one of high, one of medium and one of another
    severity. *)
Definition scenario_incidents : list dict :=
  [[(str "id", VStr (str "ldt:7"));
    (str "severity", VStr (str "High"));
    (str "source", VStr (str "CrowdStrike"))];
   [(str "id", VStr (str "da-42"));
    (str "description", VStr (str "Impossible travel"));
    (str "severity", VStr (str "medium"));
    (str "source", VStr (str "Microsoft Defender"))];
   [(str "id", VStr (str "inc:3"));
    (str "severity", VStr (str "closed"));
    (str "source", VStr (str "CrowdStrike"))]].

(** An incident with a null description, as a vendor record with
    [description: null] yields. *)
Definition null_description_incident : dict :=
  [(str "id", VStr (str "ldt:1"));
   (str "title", VStr (str "Credential theft"));
   (str "description", VNone);
   (str "severity", VStr (str "High"));
   (str "source", VStr (str "CrowdStrike"));
   (str "timestamp", VNone);
   (str "raw_data", VDict [(str "detection_id", VStr (str "ldt:1"))])].

(** The completion ["SUMMARY: X\n\nACTIONS:\n- A1\n- A2"]. *)
Definition example_completion : pystr :=
  str "SUMMARY: X" ++ [LF; LF] ++ str "ACTIONS:" ++ [LF]
    ++ str "- A1" ++ [LF] ++ str "- A2".


(** ** Summaries sent to the model *)

(** The keys of a dictionary, in order. *)
Definition keys (d : dict) : list pystr := map fst d.

(** The keys of an incident as the model sees it. *)
Definition summary_keys : list pystr :=
  [str "id"; str "title"; str "description"; str "severity"; str "source";
   str "timestamp"].

(** The fields of an incident that go into its summary as they are. *)
Definition copied_keys : list pystr :=
  [str "id"; str "title"; str "severity"; str "source"; str "timestamp"].

(** [d] is [v] cut down to its first [n] items. *)
Definition truncated_to (n : nat) (v d : pyval) : Prop :=
  match v with
  | VStr t => d = VStr (firstn n t)
  | VList l => d = VList (firstn n l)
  | _ => False
  end.

(** The summary of the example incidents. *)
Definition scenario_summary : list dict :=
  Eval vm_compute in
    match Agent._prepare_incident_summary cpython_3_11 scenario_incidents with
    | Ok summary => summary
    | Raise _ => []
    end.

(** The incidents aggregated from the example payloads. *)
Definition scenario_aggregation : list dict :=
  Eval vm_compute in
    match Agent.aggregate_incidents plain_rendering scenario_detections
            scenario_no_incidents scenario_alerts scenario_messages with
    | Ok out => out
    | Raise _ => []
    end.

(** ** Response actions and the incident report *)

(** An action whose [can_automate] is there and counts as true. *)
Definition automatable (action : dict) : bool :=
  py_truthy (dict_get action (str "can_automate") VNone).

(** The message of a result, by success. *)
Definition result_message (success : bool) : pystr :=
  if success then str "Action completed successfully (simulated)"
  else str "Action requires manual approval".

(** The result [execute_response_actions] records for an action. *)
Definition result_of (action : dict) (success : bool) (result : dict)
  : Prop :=
  exists description,
    has_field action "description" description /\
    result = [(str "action", description);
              (str "success", VBool success);
              (str "message", VStr (result_message success))].

(** The closing section of every incident report. *)
Definition recommendations_section : pystr :=
  [LF] ++ str "## Recommendations" ++ [LF]
    ++ str "- Review and update security policies" ++ [LF]
    ++ str "- Conduct security awareness training" ++ [LF]
    ++ str "- Monitor for similar indicators" ++ [LF].

(** Two actions: one that can be automated and one that says nothing
    about it. *)
Definition scenario_actions : list dict :=
  [[(str "description", VStr (str "Block sender domain"));
    (str "can_automate", VBool true)];
   [(str "description", VStr (str "Isolate affected hosts"))]].

(** The results of the example actions without automatic approval. *)
Definition scenario_results : list dict :=
  Eval vm_compute in
    match Agent.execute_response_actions scenario_actions false with
    | Ok results => results
    | Raise _ => []
    end.

(** ** More completions of the hunt *)

(** A text of one line. *)
Definition single_line (t : pystr) : Prop := ~ In LF t.

(** A completion with bullet lines and no [SUMMARY:] marker. *)
Definition actions_only_completion : pystr :=
  str "ACTIONS:" ++ [LF] ++ str "- Block the sender".

(** A completion whose actions come before its summary. *)
Definition actions_first_completion : pystr :=
  str "Plan. ACTIONS:" ++ [LF] ++ str "- Isolate host" ++ [LF]
    ++ str "SUMMARY: done".

(** ** Events of the hunting engine *)

(** The event made of a record of the given source and type, with the
    time stamp read from [timestamp_key]. *)
Definition event_from (source event_type timestamp_key : string)
    (record : pyval) (event : dict) : Prop :=
  exists d,
    record = VDict d /\
    event = [(str "timestamp", dict_get d (str timestamp_key) VNone);
             (str "source", VStr (str source));
             (str "event_type", VStr (str event_type));
             (str "data", record)].

(** Collected data: one detection, one sign-in and two alerts. *)
Definition scenario_detection_records : list pyval :=
  [VDict [(str "detection_id", VStr (str "ldt:7"));
          (str "first_behavior", VStr (str "2024-05-01T10:00:00Z"))]].

Definition scenario_sign_in_records : list pyval :=
  [VDict [(str "created_datetime", VStr (str "2024-05-01T09:00:00Z"))]].

Definition scenario_alert_records : list pyval :=
  [VDict []; VDict [(str "id", VInt 7)]].

Definition scenario_cs_data : dict :=
  [(str "detections", VList scenario_detection_records);
   (str "hosts", VList []);
   (str "network_events", VList [])].

Definition scenario_ms_data : dict :=
  [(str "sign_ins", VList scenario_sign_in_records);
   (str "alerts", VList scenario_alert_records);
   (str "risky_users", VList [])].

Definition scenario_pp_data : dict :=
  [(str "total_events", VInt 12);
   (str "top_clickers", VList [VDict [(str "user", VStr (str "a@b.c"))]]);
   (str "vap_users", VList [])].

(** The events aggregated from the example data. *)
Definition scenario_events : list dict :=
  Eval vm_compute in
    match Hunting.aggregate_data scenario_cs_data scenario_ms_data
            scenario_pp_data with
    | Ok events => events
    | Raise _ => []
    end.

(** ** Collected data *)

(** Endpoint data with the given detections. *)
Definition crowdstrike_data (detections : pyval) : dict :=
  [(str "detections", detections);
   (str "hosts", VList []);
   (str "network_events", VList [])].

(** Identity data with the given parts. *)
Definition microsoft_data (sign_ins alerts risky_users : pyval) : dict :=
  [(str "sign_ins", sign_ins);
   (str "alerts", alerts);
   (str "risky_users", risky_users)].

(** The request for detections that [collect_crowdstrike_data] makes. *)
Definition detections_since (crowdstrike : CrowdStrikeClient)
    (start_time : pystr) : res dict :=
  get_detections crowdstrike (Some start_time) None 100.

(** An endpoint client that answers every request with the detections of
    the example. *)
Definition scenario_crowdstrike : CrowdStrikeClient :=
  Build_CrowdStrikeClient
    (fun _ _ _ =>
       Ok [(str "detections", VList scenario_detection_records);
           (str "count", VInt 1)]).

(** ** The hunting report *)

(** The heading under which the observed tactics are listed. *)
Definition coverage_heading : pystr :=
  str "## MITRE ATT&CK Coverage" ++ [LF]
    ++ str "The following tactics were observed during this hunting period:"
    ++ [LF].

Definition recommendations_heading : pystr :=
  [LF] ++ str "## Recommendations" ++ [LF].

(** A value [len] accepts. *)
Definition sized (v : pyval) : Prop :=
  match v with
  | VStr _ | VList _ | VDict _ => True
  | _ => False
  end.

(** A value a [for] loop accepts. *)
Definition iterable (v : pyval) : Prop := exists items, py_iter v = Ok items.

(** The techniques of a tactic: nothing that counts as true, or a list of
    records. *)
Definition techniques_ok (v : pyval) : Prop :=
  py_truthy v = false \/ exists ts, v = VList (map VDict ts).

(** Results of a hunt with two recommended actions. *)
Definition scenario_hunt_results : dict :=
  hunt_results (str "Two hosts beacon to one address.")
    [str "Isolate host"; str "Reset credentials"].

(** ** Answers of the CrowdStrike client *)

(** The answer that stands for a failed request. *)
Definition error_marker (error : pyval) : dict :=
  [(str "error", error); (str "count", VInt 0)].

(** The answer that carries [items] under [key], with their number. *)
Definition counted (key : string) (items : pyval) (count : Z) : dict :=
  [(str key, items); (str "count", VInt count)].

(** An answer of the client: an error marker, or counted items. *)
Definition client_answer (key : string) (answer : dict) : Prop :=
  (exists error, answer = error_marker error) \/
  (exists items count,
      answer = counted key items count /\ py_len items = Ok count).


(** * Facts about the string operations *)

Section StrFacts.

Lemma eqb_eq (s t : pystr) : Str.eqb s t = true <-> s = t.
Proof.
  revert t; induction s as [|c s IH]; intros [|d t]; simpl;
    try (split; (reflexivity || discriminate)).
  rewrite andb_true_iff, N.eqb_eq, IH.
  split; [intros [-> ->]; reflexivity | intros [= -> ->]; auto].
Qed.

Lemma eqb_refl (s : pystr) : Str.eqb s s = true.
Proof. apply eqb_eq; reflexivity. Qed.

Lemma startswith_iff (s sub : pystr) :
  Str.startswith s sub = true <-> exists post, s = sub ++ post.
Proof.
  revert s; induction sub as [|c sub IH]; intros s; simpl.
  - split; [intros _; exists s; reflexivity|].
    intros _; destruct s; reflexivity.
  - destruct s as [|d s]; simpl.
    + split; [discriminate | intros [post [=]]].
    + rewrite andb_true_iff, N.eqb_eq, IH.
      split.
      * intros [-> [post ->]]; exists post; reflexivity.
      * intros [post [= -> ->]].
        split; [reflexivity | exists post; reflexivity].
Qed.

Lemma startswith_app (sub post : pystr) :
  Str.startswith (sub ++ post) sub = true.
Proof. apply startswith_iff; exists post; reflexivity. Qed.

Lemma find_from_eq (s sub : pystr) (i : Z) :
  Str.find_from s sub i =
  if Str.startswith s sub then i
  else match s with
       | [] => -1
       | _ :: s' => Str.find_from s' sub (i + 1)
       end.
Proof. destruct s; reflexivity. Qed.

(** What [find] computes, from any starting index. *)
Lemma find_from_spec (sub s : pystr) :
  forall i,
    (Str.find_from s sub i = -1 /\ absent sub s) \/
    (exists pre post,
        occurs_first sub s pre post /\
        Str.find_from s sub i = i + Z.of_nat (List.length pre)).
Proof.
  induction s as [|c s IH]; intros i; rewrite find_from_eq.
  - destruct (Str.startswith [] sub) eqn:E.
    + right. apply startswith_iff in E as [post E].
      exists [], post. repeat split; simpl; auto; intros; lia.
    + left. split; [reflexivity|].
      intros pre post H.
      destruct pre; [|discriminate].
      simpl in H. rewrite H, startswith_app in E. discriminate.
  - destruct (Str.startswith (c :: s) sub) eqn:E.
    + right. apply startswith_iff in E as [post E].
      exists [], post. repeat split; simpl; auto; intros; lia.
    + assert (Hhead : forall post, c :: s <> sub ++ post).
      { intros post H. rewrite H, startswith_app in E. discriminate. }
      destruct (IH (i + 1)) as [[Hr Ha] | (pre & post & [Hs Hmin] & Hr)].
      * left. split; [exact Hr|].
        intros [|d pre] post H; [exact (Hhead _ H)|].
        injection H as _ H. exact (Ha _ _ H).
      * right. exists (c :: pre), post. repeat split.
        -- simpl. rewrite <- Hs. reflexivity.
        -- intros [|d pre'] post' H; [destruct (Hhead _ H)|].
           injection H as _ H. simpl. apply Hmin in H. lia.
        -- rewrite Hr. simpl List.length. lia.
Qed.

Lemma occurs_first_not_absent sub s pre post :
  occurs_first sub s pre post -> ~ absent sub s.
Proof. intros [H _] Ha. exact (Ha _ _ H). Qed.

Lemma occurs_first_length sub s pre post pre' post' :
  occurs_first sub s pre post -> occurs_first sub s pre' post' ->
  List.length pre = List.length pre'.
Proof.
  intros [H1 M1] [H2 M2].
  apply M1 in H2. apply M2 in H1. lia.
Qed.

(** [find] returns the index of the first occurrence. *)
Lemma find_first sub s pre post :
  occurs_first sub s pre post ->
  Str.find s sub = Z.of_nat (List.length pre).
Proof.
  intros H. unfold Str.find.
  destruct (find_from_spec sub s 0) as [[_ Ha] | (p & q & H' & ->)].
  - destruct (occurs_first_not_absent H Ha).
  - rewrite (occurs_first_length H H'). lia.
Qed.

(** [find] returns [-1] exactly when there is no occurrence. *)
Lemma find_absent sub s : absent sub s <-> Str.find s sub = -1.
Proof.
  unfold Str.find.
  destruct (find_from_spec sub s 0) as [[Hr Ha] | (p & q & H' & Hr)].
  - tauto.
  - split.
    + intros Ha. destruct (occurs_first_not_absent H' Ha).
    + rewrite Hr. lia.
Qed.

Lemma find_nonneg sub s :
  0 <= Str.find s sub ->
  exists pre post, occurs_first sub s pre post /\
                   Str.find s sub = Z.of_nat (List.length pre).
Proof.
  unfold Str.find.
  destruct (find_from_spec sub s 0) as [[Hr Ha] | (p & q & H' & Hr)].
  - rewrite Hr. lia.
  - intros _. exists p, q. split; [exact H'|]. rewrite Hr. lia.
Qed.

Lemma find_range sub s : Str.find s sub = -1 \/ 0 <= Str.find s sub.
Proof.
  unfold Str.find.
  destruct (find_from_spec sub s 0) as [[Hr Ha] | (p & q & H' & Hr)];
    rewrite Hr; lia.
Qed.

(** What [rfind] computes, from a non-negative starting index. *)
Lemma rfind_from_spec (sub s : pystr) :
  forall i, 0 <= i ->
    (Str.rfind_from s sub i = -1 /\ absent sub s) \/
    (exists pre post,
        occurs_last sub s pre post /\
        Str.rfind_from s sub i = i + Z.of_nat (List.length pre)).
Proof.
  induction s as [|c s IH]; intros i Hi;
    cbn [Str.rfind_from].
  - destruct (Str.startswith [] sub) eqn:E.
    + right. apply startswith_iff in E as [post E].
      exists [], post. repeat split; simpl; auto; try (intros; lia).
      intros pre' post' H. destruct pre'; [simpl; lia | discriminate].
    + left. split; [reflexivity|].
      intros pre post H.
      destruct pre; [|discriminate].
      simpl in H. rewrite H, startswith_app in E. discriminate.
  - destruct (IH (i + 1)) as [[Hr Ha] | (pre & post & [Hs Hmax] & Hr)];
      [lia | |].
    + rewrite Hr. change (0 <=? -1) with false. cbv iota.
      destruct (Str.startswith (c :: s) sub) eqn:E.
      * right. apply startswith_iff in E as [post E].
        exists [], post. repeat split; simpl; auto; try (intros; lia).
        intros [|d pre'] post' H; [simpl; lia|].
        injection H as _ H. destruct (Ha _ _ H).
      * left. split; [reflexivity|].
        intros [|d pre] post H.
        -- simpl in H. rewrite H, startswith_app in E. discriminate.
        -- injection H as _ H. exact (Ha _ _ H).
    + rewrite Hr.
      replace (0 <=? i + 1 + Z.of_nat (List.length pre)) with true
        by (symmetry; apply Z.leb_le; lia).
      right. exists (c :: pre), post. repeat split.
      * simpl. rewrite <- Hs. reflexivity.
      * intros [|d pre'] post' H; [simpl; lia|].
        injection H as _ H. simpl. apply Hmax in H. lia.
      * simpl List.length. lia.
Qed.

Lemma rfind_range sub s :
  (Str.rfind s sub = -1 /\ absent sub s) \/
  exists pre post, occurs_last sub s pre post /\
                   Str.rfind s sub = Z.of_nat (List.length pre).
Proof.
  unfold Str.rfind.
  destruct (rfind_from_spec sub s (i := 0)) as [H | (p & q & H & Hr)];
    [lia | left; exact H | right].
  exists p, q. split; [exact H|]. rewrite Hr. lia.
Qed.

End StrFacts.

Section SliceFacts.

Context {A : Type}.
Implicit Types a b c s : list A.

Lemma slice_between a b c :
  Str.slice (a ++ b ++ c) (Z.of_nat (List.length a))
    (Z.of_nat (List.length a) + Z.of_nat (List.length b)) = b.
Proof.
  unfold Str.slice, Str.bound. rewrite !length_app.
  destruct (Z.ltb_spec (Z.of_nat (List.length a)) 0); [lia|].
  destruct (Z.ltb_spec
              (Z.of_nat (List.length a) + Z.of_nat (List.length b)) 0);
    [lia|].
  replace (Z.to_nat (Z.min (Z.of_nat (List.length a)) _))
    with (List.length a) by lia.
  replace (Z.to_nat _) with (List.length b) by lia.
  rewrite skipn_app, skipn_all, Nat.sub_diag. cbn [app skipn].
  rewrite firstn_app, firstn_all, Nat.sub_diag. cbn [app firstn].
  apply app_nil_r.
Qed.

Lemma slice_from_app a b :
  Str.slice_from (a ++ b) (Z.of_nat (List.length a)) = b.
Proof.
  unfold Str.slice_from, Str.bound. rewrite length_app.
  destruct (Z.ltb_spec (Z.of_nat (List.length a)) 0); [lia|].
  replace (Z.to_nat _) with (List.length a) by lia.
  rewrite skipn_app, skipn_all, Nat.sub_diag. reflexivity.
Qed.

(** A stop of [-1] leaves out the last item. *)
Lemma slice_to_last a b :
  Str.slice (a ++ b) (Z.of_nat (List.length a)) (-1) = removelast b.
Proof.
  unfold Str.slice, Str.bound. rewrite length_app.
  destruct (Z.ltb_spec (Z.of_nat (List.length a)) 0); [lia|].
  change (-1 <? 0) with true. cbv iota.
  replace (Z.to_nat (Z.min (Z.of_nat (List.length a)) _))
    with (List.length a) by lia.
  rewrite skipn_app, skipn_all, Nat.sub_diag. cbn [app skipn].
  replace (Z.to_nat _) with (pred (List.length b)) by lia.
  symmetry. apply removelast_firstn_len.
Qed.

Lemma slice_empty s start stop :
  Str.bound (Z.of_nat (List.length s)) stop
  <= Str.bound (Z.of_nat (List.length s)) start ->
  Str.slice s start stop = [].
Proof.
  intros H. unfold Str.slice.
  replace (Z.to_nat _) with O by lia. reflexivity.
Qed.

Lemma slice_to_firstn s n :
  0 <= n -> Str.slice_to s n = firstn (Z.to_nat n) s.
Proof.
  intros H. unfold Str.slice_to, Str.bound.
  destruct (Z.ltb_spec n 0); [lia|].
  destruct (Z.le_ge_cases n (Z.of_nat (List.length s))).
  - rewrite Z.min_l by lia. reflexivity.
  - rewrite Z.min_r, Nat2Z.id by lia.
    rewrite firstn_all, firstn_all2 by lia. reflexivity.
Qed.

(** A slice that starts on an item and stops after it begins with it. *)
Lemma slice_head a x b stop :
  Z.of_nat (List.length a) < stop ->
  exists r, Str.slice (a ++ x :: b) (Z.of_nat (List.length a)) stop = x :: r.
Proof.
  intros H. unfold Str.slice, Str.bound.
  rewrite length_app. simpl List.length.
  destruct (Z.ltb_spec (Z.of_nat (List.length a)) 0); [lia|].
  destruct (Z.ltb_spec stop 0); [lia|].
  replace (Z.to_nat (Z.min (Z.of_nat (List.length a)) _))
    with (List.length a) by lia.
  rewrite skipn_app, skipn_all, Nat.sub_diag. cbn [app skipn].
  destruct (Z.to_nat _) as [|n] eqn:E; [lia|].
  simpl. eexists; reflexivity.
Qed.

End SliceFacts.

Section StripFacts.

Variable p : char -> bool.

Lemma lstrip_by_split s :
  exists ws, forallb p ws = true /\ s = ws ++ Str.lstrip_by p s.
Proof.
  induction s as [|c s (ws & Hws & Hs)]; simpl.
  - exists []. auto.
  - destruct (p c) eqn:E.
    + exists (c :: ws). simpl. rewrite E, Hws. split; [reflexivity|].
      f_equal. exact Hs.
    + exists []. auto.
Qed.

Lemma lstrip_by_head s c r : Str.lstrip_by p s = c :: r -> p c = false.
Proof.
  induction s as [|d s IH]; simpl; [discriminate|].
  destruct (p d) eqn:E; [exact IH|].
  intros [= -> _]. exact E.
Qed.

Lemma lstrip_by_id s :
  (forall c r, s = c :: r -> p c = false) -> Str.lstrip_by p s = s.
Proof.
  destruct s as [|c s]; intros H; simpl; [reflexivity|].
  rewrite (H c s eq_refl). reflexivity.
Qed.

Lemma lstrip_by_idem s :
  Str.lstrip_by p (Str.lstrip_by p s) = Str.lstrip_by p s.
Proof.
  apply lstrip_by_id. intros c r. apply lstrip_by_head.
Qed.

Lemma lstrip_by_all a b :
  forallb p a = true -> Str.lstrip_by p (a ++ b) = Str.lstrip_by p b.
Proof.
  induction a as [|c a IH]; simpl; [reflexivity|].
  intros H. apply andb_true_iff in H as [-> H]. exact (IH H).
Qed.

Lemma lstrip_by_app x y :
  Str.lstrip_by p x <> [] ->
  Str.lstrip_by p (x ++ y) = Str.lstrip_by p x ++ y.
Proof.
  induction x as [|c x IH]; simpl; [congruence|].
  destruct (p c); [exact IH | reflexivity].
Qed.

Lemma lstrip_by_app_stop x y :
  (forall c r, y = c :: r -> p c = false) ->
  Str.lstrip_by p (x ++ y) = Str.lstrip_by p x ++ y.
Proof.
  intros H. induction x as [|c x IH]; simpl.
  - apply lstrip_by_id, H.
  - destruct (p c); [exact IH | reflexivity].
Qed.

Lemma rstrip_by_split s :
  exists ws, forallb p ws = true /\ s = Str.rstrip_by p s ++ ws.
Proof.
  unfold Str.rstrip_by.
  destruct (lstrip_by_split (rev s)) as (ws & Hws & Hs).
  exists (rev ws). split.
  - rewrite forallb_forall in *. intros x Hx. apply Hws.
    apply in_rev. exact Hx.
  - rewrite <- rev_app_distr, <- Hs, rev_involutive. reflexivity.
Qed.

Lemma rstrip_by_last s c r : Str.rstrip_by p s = r ++ [c] -> p c = false.
Proof.
  unfold Str.rstrip_by. intros H.
  apply (f_equal (@rev char)) in H.
  rewrite rev_involutive, rev_app_distr in H. simpl in H.
  exact (lstrip_by_head _ H).
Qed.

Lemma rstrip_by_idem s :
  Str.rstrip_by p (Str.rstrip_by p s) = Str.rstrip_by p s.
Proof.
  unfold Str.rstrip_by. rewrite rev_involutive, lstrip_by_idem. reflexivity.
Qed.

(** Trailing characters are not removed past one that stays. *)
Lemma rstrip_by_keep a b :
  (forall c r, a = r ++ [c] -> p c = false) ->
  Str.rstrip_by p (a ++ b) = a ++ Str.rstrip_by p b.
Proof.
  intros H. unfold Str.rstrip_by.
  rewrite rev_app_distr, lstrip_by_app_stop.
  - rewrite rev_app_distr, rev_involutive. reflexivity.
  - intros c r E. apply (H c (rev r)).
    apply (f_equal (@rev char)) in E.
    rewrite rev_involutive in E. exact E.
Qed.

Lemma rstrip_by_head s c r :
  Str.rstrip_by p s = c :: r -> exists r', s = c :: r'.
Proof.
  destruct (rstrip_by_split s) as (ws & _ & Hs).
  intros E. rewrite E in Hs. exists (r ++ ws). exact Hs.
Qed.

(** Stripping both ends is insensitive to a prior stripping of the right
    end. *)
Lemma strip_by_rstrip s :
  Str.rstrip_by p (Str.lstrip_by p (Str.rstrip_by p s))
  = Str.rstrip_by p (Str.lstrip_by p s).
Proof.
  destruct (lstrip_by_split s) as (ws & Hws & Hs).
  destruct (Str.lstrip_by p s) as [|c r] eqn:E.
  - (* only removable characters *)
    rewrite app_nil_r in Hs. subst ws.
    assert (Hr : Str.rstrip_by p s = []).
    { unfold Str.rstrip_by.
      replace (Str.lstrip_by p (rev s)) with (@nil char); [reflexivity|].
      rewrite <- (app_nil_r (rev s)), lstrip_by_all; [reflexivity|].
      rewrite forallb_forall in *. intros x Hx. apply Hws, in_rev, Hx. }
    rewrite Hr. reflexivity.
  - assert (Hc : p c = false) by exact (lstrip_by_head _ E).
    assert (Hk : Str.rstrip_by p (c :: r) = c :: Str.rstrip_by p r).
    { apply (@rstrip_by_keep [c] r).
      intros d [|x t] H; simpl in H.
      - injection H as <-. exact Hc.
      - destruct t; discriminate. }
    assert (Hs' : Str.rstrip_by p s = ws ++ c :: Str.rstrip_by p r).
    { rewrite Hs at 1. unfold Str.rstrip_by at 1.
      rewrite rev_app_distr, lstrip_by_app.
      - rewrite rev_app_distr, rev_involutive. f_equal. exact Hk.
      - intros H. apply (f_equal (@rev char)) in H.
        fold (Str.rstrip_by p (c :: r)) in H. rewrite Hk in H.
        discriminate. }
    rewrite Hs', lstrip_by_all by exact Hws.
    simpl. rewrite Hc.
    rewrite <- Hk, rstrip_by_idem. reflexivity.
Qed.

End StripFacts.

(** [strip] removes white space, and only white space, from both ends. *)
Lemma strip_spec (s : pystr) :
  exists ws1 ws2,
    blank ws1 /\ blank ws2 /\ s = ws1 ++ Str.strip s ++ ws2 /\
    trimmed (Str.strip s).
Proof.
  unfold Str.strip, blank.
  destruct (lstrip_by_split Str.is_space s) as (ws1 & H1 & Hs).
  destruct (rstrip_by_split Str.is_space (Str.lstrip_by Str.is_space s))
    as (ws2 & H2 & Hl).
  exists ws1, ws2. repeat split; auto.
  - rewrite <- Hl. exact Hs.
  - intros c r E.
    destruct (rstrip_by_head _ _ E) as (r' & E').
    exact (lstrip_by_head _ _ E').
  - intros c r. apply rstrip_by_last.
Qed.

Lemma strip_rstrip (s : pystr) :
  Str.strip (Str.rstrip_by Str.is_space s) = Str.strip s.
Proof. apply strip_by_rstrip. Qed.

(** The pieces [split] returns, joined by the separator, give back the
    text, and no piece holds the separator. *)
Lemma split_spec (sep : char) (s : pystr) :
  Str.split sep s <> [] /\
  s = tl (concat (map (cons sep) (Str.split sep s))) /\
  Forall (fun piece => ~ In sep piece) (Str.split sep s).
Proof.
  induction s as [|c s (Hne & Hj & Hf)]; simpl.
  - repeat split; [discriminate | repeat constructor; auto].
  - destruct (N.eqb_spec c sep) as [-> | Hc].
    + repeat split; [discriminate | | constructor; auto].
      simpl. f_equal.
      destruct (Str.split sep s) as [|l ls]; [congruence|].
      simpl in *. rewrite Hj at 1. reflexivity.
    + destruct (Str.split sep s) as [|l ls]; [congruence|].
      repeat split; [discriminate | |].
      * simpl in *. f_equal. exact Hj.
      * inversion Hf; subst. constructor; auto.
        intros [H | H]; [congruence | contradiction].
Qed.

(** * Bullet lines *)

Section LineFacts.

Let is_dash (c : char) : bool := existsb (N.eqb c) (str "-").

Lemma is_dash_iff c : is_dash c = true <-> c = dash.
Proof.
  unfold is_dash, dash. simpl. rewrite orb_false_r. apply N.eqb_eq.
Qed.

Lemma dash_not_space : Str.is_space dash = false.
Proof. reflexivity. Qed.

(** A line the filter of [execute_hunt] keeps, and the action made of
    it. *)
Lemma kept_line_item (line : pystr) :
  Str.startswith (Str.strip line) (str "-") = true ->
  dash_item line
    (Str.strip (Str.lstrip (str "-") (Str.strip line))).
Proof.
  intros Hkeep.
  destruct (lstrip_by_split Str.is_space line) as (ws & Hws & Hline).
  set (l1 := Str.lstrip_by Str.is_space line) in *.
  apply startswith_iff in Hkeep as (t & Ht).
  unfold Str.strip in Ht. fold l1 in Ht.
  destruct (rstrip_by_head _ _ Ht) as (r1 & Hl1).
  destruct (lstrip_by_split is_dash l1) as (ds & Hds & Hsplit).
  set (body := Str.lstrip_by is_dash l1) in *.
  assert (Hbody : forall r, body <> dash :: r).
  { intros r E. apply lstrip_by_head in E.
    assert (is_dash dash = true) by (apply is_dash_iff; reflexivity).
    congruence. }
  assert (Hall : Forall (eq dash) ds).
  { apply Forall_forall. intros c Hc. symmetry. apply is_dash_iff.
    rewrite forallb_forall in Hds. exact (Hds c Hc). }
  exists ws, ds, body. repeat split; auto.
  - intros ->. simpl in Hsplit. rewrite Hl1 in Hsplit.
    exact (Hbody _ (eq_sym Hsplit)).
  - rewrite <- Hsplit. exact Hline.
  - unfold Str.strip at 2. fold l1.
    rewrite Hsplit at 1.
    rewrite rstrip_by_keep.
    + unfold Str.lstrip. fold is_dash.
      rewrite lstrip_by_all by exact Hds.
      rewrite lstrip_by_id.
      * apply strip_rstrip.
      * intros c r E.
        destruct (rstrip_by_head _ _ E) as (r' & E').
        destruct (is_dash c) eqn:Ec; [|reflexivity].
        apply is_dash_iff in Ec. subst c. destruct (Hbody _ E').
    + intros c r E.
      rewrite Forall_forall in Hall.
      rewrite <- (Hall c); [apply dash_not_space|].
      rewrite E. apply in_or_app. right. left. reflexivity.
Qed.

(** A line the filter of [execute_hunt] drops. *)
Lemma dropped_line (line : pystr) :
  Str.startswith (Str.strip line) (str "-") = false ->
  ~ dash_line line.
Proof.
  intros Hdrop (ws & r & Hws & ->).
  unfold Str.strip in Hdrop.
  rewrite lstrip_by_all in Hdrop by exact Hws.
  simpl Str.lstrip_by in Hdrop.
  change (Str.is_space dash) with false in Hdrop. cbv iota in Hdrop.
  change (dash :: r) with ([dash] ++ r) in Hdrop.
  rewrite (@rstrip_by_keep Str.is_space [dash] r) in Hdrop.
  - change (str "-") with [dash] in Hdrop.
    rewrite startswith_app in Hdrop. discriminate.
  - intros c [|x t] E; simpl in E.
    + injection E as <-. reflexivity.
    + destruct t; discriminate.
Qed.

(** The comprehension that builds [recommended_actions]. *)
Lemma actions_of_lines (lines : list pystr) :
  actions_of lines
    (map (fun line => Str.strip (Str.lstrip (str "-") (Str.strip line)))
       (filter (fun line => Str.startswith (Str.strip line) (str "-"))
          lines)).
Proof.
  induction lines as [|line lines IH]; simpl.
  - constructor.
  - destruct (Str.startswith (Str.strip line) (str "-")) eqn:E.
    + simpl. constructor; [apply kept_line_item, E | exact IH].
    + apply actions_skip; [apply dropped_line, E | exact IH].
Qed.

End LineFacts.

(** * Facts about the decoder and the loops *)

Section JsonFacts.

Variable py : interpreter.

Lemma loads_empty : Json.loads py [] = Raise LoadsError.
Proof. reflexivity. Qed.

Lemma loads_closing_brace : Json.loads py (str "}") = Raise LoadsError.
Proof. reflexivity. Qed.

(** A text that begins with an opening bracket decodes to a list, if it
    decodes at all. *)
Lemma loads_bracket (r : pystr) (v : pyval) :
  Json.loads py (str "[" ++ r) = Ok v -> exists l, v = VList l.
Proof.
  unfold Json.loads.
  change (Str.startswith (str "[" ++ r) Json.BOM) with false. cbv iota.
  change (Json.skip_ws (str "[" ++ r)) with (str "[" ++ r).
  destruct (2 * List.length (str "[" ++ r) + 2)%nat as [|fuel] eqn:Ef;
    [discriminate|].
  cbn [Json.value str app map list_ascii_of_string].
  change (N_of_ascii "["%char =? 34)%N with false.
  change (N_of_ascii "["%char =? 123)%N with false.
  change (N_of_ascii "["%char =? 91)%N with true.
  cbv iota.
  destruct (json_depth py) as [|depth]; [discriminate|].
  destruct (Json.after _ (Json.skip_ws r)) as [r'|].
  - destruct (Json.skip_ws r'); [|discriminate].
    intros [= <-]. eexists; reflexivity.
  - destruct (Json.items py fuel depth (Json.skip_ws r)) as [[l r']|];
      [|discriminate].
    destruct (Json.skip_ws r'); [|discriminate].
    intros [= <-]. eexists; reflexivity.
Qed.

End JsonFacts.

Section LoopFacts.

Context {A B : Type}.

(** A loop that completes has made one item of each element, in
    order. *)
Lemma for_each_inv (f : A -> res B) (xs : list A) (ys : list B) :
  for_each f xs = Ok ys -> Forall2 (fun x y => f x = Ok y) xs ys.
Proof.
  revert ys; induction xs as [|x xs IH]; intros ys; simpl.
  - intros [= <-]. constructor.
  - destruct (f x) as [y|e] eqn:E; simpl; [|discriminate].
    destruct (for_each f xs) as [ys'|e]; simpl; [|discriminate].
    intros [= <-]. constructor; auto.
Qed.

End LoopFacts.

(** * Rule-based prioritisation ([_basic_prioritization]) *)

Section Prioritization.

Lemma in_strs_iff (v : pyval) (l : list pystr) :
  py_in_strs v l = true <-> exists s, In s l /\ v = VStr s.
Proof.
  destruct v; simpl;
    try (split; [discriminate | intros (s & _ & [=])]).
  rewrite existsb_exists. split.
  - intros (x & Hx & E). apply eqb_eq in E. subst. eauto.
  - intros (x & Hx & [= ->]). exists x. split; [exact Hx | apply eqb_refl].
Qed.

Lemma get_str_iff (d : dict) (k s : pystr) :
  dict_get d k VNone = VStr s <-> dict_lookup k d = Some (VStr s).
Proof.
  unfold dict_get. destruct (dict_lookup k d).
  - split; congruence.
  - split; discriminate.
Qed.

Lemma severity_in_iff (l : list pystr) (inc : dict) :
  Agent.severity_in l inc = true <->
  exists s, In s l /\ dict_lookup (str "severity") inc = Some (VStr s).
Proof.
  unfold Agent.severity_in. rewrite in_strs_iff.
  split; intros (s & Hs & E); exists s; (split; [exact Hs|]);
    apply get_str_iff; exact E.
Qed.

Lemma severity_in_high (inc : dict) :
  Agent.severity_in Agent.high_severity inc = true <-> severity_high inc.
Proof.
  rewrite severity_in_iff.
  unfold severity_high, has_severity, has_field, Agent.high_severity.
  split.
  - intros (s & Hs & E). simpl in Hs.
    destruct Hs as [<- | [<- | [<- | [<- | []]]]]; auto.
  - intros [H | [H | [H | H]]]; eexists; (split; [|exact H]);
      simpl; auto.
Qed.

Lemma severity_in_medium (inc : dict) :
  Agent.severity_in Agent.medium_severity inc = true <-> severity_medium inc.
Proof.
  rewrite severity_in_iff.
  unfold severity_medium, has_severity, has_field, Agent.medium_severity.
  split.
  - intros (s & Hs & E). simpl in Hs.
    destruct Hs as [<- | [<- | []]]; auto.
  - intros [H | H]; eexists; (split; [|exact H]); simpl; auto.
Qed.

Lemma severity_in_app (l1 l2 : list pystr) (inc : dict) :
  Agent.severity_in (l1 ++ l2) inc =
  Agent.severity_in l1 inc || Agent.severity_in l2 inc.
Proof.
  unfold Agent.severity_in, py_in_strs.
  destruct (dict_get inc (str "severity") VNone); try reflexivity.
  apply existsb_app.
Qed.

(** No severity is both high and medium. *)
Lemma severity_exclusive (inc : dict) :
  severity_high inc -> severity_medium inc -> False.
Proof.
  unfold severity_high, severity_medium, has_severity, has_field.
  intros H1 H2.
  destruct H1 as [H1 | [H1 | [H1 | H1]]], H2 as [H2 | H2];
    rewrite H1 in H2; discriminate.
Qed.

(** Three filters that between them keep each item exactly once. *)
Lemma filter_three {A} (p q r : A -> bool) (l : list A) :
  (forall x, In x l ->
             (p x = true /\ q x = false /\ r x = false) \/
             (p x = false /\ q x = true /\ r x = false) \/
             (p x = false /\ q x = false /\ r x = true)) ->
  Permutation (filter p l ++ filter q l ++ filter r l) l.
Proof.
  induction l as [|x l IH]; intros H; simpl; [constructor|].
  assert (IH' := IH (fun y Hy => H y (or_intror Hy))). clear IH.
  destruct (H x (or_introl eq_refl))
    as [(-> & -> & ->) | [(-> & -> & ->) | (-> & -> & ->)]].
  - simpl. constructor. exact IH'.
  - symmetry. apply Permutation_cons_app. symmetry. exact IH'.
  - symmetry. rewrite app_assoc. apply Permutation_cons_app.
    rewrite <- app_assoc. symmetry. exact IH'.
Qed.

(** The buckets [_basic_prioritization] builds. *)
Lemma basic_prioritization_buckets (incidents : list dict) :
  exists high medium low,
    VDict (Agent._basic_prioritization incidents)
    = prioritized high medium low /\
    buckets_of incidents high medium low.
Proof.
  set (low_test := fun inc =>
         negb (Agent.severity_in
                 (Agent.high_severity ++ Agent.medium_severity) inc)).
  assert (Hlow : forall inc,
             low_test inc = true <->
             ~ severity_high inc /\ ~ severity_medium inc).
  { intros inc. unfold low_test.
    rewrite severity_in_app, negb_true_iff, orb_false_iff.
    rewrite <- severity_in_high, <- severity_in_medium.
    rewrite !not_true_iff_false. tauto. }
  exists (filter (Agent.severity_in Agent.high_severity) incidents),
         (filter (Agent.severity_in Agent.medium_severity) incidents),
         (filter low_test incidents).
  split; [reflexivity|].
  repeat split.
  - rewrite filter_In, severity_in_high in H. tauto.
  - rewrite filter_In, severity_in_high in H. tauto.
  - rewrite filter_In, severity_in_high. tauto.
  - rewrite filter_In, severity_in_medium in H. tauto.
  - rewrite filter_In, severity_in_medium in H. tauto.
  - rewrite filter_In, severity_in_medium. tauto.
  - rewrite filter_In, Hlow in H. tauto.
  - rewrite filter_In, Hlow in H. tauto.
  - rewrite filter_In, Hlow in H. tauto.
  - rewrite filter_In, Hlow. tauto.
  - apply filter_three. intros inc _.
    destruct (Agent.severity_in Agent.high_severity inc) eqn:Eh,
             (Agent.severity_in Agent.medium_severity inc) eqn:Em,
             (low_test inc) eqn:El.
    all: try rewrite severity_in_high in Eh.
    all: try rewrite severity_in_medium in Em.
    all: try (apply Hlow in El; destruct El).
    all: try (destruct (severity_exclusive Eh Em)).
    all: try tauto.
    all: try (apply not_true_iff_false in El; destruct El; apply Hlow).
    all: try rewrite <- severity_in_high.
    all: try rewrite <- severity_in_medium.
    all: try (split; congruence).
Qed.

End Prioritization.

(** * [analyze_incidents] *)

Section Analyze.

Variable py : interpreter.
Variable anthropic : model.

Lemma for_each_total {A B} (f : A -> res B) (xs : list A) :
  Forall (fun x => exists y, f x = Ok y) xs ->
  exists ys, for_each f xs = Ok ys.
Proof.
  induction 1 as [|x xs (y & Hy) _ (ys & Hys)]; simpl.
  - eauto.
  - rewrite Hy, Hys. simpl. eauto.
Qed.

Lemma slice_to_sliceable (v : pyval) (n : Z) :
  sliceable v -> exists w, py_slice_to py v n = Ok w.
Proof. destruct v; simpl; intros H; try destruct H; eauto. Qed.

(** The summary is prepared when the incidents it covers have
    descriptions that can be truncated. *)
Lemma prepare_incident_summary_ok (incidents : list dict) :
  Forall summarizable (firstn 50 incidents) ->
  exists summary, Agent._prepare_incident_summary py incidents = Ok summary.
Proof.
  intros H. unfold Agent._prepare_incident_summary.
  apply for_each_total.
  rewrite slice_to_firstn by lia. change (Z.to_nat 50) with 50%nat.
  eapply Forall_impl; [|exact H].
  intros inc Hinc.
  destruct (@slice_to_sliceable _ 200 Hinc) as (w & Hw).
  rewrite Hw. simpl. eauto.
Qed.

(** When the call to the model raises, the handler's result is
    returned. *)
Lemma analyze_incidents_handler (incidents summary : list dict) (e : exn) :
  Agent._prepare_incident_summary py incidents = Ok summary ->
  anthropic (AnalysisPrompt summary) = Raise e ->
  Agent.analyze_incidents py anthropic incidents
  = Ok (VDict (Agent._basic_prioritization incidents)).
Proof.
  intros Hs He. unfold Agent.analyze_incidents.
  rewrite Hs. simpl. rewrite He. reflexivity.
Qed.

Lemma for_each_raise {A B} (f : A -> res B) (e : exn) (xs : list A) :
  (forall x, (exists y, f x = Ok y) \/ f x = Raise e) ->
  Exists (fun x => f x = Raise e) xs ->
  for_each f xs = Raise e.
Proof.
  intros Hf. induction 1 as [x xs Hx | x xs _ IH]; simpl.
  - rewrite Hx. reflexivity.
  - destruct (Hf x) as [(y & ->) | ->]; [|reflexivity].
    simpl. rewrite IH. reflexivity.
Qed.

Lemma slice_to_unsliceable (v : pyval) (n : Z) :
  ~ sliceable v -> py_slice_to py v n = Raise (slice_error py v).
Proof. destruct v; simpl; intros H; try reflexivity; destruct H; exact I. Qed.

Lemma slice_error_cases (v : pyval) :
  slice_error py v = TypeError \/
  (hashable_slices py = true /\ is_dict v /\ slice_error py v = KeyError).
Proof.
  destruct v; simpl; auto.
  destruct (hashable_slices py); [right | left; reflexivity].
  split; [reflexivity|]. split; [eexists|]; reflexivity.
Qed.

(** A loop raises what its body raises on the first element on which it
    raises. *)
Lemma for_each_raises {A B} (f : A -> res B) (Q : A -> Prop) (xs : list A) :
  (forall x, Q x \/ ~ Q x) ->
  (forall x, Q x -> exists y, f x = Ok y) ->
  (forall x, ~ Q x -> exists e, f x = Raise e) ->
  Exists (fun x => ~ Q x) xs ->
  exists pre x post e,
    xs = pre ++ x :: post /\ Forall Q pre /\ ~ Q x /\
    f x = Raise e /\ for_each f xs = Raise e.
Proof.
  intros Hdec Hok Hraise.
  induction xs as [|x xs IH]; intros H; [inversion H|].
  destruct (Hdec x) as [Hq | Hn].
  - destruct (Hok x Hq) as (y & Hy).
    assert (H' : Exists (fun x => ~ Q x) xs)
      by (inversion H; [contradiction | assumption]).
    destruct (IH H') as (pre & x' & post & e & -> & Hpre & Hx & He & Hfor).
    exists (x :: pre), x', post, e. simpl. rewrite Hy, Hfor. auto.
  - destruct (Hraise x Hn) as (e & He).
    exists [], x, xs, e. simpl. rewrite He. auto.
Qed.

Lemma sliceable_dec (v : pyval) : sliceable v \/ ~ sliceable v.
Proof. destruct v; simpl; tauto. Qed.

(** A description that cannot be truncated, among the incidents that are
    summarised, makes [analyze_incidents] raise before the model is
    called: it raises what the truncation of the first such description
    raises. *)
Lemma analyze_incidents_unsummarizable (incidents : list dict) :
  Exists (fun inc => ~ summarizable inc) (firstn 50 incidents) ->
  exists pre inc post,
    firstn 50 incidents = pre ++ inc :: post /\
    Forall summarizable pre /\ ~ summarizable inc /\
    Agent.analyze_incidents py anthropic incidents
    = Raise (slice_error py (dict_get inc (str "description") (VStr []))).
Proof.
  intros H. unfold Agent.analyze_incidents, Agent._prepare_incident_summary.
  rewrite slice_to_firstn by lia. change (Z.to_nat 50) with 50%nat.
  match goal with
  | |- context [for_each ?f _] =>
      destruct (@for_each_raises _ _ f summarizable (firstn 50 incidents))
        as (pre & inc & post & e & E & Hpre & Hp & He & Hfor)
  end.
  - intros inc. unfold summarizable. apply sliceable_dec.
  - intros inc Hs. unfold summarizable in Hs.
    destruct (@slice_to_sliceable _ 200 Hs) as (w & ->). simpl. eauto.
  - intros inc Hs. unfold summarizable in Hs.
    rewrite (@slice_to_unsliceable _ 200 Hs). simpl. eauto.
  - exact H.
  - exists pre, inc, post. split; [exact E|]. split; [exact Hpre|].
    split; [exact Hp|].
    rewrite Hfor. simpl.
    unfold summarizable in Hp.
    rewrite (@slice_to_unsliceable _ 200 Hp) in He. simpl in He.
    congruence.
Qed.

End Analyze.

(** C1, as amended.  For every list of incidents whose first 50 have a
    description that is absent, a string or a list, when the call to the
    model raises, [analyze_incidents] returns the rule-based result: the
    incidents of severity exactly [Critical], [High], [critical] or [high]
    under [high_priority], those of severity exactly [Medium] or [medium]
    under [medium_priority], all the others under [low_priority], each
    incident unchanged, the three buckets together a rearrangement of the
    input, and [campaigns] empty. *)
Theorem analyze_incidents_fallback (py : interpreter) (anthropic : model)
    (incidents : list dict) :
  Forall summarizable (firstn 50 incidents) ->
  (forall summary,
      Agent._prepare_incident_summary py incidents = Ok summary ->
      exists e, anthropic (AnalysisPrompt summary) = Raise e) ->
  exists high medium low,
    Agent.analyze_incidents py anthropic incidents
    = Ok (prioritized high medium low) /\
    buckets_of incidents high medium low.
Proof.
  intros Hdesc Hfail.
  destruct (prepare_incident_summary_ok py _ Hdesc) as (summary & Hs).
  destruct (Hfail summary Hs) as (e & He).
  destruct (basic_prioritization_buckets incidents)
    as (high & medium & low & Hres & Hb).
  exists high, medium, low. split; [|exact Hb].
  rewrite (analyze_incidents_handler py anthropic incidents Hs He).
  f_equal. exact Hres.
Qed.

Lemma analyze_incidents_fallback_witness :
  Forall summarizable (firstn 50 scenario_incidents) /\
  (forall summary,
      Agent._prepare_incident_summary cpython_3_11 scenario_incidents = Ok summary ->
      exists e, unreachable (AnalysisPrompt summary) = Raise e) /\
  exists high medium low,
    Agent.analyze_incidents cpython_3_11 unreachable scenario_incidents
    = Ok (prioritized high medium low) /\
    buckets_of scenario_incidents high medium low.
Proof.
  assert (H1 : Forall summarizable (firstn 50 scenario_incidents))
    by (repeat constructor).
  assert (H2 : forall summary,
             Agent._prepare_incident_summary cpython_3_11 scenario_incidents
             = Ok summary ->
             exists e, unreachable (AnalysisPrompt summary) = Raise e)
    by (intros; exists APIError; reflexivity).
  exact (conj H1 (conj H2 (@analyze_incidents_fallback cpython_3_11 unreachable
                             scenario_incidents H1 H2))).
Defined.

(** With the model unreachable, an incident whose description is null
    makes [analyze_incidents] raise instead of returning the rule-based
    result. *)
Lemma analyze_incidents_null_description :
  Agent.analyze_incidents cpython_3_11 unreachable [null_description_incident]
  = Raise TypeError /\
  Agent.analyze_incidents cpython_3_11 unreachable [null_description_incident]
  <> Ok (VDict (Agent._basic_prioritization [null_description_incident])).
Proof. split; [reflexivity | discriminate]. Qed.

(** * Malformed completions *)

Section Malformed.

Variable py : interpreter.

Ltac bound_cases :=
  unfold Str.bound;
  repeat match goal with
         | |- context [?a <? ?b] => destruct (Z.ltb_spec a b)
         end;
  try lia.

Lemma slice_last {A} (p : list A) (x : A) :
  Str.slice (p ++ [x]) (-1) (Z.of_nat (List.length p) + 1) = [x].
Proof.
  unfold Str.slice, Str.bound. rewrite length_app. simpl List.length.
  change (-1 <? 0) with true. cbv iota.
  destruct (Z.ltb_spec (Z.of_nat (List.length p) + 1) 0); [lia|].
  replace (Z.to_nat (Z.max 0 _)) with (List.length p) by lia.
  rewrite skipn_app, skipn_all, Nat.sub_diag. cbn [app skipn].
  replace (Z.to_nat _) with 1%nat by lia. reflexivity.
Qed.

(** Without a brace pair, the span handed to the decoder is empty, or
    is the closing brace the text ends with. *)
Lemma no_brace_pair_span (text : pystr) :
  no_brace_pair text ->
  json_object_span text = [] \/ json_object_span text = str "}".
Proof.
  intros Hno. unfold json_object_span.
  destruct (rfind_range (str "}") text)
    as [[Hj _] | (p2 & q2 & [H2 _] & Hj)]; rewrite Hj.
  { (* no closing brace: the stop is 0 *)
    left. apply slice_empty. bound_cases. }
  destruct (find_range (str "{") text) as [Hi | Hi].
  - (* no opening brace: the start is -1 *)
    rewrite Hi.
    destruct q2 as [|y q2].
    + right. rewrite H2. simpl app. apply slice_last.
    + left. apply slice_empty. rewrite H2 at 1 2.
      rewrite !length_app. cbn [List.length str map list_ascii_of_string].
      bound_cases.
  - destruct (find_nonneg _ _ Hi) as (p1 & q1 & [H1 _] & Hi').
    rewrite Hi'. left.
    assert (Hlt : (List.length p2 < List.length p1)%nat).
    { rewrite H1 in H2.
      destruct (app_eq_app _ _ _ _ H2) as (l & [[Hp Hq] | [Hp Hq]]).
      - destruct l as [|x l]; [discriminate Hq|].
        rewrite Hp, length_app. simpl. lia.
      - destruct l as [|x l]; [discriminate Hq|].
        injection Hq as <- Hq. exfalso.
        apply (Hno p1 l q2). rewrite H1, Hq. reflexivity. }
    apply slice_empty. rewrite H1 at 1 2.
    rewrite !length_app. cbn [List.length str map list_ascii_of_string].
    bound_cases.
Qed.

Lemma no_brace_pair_raises (text : pystr) :
  no_brace_pair text ->
  Json.loads py (json_object_span text) = Raise LoadsError.
Proof.
  intros H. destruct (no_brace_pair_span H) as [-> | ->].
  - apply loads_empty.
  - apply loads_closing_brace.
Qed.

(** The indices [find] and [rfind] return tell whether there is a brace
    pair. *)
Lemma no_brace_pair_by_index (text : pystr) :
  Str.find text (str "{") = -1 \/
  Str.rfind text (str "}") < Str.find text (str "{") ->
  no_brace_pair text.
Proof.
  intros H a b c E.
  assert (E1 : text = a ++ str "{" ++ (b ++ str "}" ++ c)) by exact E.
  assert (E2 : text = (a ++ str "{" ++ b) ++ str "}" ++ c)
    by (rewrite E; repeat rewrite <- app_assoc; reflexivity).
  assert (Hf : 0 <= Str.find text (str "{")
               <= Z.of_nat (List.length a)).
  { unfold Str.find.
    destruct (find_from_spec (str "{") text 0)
      as [[_ Ha] | (p & q & [_ Hmin] & ->)].
    - destruct (Ha _ _ E1).
    - apply Hmin in E1. lia. }
  assert (Hr : Z.of_nat (List.length (a ++ str "{" ++ b))
               <= Str.rfind text (str "}")).
  { destruct (rfind_range (str "}") text)
      as [[_ Ha] | (p & q & [_ Hmax] & ->)].
    - destruct (Ha _ _ E2).
    - apply Hmax in E2. lia. }
  rewrite !length_app in Hr. simpl List.length in Hr. lia.
Qed.

End Malformed.

(** C6, as amended.  A completion with no brace pair, or whose span from
    the first opening brace to the last closing brace does not decode,
    gives exactly the outcome of a call to the model that raises.  For a
    list of incidents whose first 50 have a description that is absent, a
    string or a list, this outcome is the rule-based prioritisation of the
    input incidents; for any other list it is the exception that the
    truncation of the first other description raises while the summary is
    prepared, before the model is called. *)
Theorem analyze_incidents_malformed (py : interpreter) (good bad : model)
    (incidents : list dict) (text : pystr) :
  (forall summary, good (AnalysisPrompt summary) = Ok text) ->
  (forall summary, exists e, bad (AnalysisPrompt summary) = Raise e) ->
  no_brace_pair text \/
  (exists e, Json.loads py (json_object_span text) = Raise e) ->
  Agent.analyze_incidents py good incidents
  = Agent.analyze_incidents py bad incidents /\
  (Forall summarizable (firstn 50 incidents) ->
   Agent.analyze_incidents py good incidents
   = Ok (VDict (Agent._basic_prioritization incidents))) /\
  (Exists (fun inc => ~ summarizable inc) (firstn 50 incidents) ->
   exists pre inc post,
     firstn 50 incidents = pre ++ inc :: post /\
     Forall summarizable pre /\ ~ summarizable inc /\
     Agent.analyze_incidents py good incidents
     = Raise (slice_error py (dict_get inc (str "description") (VStr [])))).
Proof.
  intros Hgood Hbad Htext.
  assert (Hraise : exists e, Json.loads py (json_object_span text) = Raise e).
  { destruct Htext as [H | H]; [|exact H].
    exists LoadsError. apply no_brace_pair_raises, H. }
  destruct Hraise as (e & He).
  assert (Hok : forall summary,
             Agent._prepare_incident_summary py incidents = Ok summary ->
             Agent.analyze_incidents py good incidents
             = Ok (VDict (Agent._basic_prioritization incidents))).
  { intros summary Hs. unfold Agent.analyze_incidents.
    rewrite Hs. simpl. rewrite Hgood. simpl.
    fold (json_object_span text). rewrite He. reflexivity. }
  split.
  - destruct (Agent._prepare_incident_summary py incidents)
      as [summary | e'] eqn:Hs.
    + rewrite (Hok summary eq_refl).
      destruct (Hbad summary) as (e' & He').
      symmetry. unfold Agent.analyze_incidents. rewrite Hs. simpl.
      rewrite He'. reflexivity.
    + unfold Agent.analyze_incidents. rewrite Hs. reflexivity.
  - split.
    + intros Hdesc.
      destruct (prepare_incident_summary_ok py _ Hdesc) as (summary & Hs).
      exact (Hok summary Hs).
    + apply analyze_incidents_unsummarizable.
Qed.

Lemma analyze_incidents_malformed_witness :
  (forall summary,
      answering (str "no incidents } {") (AnalysisPrompt summary)
      = Ok (str "no incidents } {")) /\
  (forall summary, exists e, unreachable (AnalysisPrompt summary) = Raise e) /\
  (no_brace_pair (str "no incidents } {") \/
   (exists e,
       Json.loads cpython_3_11 (json_object_span (str "no incidents } {")) = Raise e)) /\
  Agent.analyze_incidents cpython_3_11 (answering (str "no incidents } {"))
    scenario_incidents
  = Agent.analyze_incidents cpython_3_11 unreachable scenario_incidents /\
  (Forall summarizable (firstn 50 scenario_incidents) ->
   Agent.analyze_incidents cpython_3_11 (answering (str "no incidents } {"))
     scenario_incidents
   = Ok (VDict (Agent._basic_prioritization scenario_incidents))) /\
  (Exists (fun inc => ~ summarizable inc) (firstn 50 scenario_incidents) ->
   exists pre inc post,
     firstn 50 scenario_incidents = pre ++ inc :: post /\
     Forall summarizable pre /\ ~ summarizable inc /\
     Agent.analyze_incidents cpython_3_11
       (answering (str "no incidents } {")) scenario_incidents
     = Raise (slice_error cpython_3_11
                (dict_get inc (str "description") (VStr [])))).
Proof.
  assert (H1 : forall summary,
             answering (str "no incidents } {") (AnalysisPrompt summary)
             = Ok (str "no incidents } {"))
    by reflexivity.
  assert (H2 : forall summary,
             exists e, unreachable (AnalysisPrompt summary) = Raise e)
    by (intros; exists APIError; reflexivity).
  assert (H3 : no_brace_pair (str "no incidents } {") \/
               (exists e,
                   Json.loads cpython_3_11 (json_object_span (str "no incidents } {"))
                   = Raise e)).
  { left. apply no_brace_pair_by_index. right. vm_compute. reflexivity. }
  exact (conj H1 (conj H2 (conj H3
           (@analyze_incidents_malformed cpython_3_11 _ _ scenario_incidents _
              H1 H2 H3)))).
Defined.

(** With a completion that has no brace pair, an incident whose
    description is null makes [analyze_incidents] raise instead of
    returning the rule-based prioritisation. *)
Lemma analyze_incidents_malformed_null_description :
  no_brace_pair (str "no incidents } {") /\
  Agent.analyze_incidents cpython_3_11 (answering (str "no incidents } {"))
    [null_description_incident]
  = Raise TypeError /\
  Agent.analyze_incidents cpython_3_11 (answering (str "no incidents } {"))
    [null_description_incident]
  <> Ok (VDict (Agent._basic_prioritization [null_description_incident])).
Proof.
  split; [|split; [reflexivity | discriminate]].
  apply no_brace_pair_by_index. right. vm_compute. reflexivity.
Qed.

(** * [aggregate_incidents] *)

Section Aggregate.

Variable str_of : pyval -> pystr.

Lemma Ok_inj {A} (a b : A) : Ok a = Ok b -> a = b.
Proof. intros H. injection H as ->. reflexivity. Qed.

Lemma bind_ok {A B} (m : res A) (k : A -> res B) (b : B) :
  bind m k = Ok b -> exists a, m = Ok a /\ k a = Ok b.
Proof. destruct m; simpl; [eauto | discriminate]. Qed.

Lemma high_value_iff (msg : pyval) :
  high_value msg = true <->
  threat_type_is msg "url" \/ threat_type_is msg "attachment".
Proof.
  unfold threat_type_is, has_field. destruct msg; simpl;
    try (split; [discriminate | intros [(d' & [=] & _) | (d' & [=] & _)]]).
  rewrite in_strs_iff. split.
  - intros (s & Hs & E). apply get_str_iff in E. simpl in Hs.
    destruct Hs as [<- | [<- | []]]; [left | right]; eauto.
  - intros [(d' & [= <-] & H) | (d' & [= <-] & H)];
      eexists; (split; [|apply get_str_iff; exact H]); simpl; auto.
Qed.

Lemma detection_incident_made (r : pyval) (inc : dict) :
  Agent.detection_incident r = Ok inc -> made_from "CrowdStrike" r inc.
Proof.
  unfold Agent.detection_incident. intros H.
  repeat (apply bind_ok in H as (? & _ & H)).
  injection H as <-. split; reflexivity.
Qed.

Lemma incident_incident_made (r : pyval) (inc : dict) :
  Agent.incident_incident r = Ok inc -> made_from "CrowdStrike" r inc.
Proof.
  unfold Agent.incident_incident. intros H.
  repeat (apply bind_ok in H as (? & _ & H)).
  injection H as <-. split; reflexivity.
Qed.

Lemma alert_incident_made (r : pyval) (inc : dict) :
  Agent.alert_incident r = Ok inc -> made_from "Microsoft Defender" r inc.
Proof.
  unfold Agent.alert_incident. intros H.
  repeat (apply bind_ok in H as (? & _ & H)).
  injection H as <-. split; reflexivity.
Qed.

(** What the loop over blocked messages does with one message. *)
Lemma message_incident_cases (msg : pyval) (o : option dict) :
  Agent.message_incident str_of msg = Ok o ->
  match o with
  | Some inc =>
      high_value msg = true /\
      made_from "Proofpoint" msg inc /\
      has_field inc "severity" (VStr (str "High"))
  | None => high_value msg = false
  end.
Proof.
  unfold Agent.message_incident, high_value.
  destruct msg; simpl; try discriminate.
  destruct (py_in_strs _ _); simpl.
  - intros [= <-]. repeat split; reflexivity.
  - intros [= <-]. reflexivity.
Qed.

Lemma message_incident_dict (d : dict) :
  exists o, Agent.message_incident str_of (VDict d) = Ok o.
Proof.
  unfold Agent.message_incident. simpl.
  destruct (py_in_strs _ _); simpl; eauto.
Qed.

Lemma for_each_made {R : pyval -> dict -> Prop} (f : pyval -> res dict)
    (xs : list pyval) (ys : list dict) :
  (forall r inc, f r = Ok inc -> R r inc) ->
  for_each f xs = Ok ys -> Forall2 R xs ys.
Proof.
  intros Hf H. apply for_each_inv in H.
  induction H; constructor; auto.
Qed.

(** The incidents the message loop appends. *)
Lemma message_loop (messages : list pyval) (incs : list dict) :
  for_each_opt (Agent.message_incident str_of) messages = Ok incs ->
  email_incidents messages incs.
Proof.
  unfold email_incidents.
  revert incs; induction messages as [|msg messages IH]; intros incs; simpl.
  - intros [= <-]. constructor.
  - intros H. apply bind_ok in H as (o & Ho & H).
    apply bind_ok in H as (rest & Hrest & H). injection H as <-.
    apply message_incident_cases in Ho.
    destruct o as [inc|].
    + destruct Ho as (-> & Hmade & Hsev). constructor; auto.
    + rewrite Ho. auto.
Qed.

Lemma message_loop_total (messages : list dict) :
  exists incs,
    for_each_opt (Agent.message_incident str_of) (map VDict messages)
    = Ok incs.
Proof.
  induction messages as [|d messages (incs & IH)]; simpl; [eauto|].
  destruct (message_incident_dict d) as (o & ->). simpl.
  rewrite IH. simpl. eauto.
Qed.

(** A completed aggregation, loop by loop. *)
Lemma aggregate_incidents_inv
    (cs_detections cs_incidents ms_alerts pp_events : dict)
    (out : list dict) :
  Agent.aggregate_incidents str_of cs_detections cs_incidents ms_alerts
    pp_events = Ok out ->
  exists ds es als ms fd fe fa fm,
    records cs_detections "detections" = Ok ds /\
    records cs_incidents "incidents" = Ok es /\
    records ms_alerts "alerts" = Ok als /\
    records pp_events "messages_blocked" = Ok ms /\
    for_each Agent.detection_incident ds = Ok fd /\
    for_each Agent.incident_incident es = Ok fe /\
    for_each Agent.alert_incident als = Ok fa /\
    for_each_opt (Agent.message_incident str_of) ms = Ok fm /\
    out = fd ++ fe ++ fa ++ fm.
Proof.
  unfold Agent.aggregate_incidents, records. intros H.
  apply bind_ok in H as (ds & Hds & H).
  apply bind_ok in H as (fd & Hfd & H).
  apply bind_ok in H as (es & Hes & H).
  apply bind_ok in H as (fe & Hfe & H).
  apply bind_ok in H as (als & Hals & H).
  apply bind_ok in H as (fa & Hfa & H).
  apply bind_ok in H as (ms & Hms & H).
  apply bind_ok in H as (fm & Hfm & H).
  injection H as <-.
  exists ds, es, als, ms, fd, fe, fa, fm. repeat split; assumption.
Qed.

Lemma aggregate_incidents_intro
    (cs_detections cs_incidents ms_alerts pp_events : dict)
    ds es als ms fd fe fa fm :
  records cs_detections "detections" = Ok ds ->
  records cs_incidents "incidents" = Ok es ->
  records ms_alerts "alerts" = Ok als ->
  records pp_events "messages_blocked" = Ok ms ->
  for_each Agent.detection_incident ds = Ok fd ->
  for_each Agent.incident_incident es = Ok fe ->
  for_each Agent.alert_incident als = Ok fa ->
  for_each_opt (Agent.message_incident str_of) ms = Ok fm ->
  Agent.aggregate_incidents str_of cs_detections cs_incidents ms_alerts
    pp_events = Ok (fd ++ fe ++ fa ++ fm).
Proof.
  unfold Agent.aggregate_incidents, records.
  intros H1 H2 H3 H4 H5 H6 H7 H8.
  rewrite H1; simpl. rewrite H5; simpl.
  rewrite H2; simpl. rewrite H6; simpl.
  rewrite H3; simpl. rewrite H7; simpl.
  rewrite H4; simpl. rewrite H8; simpl.
  reflexivity.
Qed.

End Aggregate.

Section AggregateTotal.

Variable str_of : pyval -> pystr.

Lemma incident_incident_dict (d : dict) :
  exists inc, Agent.incident_incident (VDict d) = Ok inc.
Proof. unfold Agent.incident_incident. simpl. eauto. Qed.

Lemma alert_incident_dict (d : dict) :
  exists inc, Agent.alert_incident (VDict d) = Ok inc.
Proof. unfold Agent.alert_incident. simpl. eauto. Qed.

Lemma detection_incident_ok (r : pyval) :
  detection_ok r -> exists inc, Agent.detection_incident r = Ok inc.
Proof.
  unfold detection_ok, lacks_field, has_field.
  intros (d & -> & [H | (b & bs & H)]);
    unfold Agent.detection_incident, py_get, dict_get;
    rewrite H; simpl; eauto.
Qed.

Lemma message_incident_ok (r : pyval) :
  is_dict r -> exists o, Agent.message_incident str_of r = Ok o.
Proof. intros (d & ->). apply message_incident_dict. Qed.

Lemma for_each_opt_total {A B} (f : A -> res (option B)) (xs : list A) :
  Forall (fun x => exists o, f x = Ok o) xs ->
  exists ys, for_each_opt f xs = Ok ys.
Proof.
  induction 1 as [|x xs (o & Ho) _ (ys & Hys)]; simpl.
  - eauto.
  - rewrite Ho, Hys. simpl. eauto.
Qed.

(** Aggregation completes on payloads whose records are well formed. *)
Lemma aggregate_incidents_total
    (cs_detections cs_incidents ms_alerts pp_events : dict) ds es als ms :
  records cs_detections "detections" = Ok ds ->
  records cs_incidents "incidents" = Ok es ->
  records ms_alerts "alerts" = Ok als ->
  records pp_events "messages_blocked" = Ok ms ->
  Forall detection_ok ds -> Forall is_dict es ->
  Forall is_dict als -> Forall is_dict ms ->
  exists out,
    Agent.aggregate_incidents str_of cs_detections cs_incidents ms_alerts
      pp_events = Ok out.
Proof.
  intros H1 H2 H3 H4 Hd He Ha Hm.
  destruct (@for_each_total _ _ Agent.detection_incident ds) as (fd & Hfd).
  { eapply Forall_impl; [|exact Hd]. apply detection_incident_ok. }
  destruct (@for_each_total _ _ Agent.incident_incident es) as (fe & Hfe).
  { eapply Forall_impl; [|exact He].
    intros r (d & ->). apply incident_incident_dict. }
  destruct (@for_each_total _ _ Agent.alert_incident als) as (fa & Hfa).
  { eapply Forall_impl; [|exact Ha].
    intros r (d & ->). apply alert_incident_dict. }
  destruct (@for_each_opt_total _ _ (Agent.message_incident str_of) ms)
    as (fm & Hfm).
  { eapply Forall_impl; [|exact Hm]. apply message_incident_ok. }
  eexists.
  apply (aggregate_incidents_intro str_of _ _ _ _ H1 H2 H3 H4 Hfd Hfe Hfa Hfm).
Qed.

End AggregateTotal.

(** C3.  Aggregation returns the incidents made of the endpoint
    detections, then those made of the endpoint incidents, then those made
    of the identity alerts, then those made of the blocked messages that
    count, each group in the order of its payload; the length of the list
    is the sum of the numbers of records of the first three payloads and
    of the number of blocked messages that count.  It returns whenever the
    records of the payloads are well formed. *)
Theorem aggregate_incidents_order (str_of : pyval -> pystr)
    (cs_detections cs_incidents ms_alerts pp_events : dict) :
  (forall ds es als ms,
      records cs_detections "detections" = Ok ds ->
      records cs_incidents "incidents" = Ok es ->
      records ms_alerts "alerts" = Ok als ->
      records pp_events "messages_blocked" = Ok ms ->
      Forall detection_ok ds -> Forall is_dict es ->
      Forall is_dict als -> Forall is_dict ms ->
      exists out,
        Agent.aggregate_incidents str_of cs_detections cs_incidents
          ms_alerts pp_events = Ok out) /\
  (forall out,
      Agent.aggregate_incidents str_of cs_detections cs_incidents ms_alerts
        pp_events = Ok out ->
      exists ds es als ms fd fe fa fm,
        records cs_detections "detections" = Ok ds /\
        records cs_incidents "incidents" = Ok es /\
        records ms_alerts "alerts" = Ok als /\
        records pp_events "messages_blocked" = Ok ms /\
        out = fd ++ fe ++ fa ++ fm /\
        Forall2 (made_from "CrowdStrike") ds fd /\
        Forall2 (made_from "CrowdStrike") es fe /\
        Forall2 (made_from "Microsoft Defender") als fa /\
        email_incidents ms fm /\
        List.length out
        = (List.length ds + List.length es + List.length als
           + List.length (filter high_value ms))%nat).
Proof.
  split.
  - intros ds es als ms. apply aggregate_incidents_total.
  - intros out H.
    apply aggregate_incidents_inv in H
      as (ds & es & als & ms & fd & fe & fa & fm
          & H1 & H2 & H3 & H4 & Hfd & Hfe & Hfa & Hfm & ->).
    assert (Gd : Forall2 (made_from "CrowdStrike") ds fd)
      by (eapply for_each_made; [apply detection_incident_made | exact Hfd]).
    assert (Ge : Forall2 (made_from "CrowdStrike") es fe)
      by (eapply for_each_made; [apply incident_incident_made | exact Hfe]).
    assert (Ga : Forall2 (made_from "Microsoft Defender") als fa)
      by (eapply for_each_made; [apply alert_incident_made | exact Hfa]).
    assert (Gm : email_incidents ms fm)
      by (eapply message_loop; exact Hfm).
    exists ds, es, als, ms, fd, fe, fa, fm.
    repeat (split; [assumption || reflexivity|]).
    rewrite !length_app.
    rewrite (Forall2_length Gd), (Forall2_length Ge), (Forall2_length Ga).
    unfold email_incidents in Gm. rewrite (Forall2_length Gm). lia.
Qed.

Lemma aggregate_incidents_order_witness :
  exists out,
    Agent.aggregate_incidents plain_rendering scenario_detections
      scenario_no_incidents scenario_alerts scenario_messages = Ok out /\
    List.length out = 3%nat /\
    exists ds es als ms fd fe fa fm,
      records scenario_detections "detections" = Ok ds /\
      records scenario_no_incidents "incidents" = Ok es /\
      records scenario_alerts "alerts" = Ok als /\
      records scenario_messages "messages_blocked" = Ok ms /\
      out = fd ++ fe ++ fa ++ fm /\
      Forall2 (made_from "CrowdStrike") ds fd /\
      Forall2 (made_from "CrowdStrike") es fe /\
      Forall2 (made_from "Microsoft Defender") als fa /\
      email_incidents ms fm /\
      List.length out
      = (List.length ds + List.length es + List.length als
         + List.length (filter high_value ms))%nat.
Proof.
  eexists. split; [reflexivity|]. split; [reflexivity|].
  apply (proj2 (aggregate_incidents_order plain_rendering
                  scenario_detections scenario_no_incidents
                  scenario_alerts scenario_messages)).
  reflexivity.
Defined.

(** C2.  In a completed aggregation the incidents that follow those of the
    other three sources are made of the blocked messages whose [threatType]
    is the string [url] or the string [attachment], one incident per such
    message and none for any other message, and each of them has severity
    [High] whatever the message holds.  The message loop completes on
    every payload whose blocked messages are records. *)
Theorem email_inclusion (str_of : pyval -> pystr)
    (cs_detections cs_incidents ms_alerts pp_events : dict) :
  (forall out,
      Agent.aggregate_incidents str_of cs_detections cs_incidents ms_alerts
        pp_events = Ok out ->
      exists messages others emails,
        records pp_events "messages_blocked" = Ok messages /\
        Agent.aggregate_incidents str_of cs_detections cs_incidents
          ms_alerts [] = Ok others /\
        out = others ++ emails /\
        email_incidents messages emails) /\
  (forall msg,
      high_value msg = true <->
      threat_type_is msg "url" \/ threat_type_is msg "attachment") /\
  (forall others messages,
      Agent.aggregate_incidents str_of cs_detections cs_incidents ms_alerts
        [] = Ok others ->
      records pp_events "messages_blocked" = Ok (map VDict messages) ->
      exists emails,
        Agent.aggregate_incidents str_of cs_detections cs_incidents
          ms_alerts pp_events = Ok (others ++ emails) /\
        email_incidents (map VDict messages) emails).
Proof.
  split; [|split].
  - intros out H.
    apply aggregate_incidents_inv in H
      as (ds & es & als & ms & fd & fe & fa & fm
          & H1 & H2 & H3 & H4 & Hfd & Hfe & Hfa & Hfm & ->).
    exists ms, (fd ++ fe ++ fa ++ []), fm. repeat split.
    + exact H4.
    + apply (@aggregate_incidents_intro str_of cs_detections cs_incidents
               ms_alerts [] ds es als [] fd fe fa []);
        (assumption || reflexivity).
    + rewrite app_nil_r. repeat rewrite <- app_assoc. reflexivity.
    + eapply message_loop. exact Hfm.
  - apply high_value_iff.
  - intros others messages H Hm.
    apply aggregate_incidents_inv in H
      as (ds & es & als & ms & fd & fe & fa & fm
          & H1 & H2 & H3 & H4 & Hfd & Hfe & Hfa & Hfm & ->).
    injection H4 as <-. injection Hfm as <-.
    destruct (message_loop_total str_of messages) as (emails & He).
    exists emails. split.
    + rewrite app_nil_r. repeat rewrite <- app_assoc.
      apply aggregate_incidents_intro with (ds := ds) (es := es)
                                           (als := als)
                                           (ms := map VDict messages);
        assumption.
    + eapply message_loop. exact He.
Qed.

Lemma email_inclusion_witness :
  exists out,
    Agent.aggregate_incidents plain_rendering scenario_detections
      scenario_no_incidents scenario_alerts scenario_messages = Ok out /\
    exists messages others emails,
      records scenario_messages "messages_blocked" = Ok messages /\
      Agent.aggregate_incidents plain_rendering scenario_detections
        scenario_no_incidents scenario_alerts [] = Ok others /\
      out = others ++ emails /\
      email_incidents messages emails.
Proof.
  eexists. split; [reflexivity|].
  apply (proj1 (email_inclusion plain_rendering scenario_detections
                  scenario_no_incidents scenario_alerts scenario_messages)).
  reflexivity.
Defined.

(** C9.  Each of the four conversions returns an incident that stores the
    record it converts, unchanged, under [raw_data]: the conversion of a
    detection whose [behaviors] are absent or start with a record, of an
    endpoint incident and of an identity alert that are records, and of a
    blocked message that counts.  A conversion that returns at all stores
    the record it was given.  An aggregation of payloads whose records are
    well formed returns, and each of its incidents stores the record it
    is made of; so do the incidents of any completed aggregation. *)
Theorem raw_data_identity (str_of : pyval -> pystr) :
  (forall r,
      detection_ok r ->
      exists inc,
        Agent.detection_incident r = Ok inc /\ has_field inc "raw_data" r) /\
  (forall r,
      is_dict r ->
      exists inc,
        Agent.incident_incident r = Ok inc /\ has_field inc "raw_data" r) /\
  (forall r,
      is_dict r ->
      exists inc,
        Agent.alert_incident r = Ok inc /\ has_field inc "raw_data" r) /\
  (forall r,
      high_value r = true ->
      exists inc,
        Agent.message_incident str_of r = Ok (Some inc) /\
        has_field inc "raw_data" r) /\
  (forall cs_detections cs_incidents ms_alerts pp_events ds es als ms,
      records cs_detections "detections" = Ok ds ->
      records cs_incidents "incidents" = Ok es ->
      records ms_alerts "alerts" = Ok als ->
      records pp_events "messages_blocked" = Ok ms ->
      Forall detection_ok ds -> Forall is_dict es ->
      Forall is_dict als -> Forall is_dict ms ->
      exists out,
        Agent.aggregate_incidents str_of cs_detections cs_incidents
          ms_alerts pp_events = Ok out /\
        Forall2 (fun r inc => has_field inc "raw_data" r)
          (ds ++ es ++ als ++ filter high_value ms) out) /\
  (forall r inc,
      Agent.detection_incident r = Ok inc -> has_field inc "raw_data" r) /\
  (forall r inc,
      Agent.incident_incident r = Ok inc -> has_field inc "raw_data" r) /\
  (forall r inc,
      Agent.alert_incident r = Ok inc -> has_field inc "raw_data" r) /\
  (forall r inc,
      Agent.message_incident str_of r = Ok (Some inc) ->
      has_field inc "raw_data" r) /\
  (forall cs_detections cs_incidents ms_alerts pp_events out,
      Agent.aggregate_incidents str_of cs_detections cs_incidents ms_alerts
        pp_events = Ok out ->
      exists ds es als ms,
        records cs_detections "detections" = Ok ds /\
        records cs_incidents "incidents" = Ok es /\
        records ms_alerts "alerts" = Ok als /\
        records pp_events "messages_blocked" = Ok ms /\
        Forall2 (fun r inc => has_field inc "raw_data" r)
          (ds ++ es ++ als ++ filter high_value ms) out).
Proof.
  assert (Hinv : forall cs_detections cs_incidents ms_alerts pp_events out,
             Agent.aggregate_incidents str_of cs_detections cs_incidents
               ms_alerts pp_events = Ok out ->
             exists ds es als ms,
               records cs_detections "detections" = Ok ds /\
               records cs_incidents "incidents" = Ok es /\
               records ms_alerts "alerts" = Ok als /\
               records pp_events "messages_blocked" = Ok ms /\
               Forall2 (fun r inc => has_field inc "raw_data" r)
                 (ds ++ es ++ als ++ filter high_value ms) out).
  { intros cs_detections cs_incidents ms_alerts pp_events out H.
    apply aggregate_incidents_inv in H
      as (ds & es & als & ms & fd & fe & fa & fm
          & H1 & H2 & H3 & H4 & Hfd & Hfe & Hfa & Hfm & ->).
    exists ds, es, als, ms. repeat (split; [assumption|]).
    repeat apply Forall2_app.
    - eapply for_each_made; [|exact Hfd].
      intros r inc Hr. eapply detection_incident_made; exact Hr.
    - eapply for_each_made; [|exact Hfe].
      intros r inc Hr. eapply incident_incident_made; exact Hr.
    - eapply for_each_made; [|exact Hfa].
      intros r inc Hr. eapply alert_incident_made; exact Hr.
    - apply message_loop in Hfm. unfold email_incidents in Hfm.
      eapply Forall2_impl; [|exact Hfm].
      intros r inc ((Hraw & _) & _). exact Hraw. }
  repeat match goal with |- _ /\ _ => split end.
  - intros r Hr. destruct (detection_incident_ok Hr) as (inc & E).
    exists inc. split; [exact E|]. eapply detection_incident_made; exact E.
  - intros r (d & ->). destruct (incident_incident_dict d) as (inc & E).
    exists inc. split; [exact E|]. eapply incident_incident_made; exact E.
  - intros r (d & ->). destruct (alert_incident_dict d) as (inc & E).
    exists inc. split; [exact E|]. eapply alert_incident_made; exact E.
  - intros r Hr.
    assert (Hd : is_dict r).
    { destruct r; try discriminate Hr. eexists; reflexivity. }
    destruct (message_incident_ok str_of Hd) as (o & E).
    pose proof (message_incident_cases str_of r E) as Hc.
    destruct o as [inc|]; [|congruence].
    exists inc. split; [exact E|]. apply Hc.
  - intros cs_detections cs_incidents ms_alerts pp_events ds es als ms
      H1 H2 H3 H4 Hd He Ha Hm.
    destruct (aggregate_incidents_total str_of _ _ _ _ H1 H2 H3 H4
                Hd He Ha Hm) as (out & Hout).
    exists out. split; [exact Hout|].
    destruct (Hinv _ _ _ _ _ Hout)
      as (ds' & es' & als' & ms' & G1 & G2 & G3 & G4 & HF).
    rewrite H1 in G1. rewrite H2 in G2. rewrite H3 in G3. rewrite H4 in G4.
    apply Ok_inj in G1. apply Ok_inj in G2.
    apply Ok_inj in G3. apply Ok_inj in G4.
    subst. exact HF.
  - intros r inc H. eapply detection_incident_made; exact H.
  - intros r inc H. eapply incident_incident_made; exact H.
  - intros r inc H. eapply alert_incident_made; exact H.
  - intros r inc H. apply (message_incident_cases str_of) in H. apply H.
  - exact Hinv.
Qed.

(** The example with all four kinds of record: one detection, one endpoint
    incident, one identity alert and the blocked message that counts give
    four incidents, each with the record it is made of. *)
Lemma raw_data_identity_witness :
  exists ds es als ms out,
    records scenario_detections "detections" = Ok ds /\
    records scenario_endpoint_incidents "incidents" = Ok es /\
    records scenario_alerts "alerts" = Ok als /\
    records scenario_messages "messages_blocked" = Ok ms /\
    (List.length ds = 1 /\ List.length es = 1 /\ List.length als = 1 /\
     List.length (filter high_value ms) = 1)%nat /\
    Agent.aggregate_incidents plain_rendering scenario_detections
      scenario_endpoint_incidents scenario_alerts scenario_messages
    = Ok out /\
    List.length out = 4%nat /\
    Forall2 (fun r inc => has_field inc "raw_data" r)
      (ds ++ es ++ als ++ filter high_value ms) out.
Proof.
  do 4 eexists.
  destruct (proj1 (proj2 (proj2 (proj2 (proj2
              (raw_data_identity plain_rendering)))))
              scenario_detections scenario_endpoint_incidents
              scenario_alerts scenario_messages _ _ _ _
              eq_refl eq_refl eq_refl eq_refl)
    as (out & Hout & HF).
  - repeat constructor. eexists. split; [reflexivity|]. left. reflexivity.
  - repeat constructor. eexists. reflexivity.
  - repeat constructor. eexists. reflexivity.
  - repeat constructor; eexists; reflexivity.
  - exists out.
    repeat (split; [reflexivity|]).
    split; [repeat split; reflexivity|].
    split; [exact Hout|].
    split; [|exact HF].
    apply Forall2_length in HF. rewrite <- HF. reflexivity.
Defined.

(** * Defaults for absent fields *)

Section Defaults.

Variable str_of : pyval -> pystr.

Lemma dict_get_lacks (d : dict) (k : string) (default : pyval) :
  lacks_field d k -> dict_get d (str k) default = default.
Proof. unfold lacks_field, dict_get. intros ->. reflexivity. Qed.

Lemma dict_get_has (d : dict) (k : string) (v default : pyval) :
  has_field d k v -> dict_get d (str k) default = v.
Proof. unfold has_field, dict_get. intros ->. reflexivity. Qed.

(** The conversion of a detection without [behaviors]. *)
Lemma detection_incident_no_behaviors (d : dict) :
  lacks_field d "behaviors" ->
  Agent.detection_incident (VDict d)
  = Ok [(str "id", dict_get d (str "detection_id") VNone);
        (str "title", VStr (str "Unknown"));
        (str "description", VStr []);
        (str "severity",
          dict_get d (str "max_severity_displayname")
            (VStr (str "Unknown")));
        (str "source", VStr (str "CrowdStrike"));
        (str "timestamp", dict_get d (str "first_behavior") VNone);
        (str "raw_data", VDict d)].
Proof.
  intros H. unfold Agent.detection_incident, py_get.
  rewrite (dict_get_lacks _ H). reflexivity.
Qed.

(** The conversion of a detection whose [behaviors] start with a
    record. *)
Lemma detection_incident_behaviors (d b : dict) (bs : list pyval) :
  has_field d "behaviors" (VList (VDict b :: bs)) ->
  Agent.detection_incident (VDict d)
  = Ok [(str "id", dict_get d (str "detection_id") VNone);
        (str "title", dict_get b (str "scenario") (VStr (str "Unknown")));
        (str "description", dict_get b (str "description") (VStr []));
        (str "severity",
          dict_get d (str "max_severity_displayname")
            (VStr (str "Unknown")));
        (str "source", VStr (str "CrowdStrike"));
        (str "timestamp", dict_get d (str "first_behavior") VNone);
        (str "raw_data", VDict d)].
Proof.
  intros H. unfold Agent.detection_incident, py_get.
  rewrite (dict_get_has _ H). reflexivity.
Qed.

(** A detection whose [behaviors] are an empty list is not converted:
    the default [[{}]] stands in for an absent list only. *)
Lemma detection_incident_empty_behaviors (d : dict) :
  has_field d "behaviors" (VList []) ->
  Agent.detection_incident (VDict d) = Raise IndexError.
Proof.
  intros H. unfold Agent.detection_incident, py_get.
  rewrite (dict_get_has _ H). reflexivity.
Qed.

End Defaults.

(** C4, as amended.  The conversion of a record never fails on an absent
    field.  An absent title becomes [Unknown] for a detection, [Unnamed
    Incident] for an endpoint incident and [Unknown Alert] for an identity
    alert; an absent severity becomes [Unknown] and an absent description
    the empty string; the description of a blocked message without subject
    is the empty string.  (A detection is converted when its [behaviors]
    are absent or a list that starts with a record.) *)
Theorem normalization_defaults (str_of : pyval -> pystr) (record : dict) :
  (detection_ok (VDict record) ->
   exists inc,
     Agent.detection_incident (VDict record) = Ok inc /\
     (lacks_field record "behaviors" ->
      has_field inc "title" (VStr (str "Unknown")) /\
      has_field inc "description" (VStr [])) /\
     (forall b bs,
         has_field record "behaviors" (VList (VDict b :: bs)) ->
         (lacks_field b "scenario" ->
          has_field inc "title" (VStr (str "Unknown"))) /\
         (lacks_field b "description" ->
          has_field inc "description" (VStr []))) /\
     (lacks_field record "max_severity_displayname" ->
      has_field inc "severity" (VStr (str "Unknown")))) /\
  (exists inc,
      Agent.incident_incident (VDict record) = Ok inc /\
      (lacks_field record "name" ->
       has_field inc "title" (VStr (str "Unnamed Incident"))) /\
      (lacks_field record "description" ->
       has_field inc "description" (VStr [])) /\
      (lacks_field record "state" ->
       has_field inc "severity" (VStr (str "Unknown")))) /\
  (exists inc,
      Agent.alert_incident (VDict record) = Ok inc /\
      (lacks_field record "title" ->
       has_field inc "title" (VStr (str "Unknown Alert"))) /\
      (lacks_field record "description" ->
       has_field inc "description" (VStr [])) /\
      (lacks_field record "severity" ->
       has_field inc "severity" (VStr (str "Unknown")))) /\
  (exists o,
      Agent.message_incident str_of (VDict record) = Ok o /\
      forall inc, o = Some inc ->
                  lacks_field record "subject" ->
                  has_field inc "description" (VStr [])).
Proof.
  split; [|split; [|split]].
  - intros (d & [= <-] & [H | (b & bs & H)]).
    + eexists. split; [apply detection_incident_no_behaviors, H|].
      split; [|split].
      * intros _. split; reflexivity.
      * intros b bs Hb. unfold lacks_field, has_field in *. congruence.
      * intros Hs. unfold has_field. simpl.
        rewrite (dict_get_lacks _ Hs). reflexivity.
    + eexists. split; [eapply detection_incident_behaviors, H|].
      split; [|split].
      * intros Hl. unfold lacks_field, has_field in *. congruence.
      * intros b' bs' Hb.
        assert (E : VList (VDict b' :: bs') = VList (VDict b :: bs))
          by (unfold has_field in *; congruence).
        injection E as -> ->.
        split; intros Hl; unfold has_field; simpl;
          rewrite (dict_get_lacks _ Hl); reflexivity.
      * intros Hs. unfold has_field. simpl.
        rewrite (dict_get_lacks _ Hs). reflexivity.
  - eexists. split; [reflexivity|].
    repeat split; intros Hl; unfold has_field; simpl;
      rewrite (dict_get_lacks _ Hl); reflexivity.
  - eexists. split; [reflexivity|].
    repeat split; intros Hl; unfold has_field; simpl;
      rewrite (dict_get_lacks _ Hl); reflexivity.
  - unfold Agent.message_incident. simpl.
    destruct (py_in_strs _ _); simpl; eexists; (split; [reflexivity|]).
    + intros inc [= <-] Hl. unfold has_field. simpl.
      rewrite (dict_get_lacks _ Hl). reflexivity.
    + intros inc [=].
Qed.

Lemma normalization_defaults_witness :
  detection_ok (VDict [(str "detection_id", VStr (str "ldt:9"))]) /\
  exists inc,
    Agent.detection_incident (VDict [(str "detection_id", VStr (str "ldt:9"))])
    = Ok inc /\
    has_field inc "title" (VStr (str "Unknown")) /\
    has_field inc "description" (VStr []) /\
    has_field inc "severity" (VStr (str "Unknown")).
Proof.
  assert (H : detection_ok (VDict [(str "detection_id", VStr (str "ldt:9"))])).
  { eexists. split; [reflexivity|]. left. reflexivity. }
  split; [exact H|].
  destruct (proj1 (normalization_defaults plain_rendering
                     [(str "detection_id", VStr (str "ldt:9"))]) H)
    as (inc & Hinc & Hb & _ & Hs).
  exists inc. split; [exact Hinc|].
  destruct (Hb eq_refl) as [Ht Hd].
  repeat split; [exact Ht | exact Hd | exact (Hs eq_refl)].
Defined.

(** An identity alert without title gets the title [Unknown Alert], which
    is neither [Unknown] nor [Unnamed Incident]. *)
Lemma alert_title_default :
  exists inc,
    Agent.aggregate_incidents plain_rendering [] []
      [(str "alerts", VList [VDict [(str "id", VStr (str "da-1"))]])] []
    = Ok [inc] /\
    lacks_field [(str "id", VStr (str "da-1"))] "title" /\
    has_field inc "title" (VStr (str "Unknown Alert")) /\
    ~ has_field inc "title" (VStr (str "Unknown")) /\
    ~ has_field inc "title" (VStr (str "Unnamed Incident")).
Proof.
  eexists. split; [reflexivity|].
  repeat split; discriminate.
Qed.

(** * [investigate_incident] *)

(** C8.  For every incident, every choice of the three flags and every
    outcome of the call to the model, [investigate_incident] returns a
    dictionary with exactly the six keys [incident_id], [timeline],
    [related_events], [threat_intel], [affected_assets] and [ai_summary];
    [affected_assets] holds the hosts and users whatever the flags; a
    part that is not asked for stays empty; and [ai_summary] is the
    completion of the model, or the placeholder when the call raises. *)
Theorem investigate_incident_complete (str_of : pyval -> pystr)
    (anthropic : model) (incident : dict)
    (include_timeline include_related_events include_threat_intel : bool) :
  exists result timeline related_events threat_intel ai_summary,
    Agent.investigate_incident str_of anthropic incident include_timeline
      include_related_events include_threat_intel = Ok result /\
    result = [(str "incident_id", dict_get incident (str "id") VNone);
              (str "timeline", VList timeline);
              (str "related_events", VList related_events);
              (str "threat_intel", VDict threat_intel);
              (str "affected_assets",
                VDict [(str "hosts", VList []); (str "users", VList [])]);
              (str "ai_summary", VStr ai_summary)] /\
    ai_summary
    = match anthropic (InvestigationPrompt
                         (dict_set result (str "ai_summary") (VStr []))) with
      | Ok text => text
      | Raise _ => str "Investigation summary unavailable."
      end /\
    List.length timeline = (if include_timeline then 1%nat else 0%nat) /\
    (include_related_events = false -> related_events = []) /\
    (include_threat_intel = false -> threat_intel = []).
Proof.
  destruct include_timeline, include_related_events, include_threat_intel;
    unfold Agent.investigate_incident, Agent._generate_investigation_summary,
      try_except;
    simpl;
    match goal with
    | |- context [anthropic ?p] => destruct (anthropic p) as [text | e] eqn:E
    end;
    simpl;
    do 5 eexists;
    (split; [reflexivity|]);
    (split; [reflexivity|]);
    (split; [simpl; rewrite E; reflexivity|]);
    repeat split; intros; congruence.
Qed.

(** * Delimited spans *)

Section Pairs.

Variables opening closing : char.
Hypothesis distinct : opening <> closing.

(** An [opening] with a [closing] after it, in terms of the indices
    [find] and [rfind] return. *)
Lemma pair_by_index (text : pystr) :
  (exists a b c, text = a ++ [opening] ++ b ++ [closing] ++ c) <->
  0 <= Str.find text [opening]
  /\ Str.find text [opening] < Str.rfind text [closing] + 1.
Proof.
  split.
  - intros (a & b & c & E).
    assert (E1 : text = a ++ [opening] ++ (b ++ [closing] ++ c))
      by exact E.
    assert (E2 : text = (a ++ [opening] ++ b) ++ [closing] ++ c)
      by (rewrite E; repeat rewrite <- app_assoc; reflexivity).
    assert (Hf : 0 <= Str.find text [opening]
                 <= Z.of_nat (List.length a)).
    { unfold Str.find.
      destruct (find_from_spec [opening] text 0)
        as [[_ Ha] | (p & q & [_ Hmin] & ->)].
      - destruct (Ha _ _ E1).
      - apply Hmin in E1. lia. }
    assert (Hr : Z.of_nat (List.length (a ++ [opening] ++ b))
                 <= Str.rfind text [closing]).
    { destruct (rfind_range [closing] text)
        as [[_ Ha] | (p & q & [_ Hmax] & ->)].
      - destruct (Ha _ _ E2).
      - apply Hmax in E2. lia. }
    rewrite !length_app in Hr. simpl List.length in Hr. lia.
  - intros [Hi Hlt].
    destruct (find_nonneg _ _ Hi) as (p1 & q1 & [H1 _] & Hi').
    destruct (rfind_range [closing] text)
      as [[Hj _] | (p2 & q2 & [H2 _] & Hj)]; [lia|].
    rewrite Hi', Hj in Hlt.
    rewrite H1 in H2.
    destruct (app_eq_app _ _ _ _ H2) as (l & [[Hp Hq] | [Hp Hq]]).
    + destruct l as [|x l].
      * injection Hq as Hq _. congruence.
      * rewrite Hp, length_app in Hlt. simpl in Hlt. lia.
    + destruct l as [|x l].
      * injection Hq as Hq _. congruence.
      * injection Hq as <- Hq.
        exists p1, l, q2. rewrite H1, Hq. reflexivity.
Qed.

End Pairs.

(** * [generate_hunting_hypotheses] *)

Section Hypotheses.

Variable py : interpreter.
Variable anthropic : model.

(** The test [json_start >= 0 and json_end > json_start]. *)
Lemma bracket_test (text : pystr) :
  (0 <=? Str.find text (str "["))
  && (Str.find text (str "[") <? Str.rfind text (str "]") + 1) = false
  <-> no_bracket_pair text.
Proof.
  assert (P := @pair_by_index 91%N 93%N ltac:(discriminate) text).
  change [91%N] with (str "[") in P. change [93%N] with (str "]") in P.
  rewrite andb_false_iff, Z.leb_gt, Z.ltb_ge.
  unfold no_bracket_pair. split.
  - intros H a b c E.
    assert (Hp : exists a b c, text = a ++ str "[" ++ b ++ str "]" ++ c)
      by eauto.
    apply P in Hp. lia.
  - intros H.
    destruct (Z.lt_ge_cases (Str.find text (str "[")) 0) as [|Hi];
      [left; assumption|].
    destruct (Z.lt_ge_cases (Str.find text (str "["))
                (Str.rfind text (str "]") + 1)) as [Hlt|];
      [|right; assumption].
    destruct (proj2 P (conj Hi Hlt)) as (a & b & c & E).
    destruct (H a b c E).
Qed.

(** The span that is decoded starts with the opening bracket. *)
Lemma array_span_bracket (text : pystr) :
  0 <= Str.find text (str "[") ->
  Str.find text (str "[") < Str.rfind text (str "]") + 1 ->
  exists r, json_array_span text = str "[" ++ r.
Proof.
  intros Hi Hlt. unfold json_array_span.
  destruct (find_nonneg _ _ Hi) as (p & q & [H _] & Hi').
  rewrite Hi' in *. clear Hi'. subst text.
  apply (@slice_head char p 91%N q). exact Hlt.
Qed.

(** What [generate_hunting_hypotheses] returns, by outcome of the
    call. *)
Lemma generate_hunting_hypotheses_cases (findings : dict) :
  match anthropic (HypothesesPrompt findings) with
  | Raise _ =>
      Hunting.generate_hunting_hypotheses py anthropic findings
      = Ok (VList Hunting._default_hypotheses)
  | Ok text =>
      (no_bracket_pair text /\
       Hunting.generate_hunting_hypotheses py anthropic findings
       = Ok (VList Hunting._default_hypotheses)) \/
      (~ no_bracket_pair text /\
       match Json.loads py (json_array_span text) with
       | Raise _ =>
           Hunting.generate_hunting_hypotheses py anthropic findings
           = Ok (VList Hunting._default_hypotheses)
       | Ok v =>
           Hunting.generate_hunting_hypotheses py anthropic findings = Ok v /\
           exists l, v = VList l
       end)
  end.
Proof.
  unfold Hunting.generate_hunting_hypotheses.
  destruct (anthropic (HypothesesPrompt findings)) as [text | e];
    [|reflexivity].
  simpl.
  destruct ((0 <=? Str.find text (str "["))
            && (Str.find text (str "[") <? Str.rfind text (str "]") + 1))
    eqn:T.
  - right. split.
    + intros Hno. apply bracket_test in Hno. congruence.
    + apply andb_true_iff in T as [Hi Hlt].
      apply Z.leb_le in Hi. apply Z.ltb_lt in Hlt.
      fold (json_array_span text).
      destruct (Json.loads py (json_array_span text)) as [v | e] eqn:L;
        [|reflexivity].
      split; [reflexivity|].
      destruct (array_span_bracket _ Hi Hlt) as (r & Hr).
      rewrite Hr in L. exact (loads_bracket _ _ L).
  - left. split; [apply bracket_test, T | reflexivity].
Qed.

End Hypotheses.

(** C5, as amended.  On every interpreter, for every findings input and
    every outcome of the call to the model, [generate_hunting_hypotheses]
    returns a list.  It is the single default hypothesis when the call
    raises, when the completion has no opening bracket with a closing
    bracket after it, and when the decoder refuses the span between the
    first and the last of these (a text that is not JSON, an integer with
    more digits than the interpreter converts, arrays and objects nested
    deeper than the interpreter lets the decoder go).  Otherwise it is the
    decoded array as it stands; so the list is empty only when the model
    itself answers with an empty array. *)
Theorem generate_hunting_hypotheses_total (py : interpreter)
    (anthropic : model) (findings : dict) :
  exists hypotheses,
    Hunting.generate_hunting_hypotheses py anthropic findings
    = Ok (VList hypotheses) /\
    ((exists e, anthropic (HypothesesPrompt findings) = Raise e) ->
     hypotheses = Hunting._default_hypotheses) /\
    (forall text,
        anthropic (HypothesesPrompt findings) = Ok text ->
        no_bracket_pair text \/
        (exists e, Json.loads py (json_array_span text) = Raise e) ->
        hypotheses = Hunting._default_hypotheses) /\
    (forall text v,
        anthropic (HypothesesPrompt findings) = Ok text ->
        ~ no_bracket_pair text ->
        Json.loads py (json_array_span text) = Ok v ->
        v = VList hypotheses) /\
    (hypotheses = [] ->
     exists text,
       anthropic (HypothesesPrompt findings) = Ok text /\
       Json.loads py (json_array_span text) = Ok (VList [])) /\
    List.length Hunting._default_hypotheses = 1%nat.
Proof.
  assert (C := generate_hunting_hypotheses_cases py anthropic findings).
  destruct (anthropic (HypothesesPrompt findings)) as [text | e].
  - destruct C as [[Hno C] | [Hpair C]].
    + exists Hunting._default_hypotheses. split; [exact C|].
      repeat split; auto.
      * intros text' v [= <-] Hp. destruct (Hp Hno).
      * discriminate.
    + destruct (Json.loads py (json_array_span text)) as [v | e] eqn:L.
      * destruct C as [C (l & ->)].
        exists l. split; [exact C|].
        repeat split; auto.
        -- intros (e & [=]).
        -- intros text' [= <-] [Hno | (e & He)];
             [destruct (Hpair Hno) | congruence].
        -- intros text' v [= <-] _ Hv. congruence.
        -- intros ->. exists text. split; [reflexivity | exact L].
      * exists Hunting._default_hypotheses. split; [exact C|].
        repeat split; auto.
        -- intros text' v [= <-] _ Hv. congruence.
        -- discriminate.
  - exists Hunting._default_hypotheses. split; [exact C|].
    repeat split; auto; try discriminate.
Qed.

(** A completion whose array is empty makes [generate_hunting_hypotheses]
    return no hypothesis at all. *)
Lemma generate_hunting_hypotheses_empty :
  exists hypotheses,
    Hunting.generate_hunting_hypotheses cpython_3_11
      (answering (str "Nothing stands out in these findings: []")) []
    = Ok (VList hypotheses) /\
    hypotheses = [].
Proof. exists []. split; reflexivity. Qed.

(** An array that holds an integer of 4301 digits is refused by the
    decoder of an interpreter that converts 4300 digits at most, and the
    default hypothesis is returned; an interpreter without this limit
    returns the array. *)
Lemma generate_hunting_hypotheses_long_integer :
  Hunting.generate_hunting_hypotheses cpython_3_11
    (answering (str "[" ++ repeat 57%N 4301 ++ str "]")) []
  = Ok (VList Hunting._default_hypotheses) /\
  exists n,
    Hunting.generate_hunting_hypotheses
      {| int_max_str_digits := 0; json_depth := 900;
         hashable_slices := false |}
      (answering (str "[" ++ repeat 57%N 4301 ++ str "]")) []
    = Ok (VList [VInt n]).
Proof.
  split; [vm_compute; reflexivity|].
  eexists. vm_compute. reflexivity.
Qed.

(** * [execute_hunt] *)

Section Hunt.

Variable anthropic : model.

Lemma occurs_first_by_find (sub s pre post : pystr) :
  s = pre ++ sub ++ post ->
  Str.find s sub = Z.of_nat (List.length pre) ->
  occurs_first sub s pre post.
Proof.
  intros E Hf. split; [exact E|].
  unfold Str.find in Hf.
  destruct (find_from_spec sub s 0) as [[_ Ha] | (p & q & [_ Hmin] & Hr)].
  - destruct (Ha _ _ E).
  - intros pre' post' E'. apply Hmin in E'. lia.
Qed.

Lemma contains_first (sub s pre post : pystr) :
  occurs_first sub s pre post -> Str.contains s sub = true.
Proof.
  intros H. unfold Str.contains. rewrite (find_first H).
  apply Z.leb_le. lia.
Qed.

(** The parsing step when both markers are there, in order. *)
Lemma parse_both_markers (results : dict) (text pre mid rest : pystr) :
  occurs_first (str "SUMMARY:") text pre (mid ++ str "ACTIONS:" ++ rest) ->
  occurs_first (str "ACTIONS:") text (pre ++ str "SUMMARY:" ++ mid) rest ->
  Hunting.parse_summary_and_actions results text
  = dict_set
      (dict_set results (str "ai_summary") (VStr (Str.strip mid)))
      (str "recommended_actions")
      (VList
         (map (fun line =>
                 VStr (Str.strip (Str.lstrip (str "-") (Str.strip line))))
            (filter (fun line => Str.startswith (Str.strip line) (str "-"))
               (Str.split LF rest)))).
Proof.
  intros HS HA. unfold Hunting.parse_summary_and_actions.
  rewrite (contains_first HS), (find_first HS), (find_first HA).
  destruct HS as [E _].
  assert (Hmid : Str.slice text (Z.of_nat (List.length pre) + 8)
                   (Z.of_nat (List.length (pre ++ str "SUMMARY:" ++ mid)))
                 = mid).
  { rewrite E.
    replace (pre ++ str "SUMMARY:" ++ mid ++ str "ACTIONS:" ++ rest)
      with ((pre ++ str "SUMMARY:") ++ mid ++ (str "ACTIONS:" ++ rest))
      by (repeat rewrite <- app_assoc; reflexivity).
    replace (Z.of_nat (List.length pre) + 8)
      with (Z.of_nat (List.length (pre ++ str "SUMMARY:")))
      by (rewrite length_app; simpl List.length; lia).
    replace (Z.of_nat (List.length (pre ++ str "SUMMARY:" ++ mid)))
      with (Z.of_nat (List.length (pre ++ str "SUMMARY:"))
            + Z.of_nat (List.length mid))
      by (rewrite !length_app; simpl List.length; lia).
    apply slice_between. }
  assert (Hrest : Str.slice_from text
                    (Z.of_nat (List.length (pre ++ str "SUMMARY:" ++ mid))
                     + 8)
                  = rest).
  { rewrite E.
    replace (pre ++ str "SUMMARY:" ++ mid ++ str "ACTIONS:" ++ rest)
      with ((pre ++ str "SUMMARY:" ++ mid ++ str "ACTIONS:") ++ rest)
      by (repeat rewrite <- app_assoc; reflexivity).
    replace (Z.of_nat (List.length (pre ++ str "SUMMARY:" ++ mid)) + 8)
      with (Z.of_nat
              (List.length (pre ++ str "SUMMARY:" ++ mid ++ str "ACTIONS:")))
      by (rewrite !length_app; simpl List.length; lia).
    apply slice_from_app. }
  rewrite Hmid, Hrest.
  replace (0 <? Z.of_nat (List.length (pre ++ str "SUMMARY:" ++ mid)))
    with true; [reflexivity|].
  symmetry. apply Z.ltb_lt.
  rewrite !length_app. simpl List.length. lia.
Qed.

(** The parsing step when only the first marker is there. *)
Lemma parse_summary_marker_only (results : dict) (text pre post : pystr) :
  occurs_first (str "SUMMARY:") text pre post ->
  absent (str "ACTIONS:") text ->
  Hunting.parse_summary_and_actions results text
  = dict_set results (str "ai_summary")
      (VStr (Str.strip (removelast post))).
Proof.
  intros HS HA. unfold Hunting.parse_summary_and_actions.
  rewrite (contains_first HS), (find_first HS).
  apply find_absent in HA. rewrite HA.
  change (0 <? -1) with false. cbv iota.
  destruct HS as [E _].
  rewrite E at 1.
  replace (pre ++ str "SUMMARY:" ++ post)
    with ((pre ++ str "SUMMARY:") ++ post)
    by (rewrite <- app_assoc; reflexivity).
  replace (Z.of_nat (List.length pre) + 8)
    with (Z.of_nat (List.length (pre ++ str "SUMMARY:")))
    by (rewrite length_app; simpl List.length; lia).
  rewrite slice_to_last. reflexivity.
Qed.

Lemma execute_hunt_answer (hypothesis data_sources : dict) (text : pystr) :
  anthropic (hunt_prompt hypothesis) = Ok text ->
  Hunting.execute_hunt anthropic hypothesis data_sources
  = Ok (Hunting.parse_summary_and_actions (hunt_results [] []) text).
Proof.
  intros H. unfold Hunting.execute_hunt. fold (hunt_prompt hypothesis).
  rewrite H. reflexivity.
Qed.

End Hunt.

(** C7, as amended.  On the completion
    ["SUMMARY: X\n\nACTIONS:\n- A1\n- A2"] the summary is ["X"] and the
    actions are ["A1"] and ["A2"].  In general, when the first [ACTIONS:]
    of the completion comes after its first [SUMMARY:], the summary is the
    text between these two markers without the white space around it, and
    the actions are made of the lines after that [ACTIONS:]: one action
    per line whose first character that is not white space is a dash, in
    order, which is the line without all of its leading dashes and the
    white space around what is left, and no action for any other line. *)
Theorem execute_hunt_parsing :
  (forall hypothesis data_sources,
      Hunting.execute_hunt (answering example_completion) hypothesis
        data_sources
      = Ok (hunt_results (str "X") [str "A1"; str "A2"])) /\
  (forall (anthropic : model) hypothesis data_sources text pre mid rest,
      anthropic (hunt_prompt hypothesis) = Ok text ->
      occurs_first (str "SUMMARY:") text pre (mid ++ str "ACTIONS:" ++ rest) ->
      occurs_first (str "ACTIONS:") text (pre ++ str "SUMMARY:" ++ mid) rest ->
      exists actions,
        Hunting.execute_hunt anthropic hypothesis data_sources
        = Ok (hunt_results (Str.strip mid) actions) /\
        actions_of (Str.split LF rest) actions).
Proof.
  split.
  - intros hypothesis data_sources. reflexivity.
  - intros anthropic hypothesis data_sources text pre mid rest Hcall HS HA.
    eexists. split.
    + rewrite (@execute_hunt_answer anthropic hypothesis data_sources text
                 Hcall).
      rewrite (@parse_both_markers (hunt_results [] []) text pre mid rest
                 HS HA).
      unfold hunt_results. cbn [dict_set map].
      rewrite map_map. reflexivity.
    + apply actions_of_lines.
Qed.

Lemma execute_hunt_parsing_witness :
  answering example_completion (hunt_prompt []) = Ok example_completion /\
  occurs_first (str "SUMMARY:") example_completion []
    (str " X" ++ [LF; LF] ++ str "ACTIONS:"
       ++ [LF] ++ str "- A1" ++ [LF] ++ str "- A2") /\
  occurs_first (str "ACTIONS:") example_completion
    ([] ++ str "SUMMARY:" ++ str " X" ++ [LF; LF])
    ([LF] ++ str "- A1" ++ [LF] ++ str "- A2") /\
  exists actions,
    Hunting.execute_hunt (answering example_completion) [] []
    = Ok (hunt_results (Str.strip (str " X" ++ [LF; LF])) actions) /\
    actions_of (Str.split LF ([LF] ++ str "- A1" ++ [LF] ++ str "- A2"))
      actions.
Proof.
  assert (H1 : answering example_completion (hunt_prompt [])
               = Ok example_completion) by reflexivity.
  assert (H2 : occurs_first (str "SUMMARY:") example_completion []
                 (str " X" ++ [LF; LF]
                    ++ (str "ACTIONS:"
                          ++ ([LF] ++ str "- A1" ++ [LF] ++ str "- A2"))))
    by (apply occurs_first_by_find; reflexivity).
  assert (H3 : occurs_first (str "ACTIONS:") example_completion
                 ([] ++ str "SUMMARY:" ++ str " X" ++ [LF; LF])
                 ([LF] ++ str "- A1" ++ [LF] ++ str "- A2"))
    by (apply occurs_first_by_find; reflexivity).
  assert (H2' : occurs_first (str "SUMMARY:") example_completion []
                  ((str " X" ++ [LF; LF]) ++ str "ACTIONS:"
                     ++ ([LF] ++ str "- A1" ++ [LF] ++ str "- A2")))
    by exact H2.
  exact (conj H1 (conj H2 (conj H3
           (proj2 execute_hunt_parsing (answering example_completion)
              [] [] example_completion [] (str " X" ++ [LF; LF])
              ([LF] ++ str "- A1" ++ [LF] ++ str "- A2") H1 H2' H3)))).
Defined.

(** Where the code departs from the rule of one leading dash and of the
    text between the markers: a line with two dashes loses both, a line of
    dashes gives the empty action, and an [ACTIONS:] that comes before
    [SUMMARY:] leaves the summary empty although text stands between
    [SUMMARY:] and the [ACTIONS:] that follows it. *)
Lemma execute_hunt_parsing_departures :
  Hunting.execute_hunt
    (answering (str "SUMMARY: X" ++ [LF] ++ str "ACTIONS:" ++ [LF]
                  ++ str "--A1" ++ [LF] ++ str "---"))
    [] []
  = Ok (hunt_results (str "X") [str "A1"; []]) /\
  hunt_results (str "X") [str "A1"; []]
  <> hunt_results (str "X") [str "-A1"; str "--"] /\
  occurs_first (str "SUMMARY:")
    (str "Intro ACTIONS: x SUMMARY: y ACTIONS:" ++ [LF] ++ str "- z")
    (str "Intro ACTIONS: x ") (str " y ACTIONS:" ++ [LF] ++ str "- z") /\
  Hunting.execute_hunt
    (answering
       (str "Intro ACTIONS: x SUMMARY: y ACTIONS:" ++ [LF] ++ str "- z"))
    [] []
  = Ok (hunt_results [] [str "z"]) /\
  hunt_results [] [str "z"] <> hunt_results (str "y") [str "z"].
Proof.
  split; [vm_compute; reflexivity|].
  split; [discriminate|].
  split; [apply occurs_first_by_find; reflexivity|].
  split; [vm_compute; reflexivity | discriminate].
Qed.

(** C10.  When the completion holds [SUMMARY:] and does not hold
    [ACTIONS:], the summary is the text after the first [SUMMARY:] without
    its last character, stripped of the white space around it, and there
    is no recommended action. *)
Theorem execute_hunt_without_actions (anthropic : model)
    (hypothesis data_sources : dict) (text pre post : pystr) :
  anthropic (hunt_prompt hypothesis) = Ok text ->
  occurs_first (str "SUMMARY:") text pre post ->
  absent (str "ACTIONS:") text ->
  Hunting.execute_hunt anthropic hypothesis data_sources
  = Ok (hunt_results (Str.strip (removelast post)) []).
Proof.
  intros Hcall HS HA.
  rewrite (@execute_hunt_answer anthropic hypothesis data_sources text
             Hcall).
  rewrite (@parse_summary_marker_only (hunt_results [] []) text pre post
             HS HA).
  reflexivity.
Qed.

Lemma execute_hunt_without_actions_witness :
  answering (str "Done. SUMMARY: no beaconing seen.") (hunt_prompt [])
  = Ok (str "Done. SUMMARY: no beaconing seen.") /\
  occurs_first (str "SUMMARY:") (str "Done. SUMMARY: no beaconing seen.")
    (str "Done. ") (str " no beaconing seen.") /\
  absent (str "ACTIONS:") (str "Done. SUMMARY: no beaconing seen.") /\
  Hunting.execute_hunt (answering (str "Done. SUMMARY: no beaconing seen."))
    [] []
  = Ok (hunt_results (str "no beaconing seen") []).
Proof.
  assert (H1 : answering (str "Done. SUMMARY: no beaconing seen.")
                 (hunt_prompt [])
               = Ok (str "Done. SUMMARY: no beaconing seen."))
    by reflexivity.
  assert (H2 : occurs_first (str "SUMMARY:")
                 (str "Done. SUMMARY: no beaconing seen.")
                 (str "Done. ") (str " no beaconing seen."))
    by (apply occurs_first_by_find; reflexivity).
  assert (H3 : absent (str "ACTIONS:")
                 (str "Done. SUMMARY: no beaconing seen."))
    by (apply find_absent; reflexivity).
  exact (conj H1 (conj H2 (conj H3
           (@execute_hunt_without_actions
              (answering (str "Done. SUMMARY: no beaconing seen."))
              [] [] _ _ _ H1 H2 H3)))).
Defined.

(** * The summary handed to the model *)

Section Summary.

Variable py : interpreter.

Lemma prepare_incident_summary_inv (incidents summary : list dict) :
  Agent._prepare_incident_summary py incidents = Ok summary ->
  Forall2
    (fun inc s =>
       exists description,
         py_slice_to py (dict_get inc (str "description") (VStr [])) 200
         = Ok description /\
         s = [(str "id", dict_get inc (str "id") VNone);
              (str "title", dict_get inc (str "title") VNone);
              (str "description", description);
              (str "severity", dict_get inc (str "severity") VNone);
              (str "source", dict_get inc (str "source") VNone);
              (str "timestamp", dict_get inc (str "timestamp") VNone)])
    (firstn 50 incidents) summary.
Proof.
  unfold Agent._prepare_incident_summary. intros H.
  apply for_each_inv in H.
  rewrite slice_to_firstn in H by lia. change (Z.to_nat 50) with 50%nat in H.
  eapply Forall2_impl; [|exact H].
  intros inc s Hs. cbv beta in Hs.
  apply bind_ok in Hs as (description & Hd & Hs).
  injection Hs as <-. eauto.
Qed.

End Summary.

(** X1.  When [_prepare_incident_summary] returns, the summary covers the
    first 50 incidents and no more, in order; each of its items has
    exactly the keys [id], [title], [description], [severity], [source]
    and [timestamp], so the raw vendor record of an incident is never part
    of it; and [id], [title], [severity], [source] and [timestamp] are
    those of the incident, [None] standing for a missing one. *)
Theorem prepare_incident_summary_bounds (py : interpreter)
    (incidents summary : list dict) :
  Agent._prepare_incident_summary py incidents = Ok summary ->
  List.length summary = Nat.min 50 (List.length incidents) /\
  Forall2
    (fun inc s =>
       keys s = summary_keys /\
       forall k, In k copied_keys ->
                 dict_lookup k s = Some (dict_get inc k VNone))
    (firstn 50 incidents) summary.
Proof.
  intros H. apply prepare_incident_summary_inv in H. split.
  - etransitivity; [symmetry; exact (Forall2_length H) | apply length_firstn].
  - eapply Forall2_impl; [|exact H].
    intros inc s (description & _ & ->). split; [reflexivity|].
    intros k Hk. simpl in Hk.
    destruct Hk as [<- | [<- | [<- | [<- | [<- | []]]]]]; reflexivity.
Qed.

Lemma prepare_incident_summary_bounds_witness :
  Agent._prepare_incident_summary cpython_3_11 scenario_incidents = Ok scenario_summary /\
  List.length scenario_summary
  = Nat.min 50 (List.length scenario_incidents) /\
  Forall2
    (fun inc s =>
       keys s = summary_keys /\
       forall k, In k copied_keys ->
                 dict_lookup k s = Some (dict_get inc k VNone))
    (firstn 50 scenario_incidents) scenario_summary.
Proof.
  assert (H : Agent._prepare_incident_summary cpython_3_11 scenario_incidents
              = Ok scenario_summary) by reflexivity.
  exact (conj H (@prepare_incident_summary_bounds cpython_3_11 scenario_incidents
                   scenario_summary H)).
Defined.

(** X2.  When [_prepare_incident_summary] returns, the description of
    each summarised incident is the first 200 characters of the incident's
    description (the first 200 items, when the description is a list), and
    the empty string when the incident has none. *)
Theorem prepare_incident_summary_truncates (py : interpreter)
    (incidents summary : list dict) :
  Agent._prepare_incident_summary py incidents = Ok summary ->
  Forall2
    (fun inc s =>
       exists description,
         dict_lookup (str "description") s = Some description /\
         truncated_to 200 (dict_get inc (str "description") (VStr []))
           description /\
         (lacks_field inc "description" -> description = VStr []))
    (firstn 50 incidents) summary.
Proof.
  intros H. apply prepare_incident_summary_inv in H.
  eapply Forall2_impl; [|exact H].
  intros inc s (description & Hd & ->).
  exists description. split; [reflexivity|].
  assert (Ht : truncated_to 200
                 (dict_get inc (str "description") (VStr [])) description).
  { destruct (dict_get inc (str "description") (VStr [])) as [| | | |t|l|];
      simpl in Hd; try discriminate; injection Hd as <-; simpl;
      rewrite slice_to_firstn by lia; reflexivity. }
  split; [exact Ht|].
  intros Hl. unfold lacks_field in Hl. unfold dict_get in Ht.
  rewrite Hl in Ht. exact Ht.
Qed.

Lemma prepare_incident_summary_truncates_witness :
  Agent._prepare_incident_summary cpython_3_11 scenario_incidents = Ok scenario_summary /\
  Forall2
    (fun inc s =>
       exists description,
         dict_lookup (str "description") s = Some description /\
         truncated_to 200 (dict_get inc (str "description") (VStr []))
           description /\
         (lacks_field inc "description" -> description = VStr []))
    (firstn 50 scenario_incidents) scenario_summary.
Proof.
  assert (H : Agent._prepare_incident_summary cpython_3_11 scenario_incidents
              = Ok scenario_summary) by reflexivity.
  exact (conj H (@prepare_incident_summary_truncates cpython_3_11 scenario_incidents
                   scenario_summary H)).
Defined.

(** * What [analyze_incidents] can return *)

Section Outcome.

Variable py : interpreter.
Variable anthropic : model.

(** A text that begins with an opening brace decodes to a dictionary, if
    it decodes at all. *)
Lemma loads_brace (r : pystr) (v : pyval) :
  Json.loads py (str "{" ++ r) = Ok v -> exists d, v = VDict d.
Proof.
  unfold Json.loads.
  change (Str.startswith (str "{" ++ r) Json.BOM) with false. cbv iota.
  change (Json.skip_ws (str "{" ++ r)) with (str "{" ++ r).
  destruct (2 * List.length (str "{" ++ r) + 2)%nat as [|fuel] eqn:Ef;
    [discriminate|].
  cbn [Json.value str app map list_ascii_of_string].
  change (N_of_ascii "{"%char =? 34)%N with false.
  change (N_of_ascii "{"%char =? 123)%N with true.
  cbv iota.
  destruct (json_depth py) as [|depth]; [discriminate|].
  destruct (Json.after _ (Json.skip_ws r)) as [r'|].
  - destruct (Json.skip_ws r'); [|discriminate].
    intros [= <-]. eexists; reflexivity.
  - destruct (Json.members py fuel depth [] (Json.skip_ws r)) as [[d r']|];
      [|discriminate].
    destruct (Json.skip_ws r'); [|discriminate].
    intros [= <-]. eexists; reflexivity.
Qed.

(** The span that is decoded starts with the opening brace, when there is
    a brace pair. *)
Lemma object_span_brace (text : pystr) :
  ~ no_brace_pair text -> exists r, json_object_span text = str "{" ++ r.
Proof.
  intros Hpair. unfold json_object_span.
  destruct (find_range (str "{") text) as [Hi | Hi].
  - destruct Hpair. apply no_brace_pair_by_index. left. exact Hi.
  - destruct (Z.lt_ge_cases (Str.rfind text (str "}"))
                (Str.find text (str "{"))) as [Hlt | Hge].
    + destruct Hpair. apply no_brace_pair_by_index. right. exact Hlt.
    + destruct (find_nonneg _ _ Hi) as (p & q & [H _] & Hi').
      rewrite Hi' in *. clear Hi'. subst text.
      apply (@slice_head char p 123%N q). lia.
Qed.

Lemma no_brace_pair_dec (text : pystr) :
  no_brace_pair text \/ ~ no_brace_pair text.
Proof.
  destruct (find_range (str "{") text) as [Hi | Hi].
  - left. apply no_brace_pair_by_index. left. exact Hi.
  - destruct (Z.lt_ge_cases (Str.rfind text (str "}"))
                (Str.find text (str "{"))) as [Hlt | Hge].
    + left. apply no_brace_pair_by_index. right. exact Hlt.
    + right. intros Hno.
      assert (P := @pair_by_index 123%N 125%N ltac:(discriminate) text).
      change [123%N] with (str "{") in P. change [125%N] with (str "}") in P.
      destruct (proj2 P) as (a & b & c & E); [lia|].
      exact (Hno a b c E).
Qed.

(** Once the summary is prepared, [analyze_incidents] returns a
    dictionary. *)
Lemma analyze_incidents_summarized (incidents summary : list dict) :
  Agent._prepare_incident_summary py incidents = Ok summary ->
  exists d, Agent.analyze_incidents py anthropic incidents = Ok (VDict d).
Proof.
  intros Hs. unfold Agent.analyze_incidents. rewrite Hs. simpl.
  destruct (anthropic (AnalysisPrompt summary)) as [text | e]; simpl;
    [|eauto].
  fold (json_object_span text).
  destruct (Json.loads py (json_object_span text)) as [v | e] eqn:L; simpl;
    [|eauto].
  destruct (no_brace_pair_dec text) as [Hno | Hpair].
  - rewrite (no_brace_pair_raises py Hno) in L. discriminate.
  - destruct (object_span_brace Hpair) as (r & Hr).
    rewrite Hr in L. destruct (loads_brace _ L) as (d & ->). eauto.
Qed.

End Outcome.

(** X3.  Whatever the model answers, [analyze_incidents] has two
    outcomes only.  When the first 50 incidents have descriptions that can
    be truncated it returns a dictionary, the decoded object or the
    rule-based result, never a list, a string or a number.  When one of
    them has not, it raises what the truncation of the first such
    description raises: [TypeError], or [KeyError] for a description that
    is a dictionary on an interpreter whose slices are hashable. *)
Theorem analyze_incidents_outcome (py : interpreter) (anthropic : model)
    (incidents : list dict) :
  (Forall summarizable (firstn 50 incidents) ->
   exists d, Agent.analyze_incidents py anthropic incidents = Ok (VDict d)) /\
  (Exists (fun inc => ~ summarizable inc) (firstn 50 incidents) ->
   exists pre inc post,
     firstn 50 incidents = pre ++ inc :: post /\
     Forall summarizable pre /\ ~ summarizable inc /\
     ((Agent.analyze_incidents py anthropic incidents = Raise TypeError /\
       (hashable_slices py = false \/
        ~ is_dict (dict_get inc (str "description") (VStr [])))) \/
      (Agent.analyze_incidents py anthropic incidents = Raise KeyError /\
       hashable_slices py = true /\
       is_dict (dict_get inc (str "description") (VStr []))))) /\
  (Forall summarizable (firstn 50 incidents) \/
   Exists (fun inc => ~ summarizable inc) (firstn 50 incidents)).
Proof.
  split; [|split].
  - intros H. destruct (prepare_incident_summary_ok py _ H) as (summary & Hs).
    exact (analyze_incidents_summarized py anthropic _ Hs).
  - intros H.
    destruct (analyze_incidents_unsummarizable py anthropic _ H)
      as (pre & inc & post & E & Hpre & Hinc & Hr).
    exists pre, inc, post. repeat (split; [assumption|]).
    rewrite Hr.
    destruct (dict_get inc (str "description") (VStr [])) eqn:Ed; simpl;
      try (left; split; [reflexivity|]; right; intros (d & [=]); fail).
    destruct (hashable_slices py).
    + right. split; [reflexivity|]. split; [reflexivity|].
      eexists; reflexivity.
    + left. split; [reflexivity|]. left. reflexivity.
  - induction (firstn 50 incidents) as [|inc l [IH | IH]].
    + left. constructor.
    + destruct (sliceable_dec (dict_get inc (str "description") (VStr [])))
        as [Hs | Hs].
      * left. constructor; assumption.
      * right. left. exact Hs.
    + right. right. exact IH.
Qed.

(** An incident whose description is a dictionary: [TypeError] where
    slices are not hashable, [KeyError] where they are. *)
Lemma analyze_incidents_dict_description :
  Agent.analyze_incidents cpython_3_11 unreachable
    [[(str "id", VStr (str "da-7")); (str "description", VDict [])]]
  = Raise TypeError /\
  Agent.analyze_incidents
    {| int_max_str_digits := 4300; json_depth := 900;
       hashable_slices := true |}
    unreachable
    [[(str "id", VStr (str "da-7")); (str "description", VDict [])]]
  = Raise KeyError.
Proof. split; reflexivity. Qed.

(** * Aggregation followed by the rule-based prioritisation *)

Section EmailPriority.

Variable str_of : pyval -> pystr.

Lemma Forall2_in_r {A B} (R : A -> B -> Prop) (xs : list A) (ys : list B)
    (y : B) :
  Forall2 R xs ys -> In y ys -> exists x, In x xs /\ R x y.
Proof.
  induction 1 as [|x y' xs ys Hxy _ IH]; simpl; [intros []|].
  intros [<- | Hy].
  - exists x. auto.
  - destruct (IH Hy) as (x' & Hx' & HR). exists x'. auto.
Qed.

(** In a completed aggregation, an incident whose source is [Proofpoint]
    has severity [High]. *)
Lemma proofpoint_incident_severity
    (cs_detections cs_incidents ms_alerts pp_events : dict)
    (incidents : list dict) (inc : dict) :
  Agent.aggregate_incidents str_of cs_detections cs_incidents ms_alerts
    pp_events = Ok incidents ->
  In inc incidents ->
  has_field inc "source" (VStr (str "Proofpoint")) ->
  has_severity inc "High".
Proof.
  intros H Hin Hsrc.
  apply aggregate_incidents_inv in H
    as (ds & es & als & ms & fd & fe & fa & fm
        & _ & _ & _ & _ & Hfd & Hfe & Hfa & Hfm & ->).
  unfold has_field in Hsrc.
  rewrite !in_app_iff in Hin. destruct Hin as [Hin | [Hin | [Hin | Hin]]].
  - assert (F : Forall2 (made_from "CrowdStrike") ds fd)
      by (eapply for_each_made; [|exact Hfd]; apply detection_incident_made).
    destruct (@Forall2_in_r _ _ _ _ _ _ F Hin) as (r & _ & _ & Hs).
    unfold has_field in Hs. rewrite Hs in Hsrc. discriminate.
  - assert (F : Forall2 (made_from "CrowdStrike") es fe)
      by (eapply for_each_made; [|exact Hfe]; apply incident_incident_made).
    destruct (@Forall2_in_r _ _ _ _ _ _ F Hin) as (r & _ & _ & Hs).
    unfold has_field in Hs. rewrite Hs in Hsrc. discriminate.
  - assert (F : Forall2 (made_from "Microsoft Defender") als fa)
      by (eapply for_each_made; [|exact Hfa]; apply alert_incident_made).
    destruct (@Forall2_in_r _ _ _ _ _ _ F Hin) as (r & _ & _ & Hs).
    unfold has_field in Hs. rewrite Hs in Hsrc. discriminate.
  - assert (F := message_loop _ _ Hfm). unfold email_incidents in F.
    destruct (@Forall2_in_r _ _ _ _ _ _ F Hin) as (r & _ & _ & Hs).
    exact Hs.
Qed.

End EmailPriority.

(** X4.  When the incidents of a completed aggregation go through the
    rule-based prioritisation, every incident that comes from Proofpoint is
    under [high_priority], and under neither [medium_priority] nor
    [low_priority], whatever severity the blocked message itself
    carried. *)
Theorem email_incidents_high_priority (str_of : pyval -> pystr)
    (cs_detections cs_incidents ms_alerts pp_events : dict)
    (incidents : list dict) :
  Agent.aggregate_incidents str_of cs_detections cs_incidents ms_alerts
    pp_events = Ok incidents ->
  exists high medium low,
    VDict (Agent._basic_prioritization incidents)
    = prioritized high medium low /\
    forall inc,
      In inc incidents ->
      has_field inc "source" (VStr (str "Proofpoint")) ->
      In inc high /\ ~ In inc medium /\ ~ In inc low.
Proof.
  intros H.
  destruct (basic_prioritization_buckets incidents)
    as (high & medium & low & Hres & Hhigh & Hmedium & Hlow & _).
  exists high, medium, low. split; [exact Hres|].
  intros inc Hin Hsrc.
  assert (Hsev : severity_high inc).
  { right. left. exact (proofpoint_incident_severity _ _ _ _ _ H Hin Hsrc). }
  split; [|split].
  - apply Hhigh. auto.
  - intros Hm. apply Hmedium in Hm as [_ Hm].
    exact (severity_exclusive Hsev Hm).
  - intros Hl. apply Hlow in Hl as (_ & Hl & _). exact (Hl Hsev).
Qed.

Lemma email_incidents_high_priority_witness :
  Agent.aggregate_incidents plain_rendering scenario_detections
    scenario_no_incidents scenario_alerts scenario_messages
  = Ok scenario_aggregation /\
  exists high medium low,
    VDict (Agent._basic_prioritization scenario_aggregation)
    = prioritized high medium low /\
    forall inc,
      In inc scenario_aggregation ->
      has_field inc "source" (VStr (str "Proofpoint")) ->
      In inc high /\ ~ In inc medium /\ ~ In inc low.
Proof.
  assert (H : Agent.aggregate_incidents plain_rendering scenario_detections
                scenario_no_incidents scenario_alerts scenario_messages
              = Ok scenario_aggregation) by reflexivity.
  exact (conj H (@email_incidents_high_priority plain_rendering
                   scenario_detections scenario_no_incidents
                   scenario_alerts scenario_messages scenario_aggregation
                   H)).
Defined.

(** * Response actions *)

Section Response.

(** What the loop of [execute_response_actions] does with one action. *)
Lemma response_result (action : dict) (auto_approve : bool) :
  Agent.execute_response_actions [action] auto_approve
  = match dict_lookup (str "description") action with
    | Some description =>
        Ok [[(str "action", description);
             (str "success", VBool (automatable action || auto_approve));
             (str "message",
               VStr (result_message (automatable action || auto_approve)))]]
    | None => Raise KeyError
    end.
Proof.
  unfold Agent.execute_response_actions, automatable. simpl.
  destruct (dict_lookup (str "description") action) as [description|];
    destruct (py_truthy _ || auto_approve); reflexivity.
Qed.

Lemma execute_response_actions_cons (action : dict) (actions : list dict)
    (auto_approve : bool) :
  Agent.execute_response_actions (action :: actions) auto_approve
  = (result <- Agent.execute_response_actions [action] auto_approve ;;
     results <- Agent.execute_response_actions actions auto_approve ;;
     Ok (result ++ results)).
Proof.
  unfold Agent.execute_response_actions. cbn [for_each].
  match goal with
  | |- context [bind ?m _] => destruct m as [result | e]
  end; simpl; [|reflexivity].
  match goal with
  | |- context [bind ?m _] => destruct m as [results | e]
  end; reflexivity.
Qed.

(** A completed execution, action by action. *)
Lemma execute_response_actions_inv (actions : list dict)
    (auto_approve : bool) (results : list dict) :
  Agent.execute_response_actions actions auto_approve = Ok results ->
  Forall2
    (fun action result =>
       result_of action (automatable action || auto_approve) result)
    actions results.
Proof.
  revert results. induction actions as [|action actions IH]; intros results.
  - intros [= <-]. constructor.
  - rewrite execute_response_actions_cons, response_result.
    unfold result_of, has_field.
    destruct (dict_lookup (str "description") action) as [description|]
      eqn:E; simpl; [|discriminate].
    destruct (Agent.execute_response_actions actions auto_approve)
      as [rest | e]; simpl; [|discriminate].
    intros [= <-]. constructor; [|apply IH; reflexivity].
    exists description. split; [exact E | reflexivity].
Qed.

End Response.

(** X5.  When [execute_response_actions] returns, there is one result per
    action, in order; the result carries the action's description; and it
    is a success exactly when [can_automate] of the action is there and
    true, or automatic approval is on.  So without automatic approval an
    action that does not say it can be automated is left for manual
    approval. *)
Theorem execute_response_actions_results (actions : list dict)
    (auto_approve_safe_actions : bool) (results : list dict) :
  Agent.execute_response_actions actions auto_approve_safe_actions
  = Ok results ->
  Forall2
    (fun action result =>
       result_of action (automatable action || auto_approve_safe_actions)
         result)
    actions results /\
  (auto_approve_safe_actions = true ->
   Forall (fun result => has_field result "success" (VBool true)) results) /\
  (auto_approve_safe_actions = false ->
   Forall2
     (fun action result =>
        lacks_field action "can_automate" ->
        has_field result "success" (VBool false))
     actions results).
Proof.
  intros H. apply execute_response_actions_inv in H.
  split; [exact H|]. split.
  - intros ->. induction H as [|action result actions results Hr _ IH];
      constructor; [|exact IH].
    destruct Hr as (description & _ & ->).
    rewrite orb_true_r. reflexivity.
  - intros ->. eapply Forall2_impl; [|exact H].
    intros action result (description & _ & ->) Hl.
    unfold automatable, dict_get. unfold lacks_field in Hl. rewrite Hl.
    reflexivity.
Qed.

Lemma execute_response_actions_results_witness :
  Agent.execute_response_actions scenario_actions false
  = Ok scenario_results /\
  Forall2
    (fun action result =>
       result_of action (automatable action || false) result)
    scenario_actions scenario_results /\
  (false = true ->
   Forall (fun result => has_field result "success" (VBool true))
     scenario_results) /\
  (false = false ->
   Forall2
     (fun action result =>
        lacks_field action "can_automate" ->
        has_field result "success" (VBool false))
     scenario_actions scenario_results).
Proof.
  assert (H : Agent.execute_response_actions scenario_actions false
              = Ok scenario_results) by reflexivity.
  exact (conj H (@execute_response_actions_results scenario_actions false
                   scenario_results H)).
Defined.

(** X6.  [execute_response_actions] reads the description of every
    action with a subscript: it returns, with one result per action, when
    every action has a [description], and raises [KeyError] when one has
    none, whether or not the action would have been approved. *)
Theorem execute_response_actions_description (actions : list dict)
    (auto_approve_safe_actions : bool) :
  (Forall (fun action => exists v, has_field action "description" v)
     actions ->
   exists results,
     Agent.execute_response_actions actions auto_approve_safe_actions
     = Ok results /\
     List.length results = List.length actions) /\
  (Exists (fun action => lacks_field action "description") actions ->
   Agent.execute_response_actions actions auto_approve_safe_actions
   = Raise KeyError).
Proof.
  split.
  - intros H.
    assert (T : exists results,
               Agent.execute_response_actions actions
                 auto_approve_safe_actions = Ok results).
    { induction H as [|action actions (v & Hv) _ (results & IH)].
      - exists []. reflexivity.
      - rewrite execute_response_actions_cons, IH, response_result.
        unfold has_field in Hv. rewrite Hv. simpl. eauto. }
    destruct T as (results & T). exists results. split; [exact T|].
    apply execute_response_actions_inv in T.
    symmetry. exact (Forall2_length T).
  - induction 1 as [action actions Hl | action actions _ IH];
      rewrite execute_response_actions_cons, response_result.
    + unfold lacks_field in Hl. rewrite Hl. reflexivity.
    + rewrite IH.
      destruct (dict_lookup (str "description") action); reflexivity.
Qed.

(** * The incident report *)

Section Report.

Variable str_of : pyval -> pystr.

(** A loop that appends one piece of text per item. *)
Lemma fold_left_append {A} (f : A -> pystr) (xs : list A) (start : pystr) :
  fold_left (fun content x => content ++ f x) xs start
  = start ++ concat (map f xs).
Proof.
  revert start. induction xs as [|x xs IH]; intros start; simpl.
  - rewrite app_nil_r. reflexivity.
  - rewrite IH, <- app_assoc. reflexivity.
Qed.

(** The line of the report for a result of [execute_response_actions]. *)
Lemma report_action_line_result (action result : dict) (success : bool) :
  result_of action success result ->
  exists description,
    has_field action "description" description /\
    Agent.report_action_line str_of result
    = str "- " ++ (if success then Agent.MARK_DONE else Agent.MARK_FAILED)
        ++ str " " ++ py_format str_of description ++ str ": "
        ++ result_message success ++ [LF].
Proof.
  intros (description & Hd & ->). exists description. split; [exact Hd|].
  destruct success; reflexivity.
Qed.

End Report.

(** X7.  The content of an incident report is an opening made of the
    incident alone, then the investigation summary ([No summary available]
    when the investigation has none), then one line per response action,
    in order, then the three fixed recommendations.  The three [include_]
    flags have no effect: the recommendations are there even when
    [include_recommendations] is false.  The report's [incident_id] is the
    incident's [id]. *)
Theorem generate_incident_report_layout (str_of : pyval -> pystr)
    (incident : dict) :
  exists opening,
    forall (investigation : dict) (response_actions : list dict)
           (include_executive_summary include_technical_details
              include_recommendations : bool),
      Agent.generate_incident_report str_of incident investigation
        response_actions include_executive_summary
        include_technical_details include_recommendations
      = [(str "incident_id", dict_get incident (str "id") VNone);
         (str "content",
           VStr (opening
                   ++ str "## Investigation Summary" ++ [LF]
                   ++ py_format str_of
                        (dict_get investigation (str "ai_summary")
                           (VStr (str "No summary available")))
                   ++ [LF; LF]
                   ++ str "## Response Actions Taken" ++ [LF]
                   ++ concat (map (Agent.report_action_line str_of)
                                response_actions)
                   ++ recommendations_section))].
Proof.
  exists (str "# Incident Response Report" ++ [LF; LF]
            ++ str "## Incident Information" ++ [LF]
            ++ str "- **ID**: "
            ++ py_format str_of (dict_get incident (str "id") VNone) ++ [LF]
            ++ str "- **Title**: "
            ++ py_format str_of (dict_get incident (str "title") VNone)
            ++ [LF]
            ++ str "- **Severity**: "
            ++ py_format str_of (dict_get incident (str "severity") VNone)
            ++ [LF]
            ++ str "- **Source**: "
            ++ py_format str_of (dict_get incident (str "source") VNone)
            ++ [LF]
            ++ str "- **Timestamp**: "
            ++ py_format str_of (dict_get incident (str "timestamp") VNone)
            ++ [LF; LF]).
  intros investigation response_actions f1 f2 f3.
  unfold Agent.generate_incident_report.
  rewrite fold_left_append.
  unfold recommendations_section.
  repeat rewrite <- app_assoc. reflexivity.
Qed.

(** X8.  In a report made of the results of [execute_response_actions],
    the line of an action carries the mark [U+2713] when the action was
    approved, that is when its [can_automate] is there and true or
    automatic approval is on, and the mark [U+2717] otherwise, followed by
    the action's description and the message of the result. *)
Theorem executed_actions_report_lines (str_of : pyval -> pystr)
    (actions : list dict) (auto_approve_safe_actions : bool)
    (results : list dict) :
  Agent.execute_response_actions actions auto_approve_safe_actions
  = Ok results ->
  Forall2
    (fun action result =>
       exists description,
         has_field action "description" description /\
         Agent.report_action_line str_of result
         = str "- "
             ++ (if automatable action || auto_approve_safe_actions
                 then [10003%N] else [10007%N])
             ++ str " " ++ py_format str_of description ++ str ": "
             ++ (if automatable action || auto_approve_safe_actions
                 then str "Action completed successfully (simulated)"
                 else str "Action requires manual approval")
             ++ [LF])
    actions results.
Proof.
  intros H. apply execute_response_actions_inv in H.
  eapply Forall2_impl; [|exact H].
  intros action result Hr.
  destruct (report_action_line_result str_of Hr) as (description & Hd & E).
  exists description. split; [exact Hd|]. rewrite E.
  destruct (automatable action || auto_approve_safe_actions); reflexivity.
Qed.

Lemma executed_actions_report_lines_witness :
  Agent.execute_response_actions scenario_actions false
  = Ok scenario_results /\
  Forall2
    (fun action result =>
       exists description,
         has_field action "description" description /\
         Agent.report_action_line plain_rendering result
         = str "- "
             ++ (if automatable action || false
                 then [10003%N] else [10007%N])
             ++ str " " ++ py_format plain_rendering description ++ str ": "
             ++ (if automatable action || false
                 then str "Action completed successfully (simulated)"
                 else str "Action requires manual approval")
             ++ [LF])
    scenario_actions scenario_results.
Proof.
  assert (H : Agent.execute_response_actions scenario_actions false
              = Ok scenario_results) by reflexivity.
  exact (conj H (@executed_actions_report_lines plain_rendering
                   scenario_actions false scenario_results H)).
Defined.

(** * The shape of a hunt result *)

Section HuntShape.

Variable anthropic : model.

Lemma strip_sub (s : pystr) (c : char) : In c (Str.strip s) -> In c s.
Proof.
  intros H. destruct (strip_spec s) as (ws1 & ws2 & _ & _ & E & _).
  rewrite E. apply in_or_app. right. apply in_or_app. left. exact H.
Qed.

Lemma lstrip_sub (chars s : pystr) (c : char) :
  In c (Str.lstrip chars s) -> In c s.
Proof.
  intros H. unfold Str.lstrip in H.
  destruct (lstrip_by_split (fun c => existsb (N.eqb c) chars) s)
    as (ds & _ & E).
  rewrite E. apply in_or_app. right. exact H.
Qed.

Lemma strip_trimmed (s : pystr) : trimmed (Str.strip s).
Proof. destruct (strip_spec s) as (ws1 & ws2 & _ & _ & _ & H). exact H. Qed.

Lemma empty_trimmed : trimmed [].
Proof.
  split; intros c r E; [discriminate|].
  destruct r; discriminate.
Qed.

(** The actions the comprehension of [execute_hunt] makes are trimmed and
    of one line each. *)
Lemma action_lines (text : pystr) :
  Forall (fun action => trimmed action /\ single_line action)
    (map (fun line => Str.strip (Str.lstrip (str "-") (Str.strip line)))
       (filter (fun line => Str.startswith (Str.strip line) (str "-"))
          (Str.split LF text))).
Proof.
  destruct (split_spec LF text) as (_ & _ & Hlines).
  induction Hlines as [|line lines Hline _ IH]; simpl; [constructor|].
  destruct (Str.startswith (Str.strip line) (str "-")); [|exact IH].
  simpl. constructor; [|exact IH].
  split; [apply strip_trimmed|].
  intros Hin. apply Hline.
  apply strip_sub, lstrip_sub, strip_sub in Hin. exact Hin.
Qed.

(** What the parsing step makes of the initial results. *)
Lemma parse_shape (text : pystr) :
  exists ai_summary actions,
    Hunting.parse_summary_and_actions (hunt_results [] []) text
    = hunt_results ai_summary actions /\
    trimmed ai_summary /\
    Forall (fun action => trimmed action /\ single_line action) actions.
Proof.
  unfold Hunting.parse_summary_and_actions.
  destruct (Str.contains text (str "SUMMARY:")).
  - destruct (0 <? Str.find text (str "ACTIONS:")).
    + eexists. eexists. split; [|split].
      * unfold hunt_results. cbn [dict_set map].
        rewrite <- map_map with (g := VStr). reflexivity.
      * apply strip_trimmed.
      * apply action_lines.
    + eexists. exists []. split; [|split].
      * reflexivity.
      * apply strip_trimmed.
      * constructor.
  - exists [], []. split; [reflexivity|]. split; [|constructor].
    apply empty_trimmed.
Qed.

(** The parsing step without the first marker. *)
Lemma parse_no_summary_marker (results : dict) (text : pystr) :
  absent (str "SUMMARY:") text ->
  Hunting.parse_summary_and_actions results text = results.
Proof.
  intros H. unfold Hunting.parse_summary_and_actions, Str.contains.
  apply find_absent in H. rewrite H. reflexivity.
Qed.

(** The parsing step when the second marker comes first. *)
Lemma parse_actions_first (text pre post pre' post' : pystr) :
  occurs_first (str "ACTIONS:") text pre post ->
  occurs_first (str "SUMMARY:") text pre' post' ->
  (List.length pre < List.length pre')%nat ->
  Hunting.parse_summary_and_actions (hunt_results [] []) text
  = match pre with
    | [] => hunt_results [] []
    | _ :: _ =>
        hunt_results []
          (map (fun line => Str.strip (Str.lstrip (str "-") (Str.strip line)))
             (filter (fun line => Str.startswith (Str.strip line) (str "-"))
                (Str.split LF post)))
    end.
Proof.
  intros HA HS Hlt. unfold Hunting.parse_summary_and_actions.
  rewrite (contains_first HS), (find_first HS), (find_first HA).
  rewrite slice_empty.
  - change (Str.strip []) with (@nil char).
    destruct pre as [|c pre].
    + reflexivity.
    + replace (0 <? Z.of_nat (List.length (c :: pre))) with true
        by (symmetry; apply Z.ltb_lt; simpl List.length; lia).
      destruct HA as [E _].
      replace (Str.slice_from text (Z.of_nat (List.length (c :: pre)) + 8))
        with post.
      * unfold hunt_results. cbn [dict_set map].
        rewrite <- map_map with (g := VStr). reflexivity.
      * rewrite E at 1.
        replace ((c :: pre) ++ str "ACTIONS:" ++ post)
          with (((c :: pre) ++ str "ACTIONS:") ++ post)
          by (rewrite <- app_assoc; reflexivity).
        replace (Z.of_nat (List.length (c :: pre)) + 8)
          with (Z.of_nat (List.length ((c :: pre) ++ str "ACTIONS:")))
          by (rewrite length_app; simpl List.length; lia).
        symmetry. apply slice_from_app.
  - destruct HS as [E _]. rewrite E at 1 2.
    rewrite !length_app. cbn [List.length str map list_ascii_of_string].
    unfold Str.bound.
    repeat match goal with
           | |- context [?a <? ?b] => destruct (Z.ltb_spec a b)
           end; lia.
Qed.

End HuntShape.

(** X9.  [execute_hunt] never raises.  Whatever the model does, the
    result has the keys [status], [evidence], [ai_summary] and
    [recommended_actions], in this order; the status is [completed] and
    the evidence is empty; the summary has no white space at either end;
    every recommended action is a string of one line with no white space
    at either end; and when the call to the model raises, the summary is
    the notice of a manual review and there is no action. *)
Theorem execute_hunt_shape (anthropic : model)
    (hypothesis data_sources : dict) :
  exists ai_summary actions,
    Hunting.execute_hunt anthropic hypothesis data_sources
    = Ok (hunt_results ai_summary actions) /\
    trimmed ai_summary /\
    Forall (fun action => trimmed action /\ single_line action) actions /\
    ((exists e, anthropic (hunt_prompt hypothesis) = Raise e) ->
     ai_summary = str "Hunt execution completed. Manual review recommended."
     /\ actions = []).
Proof.
  destruct (anthropic (hunt_prompt hypothesis)) as [text | e] eqn:E.
  - destruct (parse_shape text) as (s & a & Hp & Hs & Ha).
    exists s, a. split; [|split; [exact Hs | split; [exact Ha|]]].
    + rewrite (@execute_hunt_answer anthropic hypothesis data_sources text E).
      rewrite Hp. reflexivity.
    + intros (e & [=]).
  - exists Hunting.manual_review, [].
    split; [|split; [|split; [constructor | auto]]].
    + unfold Hunting.execute_hunt. fold (hunt_prompt hypothesis).
      rewrite E. reflexivity.
    + change Hunting.manual_review with (Str.strip Hunting.manual_review).
      apply strip_trimmed.
Qed.

(** X10.  A completion without [SUMMARY:] leaves the result of
    [execute_hunt] as it was initialised: the summary is empty and there
    is no recommended action, even when the completion holds [ACTIONS:]
    and bullet lines. *)
Theorem execute_hunt_without_summary (anthropic : model)
    (hypothesis data_sources : dict) (text : pystr) :
  anthropic (hunt_prompt hypothesis) = Ok text ->
  absent (str "SUMMARY:") text ->
  Hunting.execute_hunt anthropic hypothesis data_sources
  = Ok (hunt_results [] []).
Proof.
  intros Hcall HS.
  rewrite (@execute_hunt_answer anthropic hypothesis data_sources text
             Hcall).
  rewrite (parse_no_summary_marker _ HS). reflexivity.
Qed.

Lemma execute_hunt_without_summary_witness :
  answering actions_only_completion (hunt_prompt [])
  = Ok actions_only_completion /\
  absent (str "SUMMARY:") actions_only_completion /\
  Hunting.execute_hunt (answering actions_only_completion) [] []
  = Ok (hunt_results [] []).
Proof.
  assert (H1 : answering actions_only_completion (hunt_prompt [])
               = Ok actions_only_completion) by reflexivity.
  assert (H2 : absent (str "SUMMARY:") actions_only_completion)
    by (apply find_absent; reflexivity).
  exact (conj H1 (conj H2
           (@execute_hunt_without_summary
              (answering actions_only_completion) [] []
              actions_only_completion H1 H2))).
Defined.

(** X11.  When the first [ACTIONS:] of the completion comes before its
    first [SUMMARY:], the summary of the result is empty.  The actions are
    then made of all the lines after [ACTIONS:], those of the summary
    included, unless the completion begins with [ACTIONS:], in which case
    there is no action at all. *)
Theorem execute_hunt_actions_first (anthropic : model)
    (hypothesis data_sources : dict) (text pre post pre' post' : pystr) :
  anthropic (hunt_prompt hypothesis) = Ok text ->
  occurs_first (str "ACTIONS:") text pre post ->
  occurs_first (str "SUMMARY:") text pre' post' ->
  (List.length pre < List.length pre')%nat ->
  exists actions,
    Hunting.execute_hunt anthropic hypothesis data_sources
    = Ok (hunt_results [] actions) /\
    (pre = [] -> actions = []) /\
    (pre <> [] -> actions_of (Str.split LF post) actions).
Proof.
  intros Hcall HA HS Hlt.
  rewrite (@execute_hunt_answer anthropic hypothesis data_sources text
             Hcall).
  rewrite (parse_actions_first HA HS Hlt).
  destruct pre as [|c pre].
  - exists []. split; [reflexivity|]. split; [reflexivity|].
    intros H. destruct (H eq_refl).
  - eexists. split; [reflexivity|]. split; [discriminate|].
    intros _. apply actions_of_lines.
Qed.

Lemma execute_hunt_actions_first_witness :
  answering actions_first_completion (hunt_prompt [])
  = Ok actions_first_completion /\
  occurs_first (str "ACTIONS:") actions_first_completion (str "Plan. ")
    ([LF] ++ str "- Isolate host" ++ [LF] ++ str "SUMMARY: done") /\
  occurs_first (str "SUMMARY:") actions_first_completion
    (str "Plan. ACTIONS:" ++ [LF] ++ str "- Isolate host" ++ [LF])
    (str " done") /\
  (List.length (str "Plan. ")
   < List.length (str "Plan. ACTIONS:" ++ [LF] ++ str "- Isolate host"
                    ++ [LF]))%nat /\
  exists actions,
    Hunting.execute_hunt (answering actions_first_completion) [] []
    = Ok (hunt_results [] actions) /\
    (str "Plan. " = [] -> actions = []) /\
    (str "Plan. " <> [] ->
     actions_of
       (Str.split LF
          ([LF] ++ str "- Isolate host" ++ [LF] ++ str "SUMMARY: done"))
       actions).
Proof.
  assert (H1 : answering actions_first_completion (hunt_prompt [])
               = Ok actions_first_completion) by reflexivity.
  assert (H2 : occurs_first (str "ACTIONS:") actions_first_completion
                 (str "Plan. ")
                 ([LF] ++ str "- Isolate host" ++ [LF]
                    ++ str "SUMMARY: done"))
    by (apply occurs_first_by_find; reflexivity).
  assert (H3 : occurs_first (str "SUMMARY:") actions_first_completion
                 (str "Plan. ACTIONS:" ++ [LF] ++ str "- Isolate host"
                    ++ [LF])
                 (str " done"))
    by (apply occurs_first_by_find; reflexivity).
  assert (H4 : (List.length (str "Plan. ")
                < List.length (str "Plan. ACTIONS:" ++ [LF]
                                 ++ str "- Isolate host" ++ [LF]))%nat)
    by (vm_compute; lia).
  exact (conj H1 (conj H2 (conj H3 (conj H4
           (@execute_hunt_actions_first
              (answering actions_first_completion) [] []
              actions_first_completion _ _ _ _ H1 H2 H3 H4))))).
Defined.

(** * Events ([aggregate_data]) *)

Section Events.

(** What a loop of [aggregate_data] makes of one record. *)
Lemma event_of_cases (timestamp_key source event_type : string)
    (record : pyval) :
  (exists event,
      Hunting.event_of timestamp_key source event_type record = Ok event /\
      event_from source event_type timestamp_key record event) \/
  (~ is_dict record /\
   Hunting.event_of timestamp_key source event_type record
   = Raise AttributeError).
Proof.
  unfold Hunting.event_of, event_from, is_dict.
  destruct record as [| | | | | |d]; simpl;
    try (right; split; [intros (d & [=]) | reflexivity]).
  left. eexists. split; [reflexivity|]. exists d. split; reflexivity.
Qed.

Lemma event_of_inv (timestamp_key source event_type : string)
    (record : pyval) (event : dict) :
  Hunting.event_of timestamp_key source event_type record = Ok event ->
  event_from source event_type timestamp_key record event.
Proof.
  intros H.
  destruct (event_of_cases timestamp_key source event_type record)
    as [(event' & E & Hfrom) | [_ E]]; rewrite E in H.
  - injection H as <-. exact Hfrom.
  - discriminate.
Qed.

Lemma events_loop_total (timestamp_key source event_type : string)
    (rs : list pyval) :
  Forall is_dict rs ->
  exists events,
    for_each (Hunting.event_of timestamp_key source event_type) rs
    = Ok events /\
    List.length events = List.length rs.
Proof.
  induction 1 as [|r rs (d & ->) _ (events & IH & Hlen)]; simpl.
  - exists []. auto.
  - rewrite IH. simpl. eexists. split; [reflexivity|].
    simpl. rewrite Hlen. reflexivity.
Qed.

Lemma events_loop_raise (timestamp_key source event_type : string)
    (rs : list pyval) :
  Exists (fun r => ~ is_dict r) rs ->
  for_each (Hunting.event_of timestamp_key source event_type) rs
  = Raise AttributeError.
Proof.
  intros H. apply for_each_raise.
  - intros r.
    destruct (event_of_cases timestamp_key source event_type r)
      as [(event & E & _) | [_ E]]; [left; eauto | right; exact E].
  - eapply Exists_impl; [|exact H].
    intros r Hr.
    destruct (event_of_cases timestamp_key source event_type r)
      as [(event & _ & (d & -> & _)) | [_ E]]; [|exact E].
    destruct Hr. exists d. reflexivity.
Qed.

Lemma is_dict_dec (r : pyval) : is_dict r \/ ~ is_dict r.
Proof.
  destruct r; try (right; intros (d & [=])). left. eexists. reflexivity.
Qed.

Lemma Forall_or_Exists (rs : list pyval) :
  Forall is_dict rs \/ Exists (fun r => ~ is_dict r) rs.
Proof.
  induction rs as [|r rs [IH | IH]].
  - left. constructor.
  - destruct (is_dict_dec r) as [Hr | Hr].
    + left. constructor; assumption.
    + right. left. exact Hr.
  - right. right. exact IH.
Qed.

End Events.

(** X12.  The events of a completed [aggregate_data] are those made of
    the detections, then those made of the sign-ins, then those made of
    the alerts, one event per record and in the order of the records.  The
    event of a record carries the record itself as [data], the source
    [CrowdStrike] or [Microsoft], its type, and as time stamp the record's
    [first_behavior] (detections) or [created_datetime] (sign-ins and
    alerts), [None] when missing.  The Proofpoint data have no bearing on
    the events. *)
Theorem aggregate_data_events (cs_data ms_data pp_data : dict)
    (events : list dict) :
  Hunting.aggregate_data cs_data ms_data pp_data = Ok events ->
  (exists detections sign_ins alerts from_detections from_sign_ins
          from_alerts,
      records cs_data "detections" = Ok detections /\
      records ms_data "sign_ins" = Ok sign_ins /\
      records ms_data "alerts" = Ok alerts /\
      events = from_detections ++ from_sign_ins ++ from_alerts /\
      Forall2 (event_from "CrowdStrike" "detection" "first_behavior")
        detections from_detections /\
      Forall2 (event_from "Microsoft" "sign_in" "created_datetime")
        sign_ins from_sign_ins /\
      Forall2 (event_from "Microsoft" "alert" "created_datetime")
        alerts from_alerts) /\
  (forall other_pp_data,
      Hunting.aggregate_data cs_data ms_data other_pp_data = Ok events).
Proof.
  intros H. split; [|intros other; exact H].
  unfold Hunting.aggregate_data in H.
  apply bind_ok in H as (ds & Hds & H).
  apply bind_ok in H as (e1 & He1 & H).
  apply bind_ok in H as (ss & Hss & H).
  apply bind_ok in H as (e2 & He2 & H).
  apply bind_ok in H as (als & Hals & H).
  apply bind_ok in H as (e3 & He3 & H).
  injection H as <-.
  exists ds, ss, als, e1, e2, e3.
  split; [exact Hds|]. split; [exact Hss|]. split; [exact Hals|].
  split; [reflexivity|].
  split; [|split];
    (eapply for_each_made; [|eassumption]); apply event_of_inv.
Qed.

Lemma aggregate_data_events_witness :
  Hunting.aggregate_data scenario_cs_data scenario_ms_data scenario_pp_data
  = Ok scenario_events /\
  (exists detections sign_ins alerts from_detections from_sign_ins
          from_alerts,
      records scenario_cs_data "detections" = Ok detections /\
      records scenario_ms_data "sign_ins" = Ok sign_ins /\
      records scenario_ms_data "alerts" = Ok alerts /\
      scenario_events = from_detections ++ from_sign_ins ++ from_alerts /\
      Forall2 (event_from "CrowdStrike" "detection" "first_behavior")
        detections from_detections /\
      Forall2 (event_from "Microsoft" "sign_in" "created_datetime")
        sign_ins from_sign_ins /\
      Forall2 (event_from "Microsoft" "alert" "created_datetime")
        alerts from_alerts) /\
  (forall other_pp_data,
      Hunting.aggregate_data scenario_cs_data scenario_ms_data other_pp_data
      = Ok scenario_events).
Proof.
  assert (H : Hunting.aggregate_data scenario_cs_data scenario_ms_data
                scenario_pp_data = Ok scenario_events) by reflexivity.
  exact (conj H (@aggregate_data_events scenario_cs_data scenario_ms_data
                   scenario_pp_data scenario_events H)).
Defined.

(** X13.  Once the three lists of records are there, [aggregate_data]
    returns when every record is a dictionary, with as many events as
    there are records, and raises [AttributeError] when a record is
    anything else. *)
Theorem aggregate_data_records (cs_data ms_data pp_data : dict)
    (detections sign_ins alerts : list pyval) :
  records cs_data "detections" = Ok detections ->
  records ms_data "sign_ins" = Ok sign_ins ->
  records ms_data "alerts" = Ok alerts ->
  (Forall is_dict (detections ++ sign_ins ++ alerts) ->
   exists events,
     Hunting.aggregate_data cs_data ms_data pp_data = Ok events /\
     List.length events
     = List.length (detections ++ sign_ins ++ alerts)) /\
  (Exists (fun r => ~ is_dict r) (detections ++ sign_ins ++ alerts) ->
   Hunting.aggregate_data cs_data ms_data pp_data = Raise AttributeError).
Proof.
  unfold records. intros Hds Hss Hals.
  unfold Hunting.aggregate_data. rewrite Hds, Hss, Hals. simpl.
  split.
  - intros H. apply Forall_app in H as [H1 H]. apply Forall_app in H as [H2 H3].
    destruct (events_loop_total "first_behavior" "CrowdStrike" "detection"
                H1) as (e1 & -> & L1).
    destruct (events_loop_total "created_datetime" "Microsoft" "sign_in"
                H2) as (e2 & -> & L2).
    destruct (events_loop_total "created_datetime" "Microsoft" "alert"
                H3) as (e3 & -> & L3).
    simpl. eexists. split; [reflexivity|].
    rewrite !length_app. lia.
  - intros H.
    destruct (Forall_or_Exists detections) as [H1 | H1].
    + destruct (events_loop_total "first_behavior" "CrowdStrike" "detection"
                  H1) as (e1 & -> & _). simpl.
      destruct (Forall_or_Exists sign_ins) as [H2 | H2].
      * destruct (events_loop_total "created_datetime" "Microsoft"
                    "sign_in" H2) as (e2 & -> & _). simpl.
        rewrite events_loop_raise; [reflexivity|].
        apply Exists_app in H as [H | H].
        -- exfalso. apply Exists_exists in H as (r & Hr & Hn).
           rewrite Forall_forall in H1. exact (Hn (H1 r Hr)).
        -- apply Exists_app in H as [H | H]; [|exact H].
           exfalso. apply Exists_exists in H as (r & Hr & Hn).
           rewrite Forall_forall in H2. exact (Hn (H2 r Hr)).
      * rewrite events_loop_raise by exact H2. reflexivity.
    + rewrite events_loop_raise by exact H1. reflexivity.
Qed.

Lemma aggregate_data_records_witness :
  records scenario_cs_data "detections" = Ok scenario_detection_records /\
  records scenario_ms_data "sign_ins" = Ok scenario_sign_in_records /\
  records scenario_ms_data "alerts" = Ok scenario_alert_records /\
  (Forall is_dict
     (scenario_detection_records ++ scenario_sign_in_records
        ++ scenario_alert_records) ->
   exists events,
     Hunting.aggregate_data scenario_cs_data scenario_ms_data
       scenario_pp_data = Ok events /\
     List.length events
     = List.length
         (scenario_detection_records ++ scenario_sign_in_records
            ++ scenario_alert_records)) /\
  (Exists (fun r => ~ is_dict r)
     (scenario_detection_records ++ scenario_sign_in_records
        ++ scenario_alert_records) ->
   Hunting.aggregate_data scenario_cs_data scenario_ms_data scenario_pp_data
   = Raise AttributeError).
Proof.
  exact (conj eq_refl (conj eq_refl (conj eq_refl
           (@aggregate_data_records scenario_cs_data scenario_ms_data
              scenario_pp_data scenario_detection_records
              scenario_sign_in_records scenario_alert_records
              eq_refl eq_refl eq_refl)))).
Defined.

(** * Collection of the vendor data *)

(** X14.  The data [collect_crowdstrike_data] returns have the keys
    [detections], [hosts] and [network_events], in this order.  The hosts
    and the network events are empty and the flags [include_host_activity]
    and [include_network_activity] have no effect.  The detections are
    empty when they are not asked for; otherwise they are what the
    client's answer holds under [detections], and the empty list when the
    answer has no such key. *)
Theorem collect_crowdstrike_data_shape (crowdstrike : CrowdStrikeClient)
    (start_time : pystr)
    (include_detections include_host_activity include_network_activity : bool)
    (data : dict) :
  Hunting.collect_crowdstrike_data crowdstrike start_time include_detections
    include_host_activity include_network_activity = Ok data ->
  (exists detections,
      data = crowdstrike_data detections /\
      (include_detections = false -> detections = VList []) /\
      (include_detections = true ->
       exists answer,
         detections_since crowdstrike start_time = Ok answer /\
         detections = dict_get answer (str "detections") (VList []))) /\
  (forall hosts network,
      Hunting.collect_crowdstrike_data crowdstrike start_time
        include_detections hosts network = Ok data).
Proof.
  unfold Hunting.collect_crowdstrike_data, detections_since.
  intros H. split; [|intros hosts network; exact H].
  destruct include_detections.
  - apply bind_ok in H as (answer & Ha & H). injection H as <-.
    eexists. split; [reflexivity|]. split; [discriminate|].
    intros _. exists answer. split; [exact Ha | reflexivity].
  - injection H as <-. eexists. split; [reflexivity|].
    split; [reflexivity | discriminate].
Qed.

Lemma collect_crowdstrike_data_shape_witness :
  Hunting.collect_crowdstrike_data scenario_crowdstrike
    (str "2024-05-01T00:00:00Z") true false false = Ok scenario_cs_data /\
  (exists detections,
      scenario_cs_data = crowdstrike_data detections /\
      (true = false -> detections = VList []) /\
      (true = true ->
       exists answer,
         detections_since scenario_crowdstrike (str "2024-05-01T00:00:00Z")
         = Ok answer /\
         detections = dict_get answer (str "detections") (VList []))) /\
  (forall hosts network,
      Hunting.collect_crowdstrike_data scenario_crowdstrike
        (str "2024-05-01T00:00:00Z") true hosts network
      = Ok scenario_cs_data).
Proof.
  assert (H : Hunting.collect_crowdstrike_data scenario_crowdstrike
                (str "2024-05-01T00:00:00Z") true false false
              = Ok scenario_cs_data) by reflexivity.
  exact (conj H (@collect_crowdstrike_data_shape scenario_crowdstrike
                   (str "2024-05-01T00:00:00Z") true false false
                   scenario_cs_data H)).
Defined.

(** X15.  [collect_crowdstrike_data] does not tell a failed request from
    an empty one: when the client answers with a dictionary that has no
    [detections], such as its error marker, the data are those of a
    collection with the detections switched off.  An exception of the
    client is not caught. *)
Theorem collect_crowdstrike_data_failures (crowdstrike : CrowdStrikeClient)
    (start_time : pystr)
    (include_host_activity include_network_activity : bool) :
  (forall answer,
      detections_since crowdstrike start_time = Ok answer ->
      lacks_field answer "detections" ->
      Hunting.collect_crowdstrike_data crowdstrike start_time true
        include_host_activity include_network_activity
      = Ok (crowdstrike_data (VList [])) /\
      Hunting.collect_crowdstrike_data crowdstrike start_time true
        include_host_activity include_network_activity
      = Hunting.collect_crowdstrike_data crowdstrike start_time false
          include_host_activity include_network_activity) /\
  (forall e,
      detections_since crowdstrike start_time = Raise e ->
      Hunting.collect_crowdstrike_data crowdstrike start_time true
        include_host_activity include_network_activity = Raise e).
Proof.
  unfold Hunting.collect_crowdstrike_data, detections_since. split.
  - intros answer Ha Hl. rewrite Ha. simpl.
    unfold dict_get. unfold lacks_field in Hl. rewrite Hl.
    split; reflexivity.
  - intros e He. rewrite He. reflexivity.
Qed.

(** X16.  The data [collect_microsoft_data] returns have the keys
    [sign_ins], [alerts] and [risky_users], in this order, and a part that
    is not asked for is empty. *)
Theorem collect_microsoft_data_shape (microsoft : MicrosoftSecurityClient)
    (start_time : pystr)
    (include_sign_ins include_alerts include_risky_users : bool)
    (data : dict) :
  Hunting.collect_microsoft_data microsoft start_time include_sign_ins
    include_alerts include_risky_users = Ok data ->
  exists sign_ins alerts risky_users,
    data = microsoft_data sign_ins alerts risky_users /\
    (include_sign_ins = false -> sign_ins = VList []) /\
    (include_alerts = false -> alerts = VList []) /\
    (include_risky_users = false -> risky_users = VList []).
Proof.
  unfold Hunting.collect_microsoft_data. intros H.
  apply bind_ok in H as (d1 & H1 & H).
  apply bind_ok in H as (d2 & H2 & H).
  assert (E1 : exists s,
             d1 = microsoft_data s (VList []) (VList []) /\
             (include_sign_ins = false -> s = VList [])).
  { destruct include_sign_ins.
    - apply bind_ok in H1 as (answer & _ & H1). injection H1 as <-.
      eexists. split; [reflexivity | discriminate].
    - injection H1 as <-. eexists. split; reflexivity. }
  destruct E1 as (s & -> & Hs).
  assert (E2 : exists a,
             d2 = microsoft_data s a (VList []) /\
             (include_alerts = false -> a = VList [])).
  { destruct include_alerts.
    - apply bind_ok in H2 as (answer & _ & H2). injection H2 as <-.
      eexists. split; [reflexivity | discriminate].
    - injection H2 as <-. eexists. split; reflexivity. }
  destruct E2 as (a & -> & Ha).
  destruct include_risky_users.
  - apply bind_ok in H as (answer & _ & H). injection H as <-.
    do 3 eexists. split; [reflexivity|].
    split; [exact Hs|]. split; [exact Ha | discriminate].
  - injection H as <-. exists s, a, (VList []).
    split; [reflexivity|]. split; [exact Hs|]. split; [exact Ha|].
    reflexivity.
Qed.

Lemma collect_microsoft_data_shape_witness :
  Hunting.collect_microsoft_data Microsoft.client
    (str "2024-05-01T00:00:00Z") true false true
  = Ok (microsoft_data (VList []) (VList []) (VList [])) /\
  exists sign_ins alerts risky_users,
    microsoft_data (VList []) (VList []) (VList [])
    = microsoft_data sign_ins alerts risky_users /\
    (true = false -> sign_ins = VList []) /\
    (false = false -> alerts = VList []) /\
    (true = false -> risky_users = VList []).
Proof.
  assert (H : Hunting.collect_microsoft_data Microsoft.client
                (str "2024-05-01T00:00:00Z") true false true
              = Ok (microsoft_data (VList []) (VList []) (VList [])))
    by reflexivity.
  exact (conj H (@collect_microsoft_data_shape Microsoft.client
                   (str "2024-05-01T00:00:00Z") true false true _ H)).
Defined.

(** X17.  With the Microsoft and Proofpoint clients of the library, which
    answer every request with empty lists, [collect_microsoft_data] and
    [collect_proofpoint_data] return empty data whatever the period and
    the flags, and every event that [aggregate_data] then makes is a
    CrowdStrike detection. *)
Theorem library_clients_events (start_time interval : pystr)
    (include_sign_ins include_alerts include_risky_users : bool) :
  exists ms_data pp_data,
    Hunting.collect_microsoft_data Microsoft.client start_time
      include_sign_ins include_alerts include_risky_users = Ok ms_data /\
    ms_data = microsoft_data (VList []) (VList []) (VList []) /\
    Hunting.collect_proofpoint_data Proofpoint.client interval = Ok pp_data /\
    pp_data = [(str "total_events", VInt 0);
               (str "top_clickers", VList []);
               (str "vap_users", VList [])] /\
    forall cs_data events,
      Hunting.aggregate_data cs_data ms_data pp_data = Ok events ->
      exists detections,
        records cs_data "detections" = Ok detections /\
        Forall2 (event_from "CrowdStrike" "detection" "first_behavior")
          detections events.
Proof.
  exists (microsoft_data (VList []) (VList []) (VList [])),
         [(str "total_events", VInt 0);
          (str "top_clickers", VList []);
          (str "vap_users", VList [])].
  split; [destruct include_sign_ins, include_alerts, include_risky_users;
          reflexivity|].
  split; [reflexivity|].
  split; [reflexivity|].
  split; [reflexivity|].
  intros cs_data events H.
  unfold Hunting.aggregate_data in H.
  apply bind_ok in H as (ds & Hds & H).
  apply bind_ok in H as (e1 & He1 & H).
  simpl in H. injection H as <-.
  exists ds. split; [exact Hds|].
  rewrite app_nil_r.
  eapply for_each_made; [|exact He1]. apply event_of_inv.
Qed.

(** * The hunting report *)

Section HuntingReport.

Variable str_of : pyval -> pystr.

(** The bullet of a recommended action. *)
Let bullet (action : pyval) : pystr :=
  str "- " ++ py_format str_of action ++ [LF].

(** A tactic without techniques adds nothing to the report. *)
Lemma tactic_section_none (tactic : pystr) (techniques : pyval) :
  py_truthy techniques = false ->
  Hunting.tactic_section str_of tactic techniques = Ok [].
Proof. intros H. unfold Hunting.tactic_section. rewrite H. reflexivity. Qed.

Lemma tactic_section_total (tactic : pystr) (techniques : pyval) :
  techniques_ok techniques ->
  exists text, Hunting.tactic_section str_of tactic techniques = Ok text.
Proof.
  intros [H | (ts & ->)].
  - rewrite (tactic_section_none tactic _ H). eauto.
  - unfold Hunting.tactic_section.
    destruct (py_truthy (VList (map VDict ts))); [|eauto].
    simpl.
    match goal with
    | |- context [for_each ?f ?l] =>
        destruct (@for_each_total _ _ f l) as (lines & ->)
    end.
    + apply Forall_forall. intros r Hr.
      apply in_map_iff in Hr as (d & <- & _). simpl. eauto.
    + simpl. eauto.
Qed.

(** A completed report, step by step. *)
Lemma generate_hunting_report_inv (hunt_period : pystr) (anomalies : nat)
    (network_analysis : dict) (hypotheses : list dict)
    (hunt_results mitre_mapping report : dict) :
  Hunting.generate_hunting_report str_of hunt_period anomalies
    network_analysis hypotheses hunt_results mitre_mapping = Ok report ->
  exists intro sections actions,
    for_each
      (fun entry => Hunting.tactic_section str_of (fst entry) (snd entry))
      mitre_mapping = Ok sections /\
    records hunt_results "recommended_actions" = Ok actions /\
    report
    = [(str "content",
         VStr (intro ++ coverage_heading ++ concat sections
                 ++ recommendations_heading
                 ++ concat (map bullet actions)))].
Proof.
  unfold Hunting.generate_hunting_report, records.
  destruct (py_len (dict_get network_analysis (str "beaconing") (VList [])))
    as [beaconing | e]; cbn [bind]; [|discriminate].
  destruct (py_len (dict_get network_analysis (str "lateral_movement")
                      (VList [])))
    as [lateral | e]; cbn [bind]; [|discriminate].
  destruct (for_each
              (fun entry =>
                 Hunting.tactic_section str_of (fst entry) (snd entry))
              mitre_mapping)
    as [sections | e] eqn:Hs; cbn [bind]; [|discriminate].
  destruct (py_iter (dict_get hunt_results (str "recommended_actions")
                       (VList [])))
    as [actions | e] eqn:Ha; cbn [bind]; [|discriminate].
  intros H. apply Ok_inj in H. subst report.
  exists (str "# Threat Hunting Report" ++ [LF; LF]
            ++ str "## Hunting Period" ++ [LF]
            ++ hunt_period ++ [LF; LF]
            ++ str "## Executive Summary" ++ [LF]
            ++ str "This report summarizes proactive threat hunting activities and findings."
            ++ [LF; LF]
            ++ str "### Key Findings" ++ [LF]
            ++ str "- Anomalous users detected: "
            ++ py_format str_of (VInt (Z.of_nat anomalies)) ++ [LF]
            ++ str "- Beaconing patterns detected: "
            ++ py_format str_of (VInt beaconing) ++ [LF]
            ++ str "- Lateral movement detected: "
            ++ py_format str_of (VInt lateral) ++ [LF]
            ++ str "- Hypotheses investigated: "
            ++ py_format str_of (VInt (Z.of_nat (List.length hypotheses)))
            ++ [LF; LF]
            ++ str "## Detailed Analysis" ++ [LF]
            ++ py_format str_of
                 (dict_get hunt_results (str "ai_summary")
                    (VStr (str "See individual sections for details")))
            ++ [LF; LF]),
         sections, actions.
  split; [reflexivity|]. split; [reflexivity|].
  rewrite fold_left_append.
  unfold coverage_heading, recommendations_heading, bullet.
  repeat rewrite <- app_assoc. reflexivity.
Qed.

End HuntingReport.

(** X18.  A hunting report made with the mapping of
    [map_to_mitre_attack] lists no tactic: in its content the heading of
    the coverage section is followed at once by the heading of the
    recommendations, and after it come the recommended actions of the hunt
    results, one bullet each, in order. *)
Theorem hunting_report_without_tactics (str_of : pyval -> pystr)
    (hunt_period : pystr) (anomalies : nat) (network_analysis : dict)
    (hypotheses : list dict) (hunt_results findings report : dict) :
  Hunting.generate_hunting_report str_of hunt_period anomalies
    network_analysis hypotheses hunt_results
    (Hunting.map_to_mitre_attack findings) = Ok report ->
  exists intro actions,
    records hunt_results "recommended_actions" = Ok actions /\
    report
    = [(str "content",
         VStr (intro ++ coverage_heading ++ recommendations_heading
                 ++ concat
                      (map (fun action =>
                              str "- " ++ py_format str_of action ++ [LF])
                         actions)))].
Proof.
  intros H.
  apply generate_hunting_report_inv in H
    as (intro & sections & actions & Hs & Ha & ->).
  injection Hs as <-.
  exists intro, actions. split; [exact Ha | reflexivity].
Qed.

Lemma hunting_report_without_tactics_witness :
  exists report,
    Hunting.generate_hunting_report plain_rendering (str "Last 7 days") 2
      [] [] scenario_hunt_results (Hunting.map_to_mitre_attack [])
    = Ok report /\
    exists intro actions,
      records scenario_hunt_results "recommended_actions" = Ok actions /\
      report
      = [(str "content",
           VStr (intro ++ coverage_heading ++ recommendations_heading
                   ++ concat
                        (map (fun action =>
                                str "- " ++ py_format plain_rendering action
                                  ++ [LF])
                           actions)))].
Proof.
  eexists. split; [reflexivity|].
  apply (@hunting_report_without_tactics plain_rendering (str "Last 7 days")
           2 [] [] scenario_hunt_results []).
  reflexivity.
Defined.

(** X19.  [generate_hunting_report] returns when the beaconing and the
    lateral-movement findings can be counted, the techniques of every
    tactic are records or nothing at all, and the recommended actions can
    be listed; a key that is missing counts as an empty list.  It raises
    [TypeError] when the beaconing or the lateral-movement findings cannot
    be counted. *)
Theorem generate_hunting_report_total (str_of : pyval -> pystr)
    (hunt_period : pystr) (anomalies : nat) (network_analysis : dict)
    (hypotheses : list dict) (hunt_results mitre_mapping : dict) :
  (sized (dict_get network_analysis (str "beaconing") (VList [])) ->
   sized (dict_get network_analysis (str "lateral_movement") (VList [])) ->
   Forall (fun entry => techniques_ok (snd entry)) mitre_mapping ->
   iterable (dict_get hunt_results (str "recommended_actions") (VList [])) ->
   exists content,
     Hunting.generate_hunting_report str_of hunt_period anomalies
       network_analysis hypotheses hunt_results mitre_mapping
     = Ok [(str "content", VStr content)]) /\
  (~ sized (dict_get network_analysis (str "beaconing") (VList [])) \/
   ~ sized (dict_get network_analysis (str "lateral_movement") (VList [])) ->
   Hunting.generate_hunting_report str_of hunt_period anomalies
     network_analysis hypotheses hunt_results mitre_mapping
   = Raise TypeError).
Proof.
  assert (Hlen : forall v,
             (sized v /\ exists n, py_len v = Ok n) \/
             (~ sized v /\ py_len v = Raise TypeError)).
  { intros v. destruct v; simpl; try (right; split; [tauto | reflexivity]);
      left; split; eauto. }
  unfold Hunting.generate_hunting_report. split.
  - intros Hb Hl Hm (actions & Ha).
    destruct (Hlen (dict_get network_analysis (str "beaconing") (VList [])))
      as [(_ & n1 & ->) | (Hn & _)]; [|destruct (Hn Hb)].
    destruct (Hlen (dict_get network_analysis (str "lateral_movement")
                      (VList [])))
      as [(_ & n2 & ->) | (Hn & _)]; [|destruct (Hn Hl)].
    simpl.
    match goal with
    | |- context [for_each ?f mitre_mapping] =>
        destruct (@for_each_total _ _ f mitre_mapping) as (sections & ->)
    end.
    + eapply Forall_impl; [|exact Hm].
      intros entry He. apply tactic_section_total. exact He.
    + simpl. rewrite Ha. simpl. eauto.
  - intros [Hn | Hn].
    + destruct (Hlen (dict_get network_analysis (str "beaconing")
                        (VList []))) as [(Hs & _) | (_ & ->)];
        [destruct (Hn Hs) | reflexivity].
    + destruct (Hlen (dict_get network_analysis (str "beaconing")
                        (VList []))) as [(_ & n1 & ->) | (_ & ->)];
        [|reflexivity].
      destruct (Hlen (dict_get network_analysis (str "lateral_movement")
                        (VList []))) as [(Hs & _) | (_ & ->)];
        [destruct (Hn Hs) | reflexivity].
Qed.

(** * The CrowdStrike client *)

Section ClientAnswers.

Variable str_of_exn : exn -> pystr.

Lemma get_detections_cases (detects : Falcon.Detects)
    (start_time severity : option pystr) (limit : Z) :
  exists answer,
    CrowdStrike.get_detections detects str_of_exn start_time severity limit
    = Ok answer /\
    client_answer "detections" answer.
Proof.
  unfold CrowdStrike.get_detections, try_except, client_answer.
  destruct (Falcon.query_detects _ _ _ _) as [response | e]; simpl;
    [|eexists; split; [reflexivity | left; eexists; reflexivity]].
  destruct (py_getitem response (str "status_code")) as [status | e]; simpl;
    [|eexists; split; [reflexivity | left; eexists; reflexivity]].
  destruct (py_eq_int status 200); simpl.
  - destruct (py_getitem response (str "body")) as [body | e]; simpl;
      [|eexists; split; [reflexivity | left; eexists; reflexivity]].
    destruct (py_getitem body (str "resources")) as [ids | e]; simpl;
      [|eexists; split; [reflexivity | left; eexists; reflexivity]].
    destruct (py_truthy ids); simpl.
    + destruct (Falcon.get_detect_summaries detects ids) as [details | e];
        simpl;
        [|eexists; split; [reflexivity | left; eexists; reflexivity]].
      destruct (py_getitem details (str "body")) as [body' | e]; simpl;
        [|eexists; split; [reflexivity | left; eexists; reflexivity]].
      destruct (py_getitem body' (str "resources")) as [resources | e];
        simpl;
        [|eexists; split; [reflexivity | left; eexists; reflexivity]].
      destruct (py_len resources) as [count | e] eqn:L; simpl;
        [|eexists; split; [reflexivity | left; eexists; reflexivity]].
      eexists. split; [reflexivity|]. right.
      exists resources, count. split; [reflexivity | exact L].
    + eexists. split; [reflexivity|]. right.
      exists (VList []), 0. split; reflexivity.
  - destruct (py_getitem response (str "body")) as [body | e]; simpl;
      [|eexists; split; [reflexivity | left; eexists; reflexivity]].
    destruct (py_get body (str "errors") _) as [errors | e]; simpl;
      eexists; (split; [reflexivity | left; eexists; reflexivity]).
Qed.

Lemma get_incidents_cases (incidents : Falcon.Incidents)
    (start_time status : option pystr) (limit : Z) :
  exists answer,
    CrowdStrike.get_incidents incidents str_of_exn start_time status limit
    = Ok answer /\
    client_answer "incidents" answer.
Proof.
  unfold CrowdStrike.get_incidents, try_except, client_answer.
  destruct (Falcon.query_incidents _ _ _ _) as [response | e]; simpl;
    [|eexists; split; [reflexivity | left; eexists; reflexivity]].
  destruct (py_getitem response (str "status_code")) as [status_code | e];
    simpl;
    [|eexists; split; [reflexivity | left; eexists; reflexivity]].
  destruct (py_eq_int status_code 200); simpl.
  - destruct (py_getitem response (str "body")) as [body | e]; simpl;
      [|eexists; split; [reflexivity | left; eexists; reflexivity]].
    destruct (py_getitem body (str "resources")) as [ids | e]; simpl;
      [|eexists; split; [reflexivity | left; eexists; reflexivity]].
    destruct (py_truthy ids); simpl.
    + destruct (Falcon.get_incidents incidents ids) as [details | e];
        simpl;
        [|eexists; split; [reflexivity | left; eexists; reflexivity]].
      destruct (py_getitem details (str "body")) as [body' | e]; simpl;
        [|eexists; split; [reflexivity | left; eexists; reflexivity]].
      destruct (py_getitem body' (str "resources")) as [resources | e];
        simpl;
        [|eexists; split; [reflexivity | left; eexists; reflexivity]].
      destruct (py_len resources) as [count | e] eqn:L; simpl;
        [|eexists; split; [reflexivity | left; eexists; reflexivity]].
      eexists. split; [reflexivity|]. right.
      exists resources, count. split; [reflexivity | exact L].
    + eexists. split; [reflexivity|]. right.
      exists (VList []), 0. split; reflexivity.
  - destruct (py_getitem response (str "body")) as [body | e]; simpl;
      [|eexists; split; [reflexivity | left; eexists; reflexivity]].
    destruct (py_get body (str "errors") _) as [errors | e]; simpl;
      eexists; (split; [reflexivity | left; eexists; reflexivity]).
Qed.


Lemma get_detections_down (detects : Falcon.Detects)
    (start_time severity : option pystr) (limit : Z) :
  (forall filter limit sort,
      exists e, Falcon.query_detects detects filter limit sort = Raise e) ->
  exists error,
    CrowdStrike.get_detections detects str_of_exn start_time severity limit
    = Ok (error_marker error).
Proof.
  intros Hdown. unfold CrowdStrike.get_detections, try_except.
  match goal with
  | |- context [Falcon.query_detects detects ?f ?l ?s] =>
      destruct (Hdown f l s) as (e & ->)
  end.
  simpl. eexists. reflexivity.
Qed.

End ClientAnswers.

(** X20.  [get_detections] and [get_incidents] never raise, whatever the
    SDK returns or raises.  Their answer is an error marker, with an
    [error] and the count 0, or it carries the detections (the incidents)
    with their number as count; an answer never has both an [error] and
    items. *)
Theorem client_answers (str_of_exn : exn -> pystr)
    (detects : Falcon.Detects) (incidents : Falcon.Incidents)
    (start_time severity status : option pystr) (limit : Z) :
  (exists answer,
      CrowdStrike.get_detections detects str_of_exn start_time severity
        limit = Ok answer /\
      client_answer "detections" answer) /\
  (exists answer,
      CrowdStrike.get_incidents incidents str_of_exn start_time status
        limit = Ok answer /\
      client_answer "incidents" answer).
Proof.
  split.
  - apply get_detections_cases.
  - apply get_incidents_cases.
Qed.

(** X21.  With the CrowdStrike client of the library,
    [collect_crowdstrike_data] never raises; and when every request to the
    SDK raises, the detections it collects are empty, as if there had been
    none. *)
Theorem collect_crowdstrike_data_client (str_of_exn : exn -> pystr)
    (detects : Falcon.Detects) (start_time : pystr)
    (include_detections include_host_activity include_network_activity
       : bool) :
  exists detections,
    Hunting.collect_crowdstrike_data (CrowdStrike.client detects str_of_exn)
      start_time include_detections include_host_activity
      include_network_activity
    = Ok (crowdstrike_data detections) /\
    ((forall filter limit sort,
         exists e, Falcon.query_detects detects filter limit sort
                   = Raise e) ->
     detections = VList []).
Proof.
  unfold Hunting.collect_crowdstrike_data.
  destruct include_detections.
  - cbn [get_detections CrowdStrike.client].
    destruct (get_detections_cases str_of_exn detects (Some start_time)
                None 100) as (answer & E & _).
    rewrite E. simpl. eexists. split; [reflexivity|].
    intros Hdown.
    destruct (get_detections_down str_of_exn detects (Some start_time)
                None 100 Hdown) as (error & E').
    rewrite E' in E. injection E as <-. reflexivity.
  - eexists. split; [reflexivity|]. reflexivity.
Qed.



(** * Malformed payloads *)

Section MalformedPayloads.

Variable str_of : pyval -> pystr.

(** A loop stops at the first element on which its body raises. *)
Lemma for_each_first_raise {A B} (f : A -> res B) (good : list A) (x : A)
    (rest : list A) (e : exn) :
  Forall (fun a => exists b, f a = Ok b) good ->
  f x = Raise e ->
  for_each f (good ++ x :: rest) = Raise e.
Proof.
  intros Hgood Hx. induction Hgood as [|a good (b & Hb) _ IH]; simpl.
  - rewrite Hx. reflexivity.
  - rewrite Hb, IH. reflexivity.
Qed.

Lemma py_iter_not_iterable (v : pyval) :
  ~ iterable v -> py_iter v = Raise TypeError.
Proof.
  unfold iterable. destruct v; simpl; intros H; try reflexivity;
    destruct H; eauto.
Qed.

End MalformedPayloads.

(** X23.  A malformed detection payload stops [aggregate_incidents],
    whatever the other payloads hold.  A detection whose [behaviors] is an
    empty list raises [IndexError], the default behaviour standing in for
    an absent key only; and [detections] holding something that is not
    iterable, such as [None], raises [TypeError], the default list
    standing in for an absent key only. *)
Theorem aggregate_incidents_malformed_detections (str_of : pyval -> pystr)
    (cs_detections cs_incidents ms_alerts pp_events : dict) :
  (forall good d rest,
      records cs_detections "detections" = Ok (good ++ VDict d :: rest) ->
      Forall detection_ok good ->
      has_field d "behaviors" (VList []) ->
      Agent.aggregate_incidents str_of cs_detections cs_incidents ms_alerts
        pp_events = Raise IndexError) /\
  (forall v,
      has_field cs_detections "detections" v ->
      ~ iterable v ->
      Agent.aggregate_incidents str_of cs_detections cs_incidents ms_alerts
        pp_events = Raise TypeError).
Proof.
  split.
  - intros good d rest Hr Hgood Hb.
    unfold Agent.aggregate_incidents. unfold records in Hr. rewrite Hr.
    simpl.
    rewrite (@for_each_first_raise _ _ Agent.detection_incident good
               (VDict d) rest IndexError).
    + reflexivity.
    + eapply Forall_impl; [|exact Hgood]. apply detection_incident_ok.
    + apply detection_incident_empty_behaviors. exact Hb.
  - intros v Hv Hn. unfold Agent.aggregate_incidents.
    rewrite (dict_get_has _ Hv), (py_iter_not_iterable Hn). reflexivity.
Qed.
